(** * Recurring-event expansion of the voice-calendar server

    A shallow embedding of the two storage backends of the calendar server
    (the in-memory [MemStorage] / [EnhancedMemStorage] classes and the
    relational [SupabaseStorage] class) together with the date arithmetic
    they rest on, followed by the properties of the expansion engine and of
    the instance-mutation operations.

    Conventions of the embedding:
    - a JavaScript [Date] holding a valid time value is an integer number of
      milliseconds since the epoch ([Z]); a computation that may yield an
      Invalid Date returns [option Z], [None] standing for NaN;
    - timestamps are naive: local time is taken to be UTC, without daylight
      saving shifts;
    - a JavaScript string is the sequence of the bytes of its UTF-8
      encoding;
    - JavaScript numbers are exact integers here; on the range of valid time
      values (at most 8.64e15 in magnitude, below 2^53) doubles are exact;
    - fresh identifiers ([randomUUID], [gen_random_uuid()]) and the clock
      ([new Date()]) are explicit arguments of the operations. *)

From Stdlib Require Import ZArith Lia String Ascii List Bool Permutation Sorted.
From Stdlib Require Import DecimalString.
From stdpp Require Import gmap strings.

Import ListNotations.
Local Open Scope Z_scope.

(** ** ECMAScript date arithmetic (ECMA-262, Date objects) *)

Module JSDate.

Definition msPerDay : Z := 86400000.

Definition Day (t : Z) : Z := t / msPerDay.
Definition TimeWithinDay (t : Z) : Z := t mod msPerDay.

Definition DayFromYear (y : Z) : Z :=
  365 * (y - 1970) + (y - 1969) / 4 - (y - 1901) / 100 + (y - 1601) / 400.

Definition DaysInYear (y : Z) : Z :=
  if negb (y mod 4 =? 0) then 365
  else if negb (y mod 100 =? 0) then 366
  else if negb (y mod 400 =? 0) then 365
  else 366.

Definition InLeapYearOf (y : Z) : Z := DaysInYear y - 365.

(** [YearFromTime(t)] is "the largest integer y such that
    TimeFromYear(y) <= t".  It is computed from the mean year length of the
    400-year cycle and corrected by at most one year; [YearFromDay_spec]
    below shows that this meets the defining property. *)
Definition YearFromDay (n : Z) : Z :=
  let y0 := 1970 + (n * 400) / 146097 in
  if n <? DayFromYear y0 then y0 - 1
  else if DayFromYear (y0 + 1) <=? n then y0 + 1
  else y0.

Definition YearFromTime (t : Z) : Z := YearFromDay (Day t).
Definition InLeapYear (t : Z) : Z := InLeapYearOf (YearFromTime t).
Definition DayWithinYear (t : Z) : Z := Day t - DayFromYear (YearFromTime t).

(** Day number, within its year, of the first day of month [m] (0-based);
    [leap] is 1 in a leap year and 0 otherwise.  These are the thresholds
    of the [MonthFromTime] table. *)
Definition monthStart (m leap : Z) : Z :=
  if m <=? 0 then 0
  else if m =? 1 then 31
  else if m =? 2 then 59 + leap
  else if m =? 3 then 90 + leap
  else if m =? 4 then 120 + leap
  else if m =? 5 then 151 + leap
  else if m =? 6 then 181 + leap
  else if m =? 7 then 212 + leap
  else if m =? 8 then 243 + leap
  else if m =? 9 then 273 + leap
  else if m =? 10 then 304 + leap
  else if m =? 11 then 334 + leap
  else 365 + leap.

Definition monthOfDayWithinYear (d leap : Z) : Z :=
  if d <? 31 then 0
  else if d <? 59 + leap then 1
  else if d <? 90 + leap then 2
  else if d <? 120 + leap then 3
  else if d <? 151 + leap then 4
  else if d <? 181 + leap then 5
  else if d <? 212 + leap then 6
  else if d <? 243 + leap then 7
  else if d <? 273 + leap then 8
  else if d <? 304 + leap then 9
  else if d <? 334 + leap then 10
  else 11.

Definition MonthFromTime (t : Z) : Z :=
  monthOfDayWithinYear (DayWithinYear t) (InLeapYear t).

Definition DateFromTime (t : Z) : Z :=
  DayWithinYear t - monthStart (MonthFromTime t) (InLeapYear t) + 1.

Definition WeekDay (t : Z) : Z := (Day t + 4) mod 7.

(** [MakeDay(year, month, date)]: the day number of the first day of the
    normalised month, plus [date - 1]. *)
Definition MakeDay (year month date : Z) : Z :=
  let ym := year + month / 12 in
  let mn := month mod 12 in
  DayFromYear ym + monthStart mn (InLeapYearOf ym) + date - 1.

Definition MakeTime (hour min sec ms : Z) : Z :=
  hour * 3600000 + min * 60000 + sec * 1000 + ms.

Definition MakeDate (day time : Z) : Z := day * msPerDay + time.

Definition maxTime : Z := 8640000000000000.

Definition TimeClip (t : Z) : option Z :=
  if Z.abs t <=? maxTime then Some t else None.

(** Methods of [Date.prototype], on a valid time value. *)
Definition getTime (t : Z) : Z := t.
Definition getFullYear (t : Z) : Z := YearFromTime t.
Definition getMonth (t : Z) : Z := MonthFromTime t.
Definition getDate (t : Z) : Z := DateFromTime t.

Definition setDate (t dt : Z) : option Z :=
  TimeClip (MakeDate (MakeDay (YearFromTime t) (MonthFromTime t) dt)
                     (TimeWithinDay t)).

Definition setMonth2 (t m dt : Z) : option Z :=
  TimeClip (MakeDate (MakeDay (YearFromTime t) m dt) (TimeWithinDay t)).

Definition setMonth (t m : Z) : option Z := setMonth2 t m (DateFromTime t).

Definition setFullYear3 (t y m dt : Z) : option Z :=
  TimeClip (MakeDate (MakeDay y m dt) (TimeWithinDay t)).

Definition setFullYear (t y : Z) : option Z :=
  setFullYear3 t y (MonthFromTime t) (DateFromTime t).

(** [new Date(year, month, date, hours, minutes)], for writing examples. *)
Definition dateOf (y mo d h mi : Z) : Z :=
  MakeDate (MakeDay y mo d) (MakeTime h mi 0 0).

(** *** Rendering *)

Definition digits (n : Z) : string :=
  NilZero.string_of_uint (N.to_uint (Z.to_N n)).

Fixpoint zeros (k : nat) : string :=
  match k with
  | O => EmptyString
  | S k' => String "0"%char (zeros k')
  end.

(** [String(n).padStart(width, "0")] for a non-negative integer. *)
Definition padStart0 (width : nat) (n : Z) : string :=
  let s := digits n in
  String.append (zeros (width - String.length s)) s.

(** [Number.prototype.toString] on an integer. *)
Definition numberToString (n : Z) : string :=
  if n <? 0 then String.append "-" (digits (- n)) else digits n.

Definition dayName (w : Z) : string :=
  if w =? 0 then "Sun" else if w =? 1 then "Mon" else if w =? 2 then "Tue"
  else if w =? 3 then "Wed" else if w =? 4 then "Thu"
  else if w =? 5 then "Fri" else "Sat".

Definition monthName (m : Z) : string :=
  if m =? 0 then "Jan" else if m =? 1 then "Feb" else if m =? 2 then "Mar"
  else if m =? 3 then "Apr" else if m =? 4 then "May"
  else if m =? 5 then "Jun" else if m =? 6 then "Jul"
  else if m =? 7 then "Aug" else if m =? 8 then "Sep"
  else if m =? 9 then "Oct" else if m =? 10 then "Nov" else "Dec".

(** [Date.prototype.toDateString], e.g. "Mon Mar 11 2024". *)
Definition toDateString (t : Z) : string :=
  let y := YearFromTime t in
  String.concat " "
    [ dayName (WeekDay t);
      monthName (MonthFromTime t);
      padStart0 2 (DateFromTime t);
      String.append (if y <? 0 then "-" else "") (padStart0 4 (Z.abs y)) ].

(** [parseInt(s)] without a radix argument.  A string is the sequence of
    the bytes of its UTF-8 encoding.  The function skips the leading white
    space and line terminators of ECMA-262 (StrWhiteSpaceChar), reads an
    optional sign and an optional "0x" prefix, then the longest run of
    digits; [None] is NaN.  The result is the integer that the digits
    denote: the code holds it as a Number, which differs from it only beyond
    2^53, where the series end computed from it is out of the range of time
    values either way. *)

(** TAB, LF, VT, FF, CR and SPACE. *)
Definition isWhite (c : ascii) : bool :=
  let n := nat_of_ascii c in
  (Nat.eqb n 32 || Nat.eqb n 9 || Nat.eqb n 10 || Nat.eqb n 11
   || Nat.eqb n 12 || Nat.eqb n 13)%bool.

(** U+00A0 NO-BREAK SPACE, encoded on two bytes. *)
Definition isWhite2 (c1 c2 : ascii) : bool :=
  (Nat.eqb (nat_of_ascii c1) 194 && Nat.eqb (nat_of_ascii c2) 160)%bool.

(** The white space encoded on three bytes: U+1680, U+2000 to U+200A,
    U+2028, U+2029, U+202F, U+205F, U+3000 and U+FEFF. *)
Definition isWhite3 (c1 c2 c3 : ascii) : bool :=
  let a := nat_of_ascii c1 in
  let b := nat_of_ascii c2 in
  let c := nat_of_ascii c3 in
  ((Nat.eqb a 225 && Nat.eqb b 154 && Nat.eqb c 128)
   || (Nat.eqb a 226 && Nat.eqb b 128
       && ((Nat.leb 128 c && Nat.leb c 138)
           || Nat.eqb c 168 || Nat.eqb c 169 || Nat.eqb c 175))
   || (Nat.eqb a 226 && Nat.eqb b 129 && Nat.eqb c 159)
   || (Nat.eqb a 227 && Nat.eqb b 128 && Nat.eqb c 128)
   || (Nat.eqb a 239 && Nat.eqb b 187 && Nat.eqb c 191))%bool.

Fixpoint trimStart (s : string) : string :=
  match s with
  | String c1 s1 =>
      if isWhite c1 then trimStart s1
      else
        match s1 with
        | String c2 s2 =>
            if isWhite2 c1 c2 then trimStart s2
            else
              match s2 with
              | String c3 s3 =>
                  if isWhite3 c1 c2 c3 then trimStart s3 else s
              | EmptyString => s
              end
        | EmptyString => s
        end
  | EmptyString => s
  end.

Definition digitValue (radix : Z) (c : ascii) : option Z :=
  let n := Z.of_nat (nat_of_ascii c) in
  let v :=
    if (48 <=? n) && (n <=? 57) then n - 48
    else if (97 <=? n) && (n <=? 122) then n - 87
    else if (65 <=? n) && (n <=? 90) then n - 55
    else radix in
  if v <? radix then Some v else None.

Fixpoint parseDigits (radix : Z) (s : string) (acc : option Z) : option Z :=
  match s with
  | String c s' =>
      match digitValue radix c with
      | Some v =>
          parseDigits radix s'
            (Some (match acc with Some a => a * radix + v | None => v end))
      | None => acc
      end
  | EmptyString => acc
  end.

Definition parseInt (input : string) : option Z :=
  let s := trimStart input in
  let '(sign, s) :=
    match s with
    | String "-"%char s' => (-1, s')
    | String "+"%char s' => (1, s')
    | _ => (1, s)
    end in
  let '(radix, s) :=
    match s with
    | String "0"%char (String "x"%char s') => (16, s')
    | String "0"%char (String "X"%char s') => (16, s')
    | _ => (10, s)
    end in
  match parseDigits radix s None with
  | Some v => Some (sign * v)
  | None => None
  end.

End JSDate.

(** ** The date-fns functions imported by the database backend

    date-fns is an npm dependency ([supabaseStorage.ts], line 5); the
    definitions follow the library's implementation: [addDays] is
    [setDate(getDate() + amount)], [addWeeks] is [addDays] of seven times the
    amount, [addMonths] clamps the day of the month to the length of the
    target month, and [addYears] is [addMonths] of twelve times the amount.
    An amount of [None] is NaN. *)

Module DateFns.
Import JSDate.

Definition addDays (date : Z) (amount : option Z) : option Z :=
  match amount with
  | None => None
  | Some a => if a =? 0 then Some date else setDate date (getDate date + a)
  end.

Definition addWeeks (date : Z) (amount : option Z) : option Z :=
  addDays date (option_map (fun a => a * 7) amount).

Definition addMonths (date : Z) (amount : option Z) : option Z :=
  match amount with
  | None => None
  | Some a =>
      if a =? 0 then Some date
      else
        let dayOfMonth := getDate date in
        match setMonth2 date (getMonth date + a + 1) 0 with
        | None => None
        | Some endOfDesiredMonth =>
            let daysInMonth := getDate endOfDesiredMonth in
            if dayOfMonth >=? daysInMonth then Some endOfDesiredMonth
            else setFullYear3 date (getFullYear endOfDesiredMonth)
                   (getMonth endOfDesiredMonth) dayOfMonth
        end
  end.

Definition addYears (date : Z) (amount : option Z) : option Z :=
  addMonths date (option_map (fun a => a * 12) amount).

(** [isBefore(a, b)] is [+a < +b], false when either side is invalid. *)
Definition isBefore (a b : option Z) : bool :=
  match a, b with
  | Some x, Some y => x <? y
  | _, _ => false
  end.

(** [format(date, 'yyyy-MM-dd')]: the year token prints the year of the
    era (1 for the year 0, 2 for the year -1, ...), zero-padded. *)
Definition format_yyyy_MM_dd (t : Z) : string :=
  let signedYear := getFullYear t in
  let year := if signedYear >? 0 then signedYear else 1 - signedYear in
  String.concat "-"
    [ padStart0 4 year; padStart0 2 (getMonth t + 1); padStart0 2 (getDate t) ].

End DateFns.

(** ** The shared schema ([shared/schema.ts]) *)

Module Schema.

(** A row of the [events] table.  [None] is SQL NULL, or an absent
    property of the JavaScript object. *)
Record Event := mkEvent {
  id : string;
  title : string;
  description : option string;
  startDate : Z;
  endDate : option Z;
  isRecurring : option bool;
  recurringPattern : option string;
  recurringWeeks : option string;
  parentEventId : option string;
  originalDate : option Z;
  createdAt : option Z
}.

(** A row of the [event_exceptions] table. *)
Record EventException := mkEventException {
  exId : string;
  exParentEventId : string;
  exceptionDate : Z;
  exType : string;
  modifiedEventId : option string;
  exCreatedAt : option Z
}.

(** [InsertEvent]: the event columns without [id] and [createdAt].  [None]
    is a property that the object does not have.  For the columns without a
    default a null property is stored and read like a missing one; the
    column [is_recurring] has a default, and there [None] is the missing
    property only. *)
Record InsertEvent := mkInsertEvent {
  insTitle : string;
  insDescription : option string;
  insStartDate : Z;
  insEndDate : option Z;
  insIsRecurring : option bool;
  insRecurringPattern : option string;
  insRecurringWeeks : option string;
  insParentEventId : option string;
  insOriginalDate : option Z
}.

(** [Partial<InsertEvent>]: every property may be missing; [None] is a
    missing or null property (the operations below read the properties
    through [??], which treats both alike). *)
Record PartialInsertEvent := mkPartial {
  updTitle : option string;
  updDescription : option string;
  updStartDate : option Z;
  updEndDate : option Z;
  updIsRecurring : option bool;
  updRecurringPattern : option string;
  updRecurringWeeks : option string;
  updParentEventId : option string;
  updOriginalDate : option Z
}.

Definition noUpdates : PartialInsertEvent :=
  mkPartial None None None None None None None None None.

Definition event_eqb (a b : Event) : bool :=
  bool_decide (a.(id) = b.(id)) && bool_decide (a.(title) = b.(title))
  && bool_decide (a.(description) = b.(description))
  && bool_decide (a.(startDate) = b.(startDate))
  && bool_decide (a.(endDate) = b.(endDate))
  && bool_decide (a.(isRecurring) = b.(isRecurring))
  && bool_decide (a.(recurringPattern) = b.(recurringPattern))
  && bool_decide (a.(recurringWeeks) = b.(recurringWeeks))
  && bool_decide (a.(parentEventId) = b.(parentEventId))
  && bool_decide (a.(originalDate) = b.(originalDate))
  && bool_decide (a.(createdAt) = b.(createdAt)).

(** JavaScript truthiness of a nullable string and of a nullable boolean. *)
Definition truthyStr (o : option string) : bool :=
  match o with
  | Some s => negb (String.eqb s "")
  | None => false
  end.

Definition truthyBool (o : option bool) : bool :=
  match o with
  | Some b => b
  | None => false
  end.

(** [a ?? b] *)
Definition coalesce {A} (a b : option A) : option A :=
  match a with
  | Some _ => a
  | None => b
  end.

(** [a || null] on a nullable string. *)
Definition orNull (o : option string) : option string :=
  if truthyStr o then o else None.

(** [list.sort((a, b) => a.startDate - b.startDate)]: a stable sort on the
    start instant. *)
Fixpoint insertByStart (e : Event) (l : list Event) : list Event :=
  match l with
  | [] => [e]
  | x :: l' =>
      if x.(startDate) <=? e.(startDate) then x :: insertByStart e l'
      else e :: l
  end.

Definition sortByStart (l : list Event) : list Event :=
  fold_left (fun acc e => insertByStart e acc) l [].

(** Membership in a [Set<string>]. *)
Definition has (set : list string) (key : string) : bool :=
  existsb (String.eqb key) set.

End Schema.

(** ** The in-memory backend ([MemStorage] and [EnhancedMemStorage]) *)

Module Mem.
Import JSDate Schema.

(** The objects pushed on the per-parent exception arrays. *)
Record Exception := mkException {
  exceptionDate : Z;
  type : string;
  modifiedEventId : option string
}.

(** [events] is a [Map<string, Event>], iterated in insertion order;
    [eventExceptions] is a [Map<string, any[]>], only looked up by key. *)
Record State := mkState {
  events : list (string * Event);
  eventExceptions : gmap string (list Exception)
}.

Definition empty : State := mkState [] ∅.

Fixpoint mapGet (m : list (string * Event)) (k : string) : option Event :=
  match m with
  | [] => None
  | (k', v) :: m' => if String.eqb k' k then Some v else mapGet m' k
  end.

Fixpoint mapSet (m : list (string * Event)) (k : string) (v : Event)
  : list (string * Event) :=
  match m with
  | [] => [(k, v)]
  | (k', v') :: m' =>
      if String.eqb k' k then (k', v) :: m' else (k', v') :: mapSet m' k v
  end.

Definition mapDelete (m : list (string * Event)) (k : string)
  : list (string * Event) :=
  List.filter (fun kv => negb (String.eqb (fst kv) k)) m.

Definition mapValues (m : list (string * Event)) : list Event := map snd m.

Definition getEvent (s : State) (eid : string) : option Event :=
  mapGet s.(events) eid.

Definition createEvent (s : State) (newId : string) (now : Z)
    (ins : InsertEvent) : State * Event :=
  let event :=
    mkEvent newId ins.(insTitle) (orNull ins.(insDescription))
      ins.(insStartDate) ins.(insEndDate)
      (Some (truthyBool ins.(insIsRecurring)))
      (orNull ins.(insRecurringPattern)) (orNull ins.(insRecurringWeeks))
      None None (Some now) in
  (mkState (mapSet s.(events) newId event) s.(eventExceptions), event).

(** [this.events.delete(id)]: the exception map is left as it is. *)
Definition deleteEvent (s : State) (eid : string) : State * bool :=
  (mkState (mapDelete s.(events) eid) s.(eventExceptions),
   bool_decide (is_Some (mapGet s.(events) eid))).

Definition getRecurrenceInterval (pattern : string) : Z :=
  if String.eqb pattern "daily" then 1
  else if String.eqb pattern "weekly" then 7
  else if String.eqb pattern "monthly" then 30
  else if String.eqb pattern "yearly" then 365
  else 7.

(** The date of the [i]-th repetition in [generateRecurringEvents]; the
    outer [None] is the [default: continue] branch, the inner one an
    Invalid Date. *)
Definition legacyDate (baseDate : Z) (pattern : option string) (i : Z)
  : option (option Z) :=
  match pattern with
  | Some p =>
      if String.eqb p "daily" then Some (setDate baseDate (getDate baseDate + i))
      else if String.eqb p "weekly" then
        Some (setDate baseDate (getDate baseDate + i * 7))
      else if String.eqb p "monthly" then
        Some (setMonth baseDate (getMonth baseDate + i))
      else if String.eqb p "yearly" then
        Some (setFullYear baseDate (getFullYear baseDate + i))
      else None
  | None => None
  end.

(** One turn of the [for] loop of [generateRecurringEvents].  An instance
    whose date left the range of time values is an Invalid Date: it
    compares false with every bound, so the range filter of
    [getEventsByDateRange] drops it, and it is left out here. *)
Definition legacyInstance (baseEvent : Event) (i : Z) : list Event :=
  let baseDate := baseEvent.(startDate) in
  match legacyDate baseDate baseEvent.(recurringPattern) i with
  | Some (Some newDate) =>
      [ mkEvent (baseEvent.(id) +:+ "-recur-" +:+ numberToString i)
          baseEvent.(title) baseEvent.(description) newDate
          (match baseEvent.(endDate) with
           | Some e => TimeClip (newDate + (e - baseDate))
           | None => None
           end)
          baseEvent.(isRecurring) baseEvent.(recurringPattern)
          baseEvent.(recurringWeeks) None None baseEvent.(createdAt) ]
  | _ => []
  end.

Definition generateRecurringEvents (baseEvent : Event) (daysAhead : Z)
  : list Event :=
  let interval :=
    getRecurrenceInterval
      (match orNull baseEvent.(recurringPattern) with
       | Some p => p
       | None => "weekly"
       end) in
  flat_map (fun i => legacyInstance baseEvent (Z.of_nat i))
    (seq 1 (Z.to_nat (daysAhead / interval))).

(** [MemStorage.getEventsByDateRange]; [EnhancedMemStorage] inherits it. *)
Definition getEventsByDateRange (s : State) (startDate endDate : Z)
  : list Event :=
  sortByStart
    (flat_map
       (fun event =>
          (if (startDate <=? event.(Schema.startDate))
              && (event.(Schema.startDate) <=? endDate)
           then [event] else [])
          ++
          (if truthyBool event.(isRecurring)
              && truthyStr event.(recurringPattern)
           then
             List.filter
               (fun recurEvent =>
                  (startDate <=? recurEvent.(Schema.startDate))
                  && (recurEvent.(Schema.startDate) <=? endDate))
               (generateRecurringEvents event 365)
           else []))
       (mapValues s.(events))).

(** [EnhancedMemStorage.deleteRecurringInstance] *)
Definition deleteRecurringInstance (s : State) (parentEventId : string)
    (instanceDate : Z) : State * bool :=
  let arr := default [] (s.(eventExceptions) !! parentEventId) in
  (mkState s.(events)
     (<[parentEventId := arr ++ [mkException instanceDate "deleted" None]]>
        s.(eventExceptions)),
   true).

(** [EnhancedMemStorage.updateRecurringInstance]; [modifiedEventId] is the
    value of [randomUUID()], [now] that of [new Date()]. *)
Definition updateRecurringInstance (s : State) (modifiedEventId : string)
    (now : Z) (parentEventId : string) (instanceDate : Z)
    (updates : PartialInsertEvent) : State * option Event :=
  match getEvent s parentEventId with
  | None => (s, None)
  | Some parentEvent =>
      let modifiedEvent :=
        mkEvent modifiedEventId
          (match updates.(updTitle) with
           | Some t => t
           | None => parentEvent.(title)
           end)
          (coalesce updates.(updDescription) parentEvent.(description))
          (match updates.(updStartDate) with
           | Some d => d
           | None => instanceDate
           end)
          (coalesce updates.(updEndDate) parentEvent.(endDate))
          (Some false) None None
          (Some parentEventId) (Some instanceDate) (Some now) in
      let arr := default [] (s.(eventExceptions) !! parentEventId) in
      (mkState (mapSet s.(events) modifiedEventId modifiedEvent)
         (<[parentEventId :=
              arr ++ [mkException instanceDate "modified"
                        (Some modifiedEventId)]]>
            s.(eventExceptions)),
       Some modifiedEvent)
  end.

(** [EnhancedMemStorage.getNextRecurrenceDate].  The pattern is passed
    with a non-null assertion, which is erased at run time: a null pattern
    reaches the [switch] and takes the default branch. *)
Definition getNextRecurrenceDate (currentDate : Z) (pattern : option string)
  : option Z :=
  match pattern with
  | Some p =>
      if String.eqb p "daily" then setDate currentDate (getDate currentDate + 1)
      else if String.eqb p "weekly" then
        setDate currentDate (getDate currentDate + 7)
      else if String.eqb p "monthly" then
        setMonth currentDate (getMonth currentDate + 1)
      else if String.eqb p "yearly" then
        setFullYear currentDate (getFullYear currentDate + 1)
      else setDate currentDate (getDate currentDate + 7)
  | None => setDate currentDate (getDate currentDate + 7)
  end.

Definition maxIterations : nat := 500.

(** The series end of [generateRecurringInstances]; [None] is an Invalid
    Date ([parseInt] gave NaN, or the sum left the range of time values). *)
Definition seriesEnd (baseEvent : Event) (endDate : Z) : option Z :=
  if truthyStr baseEvent.(recurringWeeks)
     && negb (bool_decide (baseEvent.(recurringWeeks) = Some "indefinite"))
  then
    match parseInt (default "" baseEvent.(recurringWeeks)) with
    | Some weeksToAdd =>
        match TimeClip (baseEvent.(startDate)
                        + weeksToAdd * 7 * 24 * 60 * 60 * 1000) with
        | Some calculatedEndDate => Some (Z.min calculatedEndDate endDate)
        | None => None
        end
    | None => None
    end
  else Some endDate.

Definition instance (baseEvent : Event) (currentDate : Z) : Event :=
  let timeDiff :=
    match baseEvent.(endDate) with
    | Some e => e - baseEvent.(startDate)
    | None => 0
    end in
  mkEvent (baseEvent.(id) +:+ "-recur-" +:+ numberToString (getTime currentDate))
    baseEvent.(title) baseEvent.(description) currentDate
    (if timeDiff >? 0 then TimeClip (currentDate + timeDiff) else None)
    baseEvent.(isRecurring) baseEvent.(recurringPattern)
    baseEvent.(recurringWeeks) (Some baseEvent.(id)) (Some currentDate)
    baseEvent.(createdAt).

(** The [while] loop of [generateRecurringInstances]; [remaining] is
    [maxIterations - iterationCount]. *)
Fixpoint instancesLoop (remaining : nat) (baseEvent : Event)
    (seriesEndDate : option Z) (deletedDates modifiedDates : list string)
    (currentDate : option Z) : list Event :=
  match remaining with
  | O => []
  | S remaining' =>
      match currentDate, seriesEndDate with
      | Some cur, Some e =>
          if cur <? e then
            let dateString := toDateString cur in
            let next := getNextRecurrenceDate cur baseEvent.(recurringPattern) in
            if has deletedDates dateString || has modifiedDates dateString
            then instancesLoop remaining' baseEvent seriesEndDate
                   deletedDates modifiedDates next
            else instance baseEvent cur
                 :: instancesLoop remaining' baseEvent seriesEndDate
                      deletedDates modifiedDates next
          else []
      | _, _ => []
      end
  end.

Definition generateRecurringInstances (baseEvent : Event)
    (startDate endDate : Z) (deletedDates modifiedDates : list string)
  : list Event :=
  instancesLoop maxIterations baseEvent (seriesEnd baseEvent endDate)
    deletedDates modifiedDates
    (Some (Z.max baseEvent.(Schema.startDate) startDate)).

Definition datesOfType (ty : string) (exceptions : list Exception)
  : list string :=
  map (fun e => toDateString e.(exceptionDate))
    (List.filter (fun e => String.eqb e.(type) ty) exceptions).

Definition expandRecurringEvents (s : State) (now : Z)
    (baseEvents : list Event) : list Event :=
  let endDate := now + 6 * 30 * 24 * 60 * 60 * 1000 in
  sortByStart
    (flat_map
       (fun event =>
          if negb (truthyBool event.(isRecurring)) then [event]
          else
            let exceptions := default [] (s.(eventExceptions) !! event.(id)) in
            generateRecurringInstances event now endDate
              (datesOfType "deleted" exceptions)
              (datesOfType "modified" exceptions))
       baseEvents).

(** [EnhancedMemStorage.getEvents] *)
Definition getEvents (s : State) (now : Z) : list Event :=
  expandRecurringEvents s now (mapValues s.(events)).

End Mem.

(** ** The relational backend ([SupabaseStorage]) *)

Module Db.
Import JSDate DateFns Schema.

(** The two tables.  [events.id] and [event_exceptions.id] are primary
    keys; [event_exceptions.parent_event_id] and
    [event_exceptions.modified_event_id] reference [events.id] with
    [ON DELETE CASCADE]; [events.parent_event_id] is a plain column. *)
Record State := mkState {
  events : list Event;
  eventExceptions : list EventException
}.

Definition empty : State := mkState [] [].

(** A statement either completes or is rejected by a constraint (the
    promise rejects and nothing is written). *)
Inductive Outcome (A : Type) : Type :=
| Done (s : State) (a : A)
| Rejected.
Arguments Done {A} s a.
Arguments Rejected {A}.

Definition eventExists (s : State) (eid : string) : bool :=
  existsb (fun e => String.eqb e.(id) eid) s.(events).

Definition exceptionExists (s : State) (xid : string) : bool :=
  existsb (fun x => String.eqb x.(exId) xid) s.(eventExceptions).

(** [db.insert(events).values(row)], with the primary-key check. *)
Definition insertEventRow (s : State) (row : Event) : Outcome Event :=
  if eventExists s row.(id) then Rejected
  else Done (mkState (s.(events) ++ [row]) s.(eventExceptions)) row.

(** [db.insert(eventExceptions).values(row)], with the primary-key and the
    two foreign-key checks. *)
Definition insertExceptionRow (s : State) (row : EventException)
  : Outcome unit :=
  if exceptionExists s row.(exId)
     || negb (eventExists s row.(exParentEventId))
     || match row.(modifiedEventId) with
        | Some m => negb (eventExists s m)
        | None => false
        end
  then Rejected
  else Done (mkState s.(events) (s.(eventExceptions) ++ [row])) tt.

Definition getEvent (s : State) (eid : string) : option Event :=
  find (fun e => String.eqb e.(id) eid) s.(events).

(** [createEvent], for a request whose [isRecurring] is a boolean or is
    left out, and whose dates are time values that the driver stores and
    reads back as they are: an omitted [isRecurring] takes the column
    default, [id] and [createdAt] are generated. *)
Definition createEvent (s : State) (newId : string) (now : Z)
    (ins : InsertEvent) : Outcome Event :=
  insertEventRow s
    (mkEvent newId ins.(insTitle) ins.(insDescription) ins.(insStartDate)
       ins.(insEndDate)
       (Some (match ins.(insIsRecurring) with Some b => b | None => false end))
       ins.(insRecurringPattern) ins.(insRecurringWeeks)
       ins.(insParentEventId) ins.(insOriginalDate) (Some now)).

(** [deleteEvent]: the row is deleted and the deletion cascades to the
    exception rows that reference it. *)
Definition deleteEvent (s : State) (eid : string) : State * bool :=
  (mkState
     (List.filter (fun e => negb (String.eqb e.(id) eid)) s.(events))
     (List.filter
        (fun x =>
           negb (String.eqb x.(exParentEventId) eid)
           && negb (bool_decide (x.(modifiedEventId) = Some eid)))
        s.(eventExceptions)),
   eventExists s eid).

(** [deleteRecurringInstance]; [newId] is the generated key of the row. *)
Definition deleteRecurringInstance (s : State) (newId : string) (now : Z)
    (parentEventId : string) (instanceDate : Z) : Outcome bool :=
  match insertExceptionRow s
          (mkEventException newId parentEventId instanceDate "deleted"
             None (Some now)) with
  | Done s' _ => Done s' true
  | Rejected => Rejected
  end.

(** [updateRecurringInstance]; [newEventId] and [newExceptionId] are the
    generated keys of the two rows. *)
Definition updateRecurringInstance (s : State)
    (newEventId newExceptionId : string) (now : Z)
    (parentEventId : string) (instanceDate : Z)
    (updates : PartialInsertEvent) : Outcome (option Event) :=
  match getEvent s parentEventId with
  | None => Done s None
  | Some parentEvent =>
      match insertEventRow s
              (mkEvent newEventId
                 (match updates.(updTitle) with
                  | Some t => t
                  | None => parentEvent.(title)
                  end)
                 (coalesce updates.(updDescription) parentEvent.(description))
                 (match updates.(updStartDate) with
                  | Some d => d
                  | None => instanceDate
                  end)
                 (coalesce updates.(updEndDate) parentEvent.(endDate))
                 (Some false) None None
                 (Some parentEventId) (Some instanceDate) (Some now)) with
      | Rejected => Rejected
      | Done s1 modifiedEvent =>
          match insertExceptionRow s1
                  (mkEventException newExceptionId parentEventId
                     instanceDate "modified" (Some modifiedEvent.(id))
                     (Some now)) with
          | Rejected => Rejected
          | Done s2 _ => Done s2 (Some modifiedEvent)
          end
      end
  end.

(** [getNextRecurrenceDate]; a null pattern takes the default branch. *)
Definition getNextRecurrenceDate (currentDate : Z) (pattern : option string)
  : option Z :=
  match pattern with
  | Some p =>
      if String.eqb p "daily" then addDays currentDate (Some 1)
      else if String.eqb p "weekly" then addWeeks currentDate (Some 1)
      else if String.eqb p "monthly" then addMonths currentDate (Some 1)
      else if String.eqb p "yearly" then addYears currentDate (Some 1)
      else addWeeks currentDate (Some 1)
  | None => addWeeks currentDate (Some 1)
  end.

(** [Math.min] of two time values, NaN when either is. *)
Definition minTime (a b : option Z) : option Z :=
  match a, b with
  | Some x, Some y => Some (Z.min x y)
  | _, _ => None
  end.

Definition seriesEnd (baseEvent : Event) (endDate : option Z) : option Z :=
  if truthyStr baseEvent.(recurringWeeks)
     && negb (bool_decide (baseEvent.(recurringWeeks) = Some "indefinite"))
  then
    let weeksToAdd := parseInt (default "" baseEvent.(recurringWeeks)) in
    let calculatedEndDate := addWeeks baseEvent.(startDate) weeksToAdd in
    minTime calculatedEndDate endDate
  else endDate.

Definition datesOfType (ty : string) (exceptions : list EventException)
  : list string :=
  map (fun ex => format_yyyy_MM_dd ex.(exceptionDate))
    (List.filter (fun ex => String.eqb ex.(exType) ty) exceptions).

Definition instance (baseEvent : Event) (currentDate : Z) : Event :=
  let timeDiff :=
    match baseEvent.(endDate) with
    | Some e => e
    | None => baseEvent.(startDate)
    end - baseEvent.(startDate) in
  mkEvent (baseEvent.(id) +:+ "-recur-" +:+ format_yyyy_MM_dd currentDate)
    baseEvent.(title) baseEvent.(description) currentDate
    (match baseEvent.(endDate) with
     | Some _ => TimeClip (currentDate + timeDiff)
     | None => None
     end)
    baseEvent.(isRecurring) baseEvent.(recurringPattern)
    baseEvent.(recurringWeeks) (Some baseEvent.(id)) (Some currentDate)
    baseEvent.(createdAt).

(** The [while (isBefore(currentDate, seriesEndDate))] loop.  The source
    loop has no counter; [fuel] bounds the number of turns of the model and
    [None] means that it ran out ([Db_loop_completes] shows that
    [loopFuel] turns always suffice). *)
Fixpoint instancesLoop (fuel : nat) (baseEvent : Event)
    (seriesEndDate : option Z) (deletedDates modifiedDates : list string)
    (currentDate : option Z) : option (list Event) :=
  if isBefore currentDate seriesEndDate then
    match fuel, currentDate with
    | S fuel', Some cur =>
        let dateKey := format_yyyy_MM_dd cur in
        let next := getNextRecurrenceDate cur baseEvent.(recurringPattern) in
        if has deletedDates dateKey then
          instancesLoop fuel' baseEvent seriesEndDate deletedDates
            modifiedDates next
        else if has modifiedDates dateKey then
          instancesLoop fuel' baseEvent seriesEndDate deletedDates
            modifiedDates next
        else
          option_map (cons (instance baseEvent cur))
            (instancesLoop fuel' baseEvent seriesEndDate deletedDates
               modifiedDates next)
    | _, _ => None
    end
  else Some [].

Definition loopFuel (currentDate : Z) (seriesEndDate : option Z) : nat :=
  match seriesEndDate with
  | Some e => Z.to_nat ((e - currentDate) / msPerDay + 1)
  | None => O
  end.

Definition generateRecurringInstances (baseEvent : Event) (startDate : Z)
    (endDate : option Z) (exceptions : list EventException) : list Event :=
  let currentDate := Z.max baseEvent.(Schema.startDate) startDate in
  let seriesEndDate := seriesEnd baseEvent endDate in
  default []
    (instancesLoop (loopFuel currentDate seriesEndDate) baseEvent
       seriesEndDate (datesOfType "deleted" exceptions)
       (datesOfType "modified" exceptions) (Some currentDate)).

(** The grouping of the exception rows by parent. *)
Definition exceptionMap (exceptions : list EventException)
  : gmap string (list EventException) :=
  fold_left
    (fun m ex =>
       <[ex.(exParentEventId) :=
           default [] (m !! ex.(exParentEventId)) ++ [ex]]> m)
    exceptions ∅.

(** [expandRecurringEvents(dbEvents, rangeStart?, rangeEnd?)] *)
Definition expandRecurringEvents (s : State) (now : Z)
    (dbEvents : list Event) (range : option (Z * Z)) : list Event :=
  let startDate := match range with Some (rs, _) => rs | None => now end in
  let endDate :=
    match range with
    | Some (_, re) => Some re
    | None => addMonths now (Some 6)
    end in
  let excMap := exceptionMap s.(eventExceptions) in
  let expandedEvents :=
    flat_map
      (fun event =>
         if negb (truthyBool event.(isRecurring)) then [event]
         else generateRecurringInstances event startDate endDate
                (default [] (excMap !! event.(id))))
      dbEvents in
  let modifiedEvents :=
    List.filter
      (fun e =>
         bool_decide (e.(isRecurring) = Some false)
         && bool_decide (is_Some e.(parentEventId)))
      s.(events) in
  sortByStart (expandedEvents ++ modifiedEvents).

(** [getEvents] *)
Definition getEvents (s : State) (now : Z) : list Event :=
  expandRecurringEvents s now (sortByStart s.(events)) None.

(** [getEventsByDateRange] *)
Definition getEventsByDateRange (s : State) (now : Z)
    (startDate endDate : Z) : list Event :=
  let dbEvents :=
    sortByStart
      (List.filter
         (fun e =>
            (startDate <=? e.(Schema.startDate))
            && (e.(Schema.startDate) <=? endDate))
         s.(events)) in
  expandRecurringEvents s now dbEvents (Some (startDate, endDate)).

End Db.

(** ** Specification vocabulary *)

(** Length of the month [m] (0-based, normalised as [MakeDay] does) of the
    year [y]. *)
Definition daysInMonth (y m : Z) : Z :=
  let ym := y + m / 12 in
  let mn := m mod 12 in
  JSDate.monthStart (mn + 1) (JSDate.InLeapYearOf ym)
  - JSDate.monthStart mn (JSDate.InLeapYearOf ym).

(** A time value from which every date at most 400 days away is a valid
    time value. *)
Definition awayFromLimits (t : Z) : Prop :=
  Z.abs t + 400 * JSDate.msPerDay <= JSDate.maxTime.

(** The year, month and day of the month that a recurrence step aims at,
    before normalisation: one day, seven days, one month or one year later;
    an unrecognised or missing pattern steps like "weekly". *)
Definition stepTarget (t : Z) (pattern : option string) : Z * Z * Z :=
  let y := JSDate.getFullYear t in
  let m := JSDate.getMonth t in
  let d := JSDate.getDate t in
  match pattern with
  | Some p =>
      if String.eqb p "daily" then (y, m, d + 1)
      else if String.eqb p "weekly" then (y, m, d + 7)
      else if String.eqb p "monthly" then (y, m + 1, d)
      else if String.eqb p "yearly" then (y + 1, m, d)
      else (y, m, d + 7)
  | None => (y, m, d + 7)
  end.

(** The same date and time of day at the year, month and day [ymd]. *)
Definition atDate (t : Z) (ymd : Z * Z * Z) : Z :=
  let '(y, m, d) := ymd in
  JSDate.MakeDate (JSDate.MakeDay y m d) (JSDate.TimeWithinDay t).

(** [ymd] with its day clamped to the length of its month. *)
Definition clampDay (ymd : Z * Z * Z) : Z * Z * Z :=
  let '(y, m, d) := ymd in (y, m, Z.min d (daysInMonth y m)).

(** The target of a step when the day of the month is clamped to the length
    of the month aimed at; only a step by months or years can overshoot. *)
Definition stepTargetClamped (t : Z) (pattern : option string) : Z * Z * Z :=
  match pattern with
  | Some p =>
      if String.eqb p "daily" then stepTarget t pattern
      else if String.eqb p "weekly" then stepTarget t pattern
      else if String.eqb p "monthly" then clampDay (stepTarget t pattern)
      else if String.eqb p "yearly" then clampDay (stepTarget t pattern)
      else stepTarget t pattern
  | None => stepTarget t pattern
  end.

(** Number of exception records stored for the parent [p] and the instant
    [d], in either backend. *)
Definition memExceptionCount (s : Mem.State) (p : string) (d : Z) : nat :=
  length (List.filter (fun x => x.(Mem.exceptionDate) =? d)
            (default [] (s.(Mem.eventExceptions) !! p))).

Definition dbExceptionCount (s : Db.State) (p : string) (d : Z) : nat :=
  length (List.filter
            (fun x => String.eqb x.(Schema.exParentEventId) p
                      && (x.(Schema.exceptionDate) =? d))
            s.(Db.eventExceptions)).

(** The steppers of the two backends, applied to the pattern of an event. *)
Definition memNext (baseEvent : Schema.Event) (c : Z) : option Z :=
  Mem.getNextRecurrenceDate c baseEvent.(Schema.recurringPattern).

Definition dbNext (baseEvent : Schema.Event) (c : Z) : option Z :=
  Db.getNextRecurrenceDate c baseEvent.(Schema.recurringPattern).

(** A step by months or years overshoots when the day of the month of [t]
    does not exist in the month aimed at. *)
Definition overshoots (t : Z) (pattern : option string) : bool :=
  match pattern with
  | Some p =>
      if String.eqb p "daily" then false
      else if String.eqb p "weekly" then false
      else if String.eqb p "monthly" then
        let '(y, m, d) := stepTarget t pattern in daysInMonth y m <? d
      else if String.eqb p "yearly" then
        let '(y, m, d) := stepTarget t pattern in daysInMonth y m <? d
      else false
  | None => false
  end.

(** The fields of the standalone event that an edit of the occurrence [d] of
    the parent [p] creates under the key [newId]. *)
Definition standaloneOf (parent : Schema.Event) (p : string) (d : Z)
    (u : Schema.PartialInsertEvent) (newId : string) (ev : Schema.Event)
  : Prop :=
  ev.(Schema.id) = newId
  /\ ev.(Schema.title)
     = match u.(Schema.updTitle) with
       | Some t => t
       | None => parent.(Schema.title)
       end
  /\ ev.(Schema.description)
     = Schema.coalesce u.(Schema.updDescription) parent.(Schema.description)
  /\ ev.(Schema.startDate)
     = match u.(Schema.updStartDate) with
       | Some x => x
       | None => d
       end
  /\ ev.(Schema.endDate)
     = Schema.coalesce u.(Schema.updEndDate) parent.(Schema.endDate)
  /\ ev.(Schema.isRecurring) = Some false
  /\ ev.(Schema.recurringPattern) = None
  /\ ev.(Schema.recurringWeeks) = None
  /\ ev.(Schema.parentEventId) = Some p
  /\ ev.(Schema.originalDate) = Some d.

(** Repeated stepping of a cursor. *)
Fixpoint stepN (next : Z -> option Z) (k : nat) (c : Z) : option Z :=
  match k with
  | O => Some c
  | S k' =>
      match next c with
      | Some c' => stepN next k' c'
      | None => None
      end
  end.

(** ** A worked scenario

    The weekly "Standup" series of the specification: it starts on Monday
    2024-03-04 at 09:00 and runs indefinitely. *)

Module Scenario.
Import JSDate Schema.

Definition clock : Z := dateOf 2024 1 1 0 0.

Definition standupStart : Z := dateOf 2024 2 4 9 0.

Definition standup : InsertEvent :=
  mkInsertEvent "Standup" None standupStart None (Some true)
    (Some "weekly") (Some "indefinite") None None.

(** The stored record of the series. *)
Definition standupEvent : Event :=
  mkEvent "m1" "Standup" None standupStart None (Some true)
    (Some "weekly") (Some "indefinite") None None (Some clock).

Definition moved : PartialInsertEvent :=
  mkPartial (Some "Standup (moved)") None (Some (dateOf 2024 2 12 14 0))
    None None None None None None.

(** The state a statement leaves behind. *)
Definition after {A} (o : Db.Outcome A) : Db.State :=
  match o with
  | Db.Done s _ => s
  | Db.Rejected => Db.empty
  end.

Definition memStandup : Mem.State :=
  fst (Mem.createEvent Mem.empty "m1" clock standup).

Definition dbStandup : Db.State :=
  after (Db.createEvent Db.empty "m1" clock standup).

(** The occurrence of 2024-03-11 edited on its own. *)
Definition memEdited : Mem.State :=
  fst (Mem.updateRecurringInstance memStandup "x1" clock "m1"
         (dateOf 2024 2 11 9 0) moved).

Definition dbEdited : Db.State :=
  after (Db.updateRecurringInstance dbStandup "x1" "e1" clock "m1"
           (dateOf 2024 2 11 9 0) moved).

(** The occurrence of 2024-03-11 deleted on its own. *)
Definition memDeleted : Mem.State :=
  fst (Mem.deleteRecurringInstance memStandup "m1" (dateOf 2024 2 11 9 0)).

Definition dbDeleted : Db.State :=
  after (Db.deleteRecurringInstance dbStandup "e1" clock "m1"
           (dateOf 2024 2 11 9 0)).

Definition starts (l : list Event) : list (string * Z) :=
  map (fun e => (e.(id), e.(startDate))) l.

End Scenario.

(** ** The user store of the memory backend ([MemStorage], user methods) *)

Module Users.

Record User := mkUser {
  userId : string;
  username : string;
  password : string
}.

Record InsertUser := mkInsertUser {
  insUsername : string;
  insPassword : string
}.

(** [users] is a [Map<string, User>], iterated in insertion order. *)
Definition State : Type := list (string * User).

Fixpoint mapGet (m : State) (k : string) : option User :=
  match m with
  | [] => None
  | (k', v) :: m' => if String.eqb k' k then Some v else mapGet m' k
  end.

Fixpoint mapSet (m : State) (k : string) (v : User) : State :=
  match m with
  | [] => [(k, v)]
  | (k', v') :: m' =>
      if String.eqb k' k then (k', v) :: m' else (k', v') :: mapSet m' k v
  end.

Definition getUser (s : State) (uid : string) : option User := mapGet s uid.

(** [Array.from(this.users.values()).find(user => user.username === name)] *)
Definition getUserByUsername (s : State) (name : string) : option User :=
  find (fun user => String.eqb user.(username) name) (map snd s).

(** [createUser]; [newId] is the value of [randomUUID()]. *)
Definition createUser (s : State) (newId : string) (ins : InsertUser)
  : State * User :=
  let user := mkUser newId ins.(insUsername) ins.(insPassword) in
  (mapSet s newId user, user).

(** The sign-up handler ([POST /api/auth/signup]) for a request body that
    passed validation.  The handler awaits [getUserByUsername], then
    [bcrypt.hash], then [createUser]; while it waits other requests are
    served, so the check of the name and the creation of the user are two
    separate steps on the store.  [reqHashed] is the result of
    [bcrypt.hash], [reqNewId] that of [randomUUID()].  The response is the
    created user (status 201), or the status 400 "Username already
    exists". *)
Record Request := mkRequest {
  reqName : string;
  reqHashed : string;
  reqNewId : string
}.

Inductive SignupResponse : Type :=
| Created (user : User)
| UsernameExists.

(** Where a request stands: not yet checked, checked and waiting for the
    hash, or answered. *)
Inductive Progress : Type :=
| Received
| Hashing
| Responded (r : SignupResponse).

(** One step of the handler of the request [q]. *)
Definition step (s : State) (q : Request) (p : Progress) : State * Progress :=
  match p with
  | Received =>
      match getUserByUsername s q.(reqName) with
      | Some _ => (s, Responded UsernameExists)
      | None => (s, Hashing)
      end
  | Hashing =>
      let '(s', user) :=
        createUser s q.(reqNewId) (mkInsertUser q.(reqName) q.(reqHashed)) in
      (s', Responded (Created user))
  | Responded r => (s, Responded r)
  end.

(** The requests in flight, each with its progress, served in the order of
    a schedule: the list of the positions of the requests that take a step,
    one after the other. *)
Fixpoint run (s : State) (pool : list (Request * Progress))
    (schedule : list nat) : State * list (Request * Progress) :=
  match schedule with
  | [] => (s, pool)
  | i :: rest =>
      match pool !! i with
      | Some (q, p) =>
          let '(s', p') := step s q p in
          run s' (<[i := (q, p')]> pool) rest
      | None => run s pool rest
      end
  end.

End Users.

(** ** The event routes ([server/routes.ts]) *)

Module Routes.
Import Schema.

(** [s.includes(sep)] *)
Fixpoint includes (sep s : string) : bool :=
  String.prefix sep s
  || match s with
     | String _ s' => includes sep s'
     | EmptyString => false
     end.

(** [s.split(sep)[0]] for a non-empty separator: what precedes the first
    occurrence of [sep], the whole string when there is none. *)
Fixpoint splitHead (sep s : string) : string :=
  if String.prefix sep s then EmptyString
  else match s with
       | String c s' => String c (splitHead sep s')
       | EmptyString => EmptyString
       end.

(** [id.includes('-recur-') ? id.split('-recur-')[0] : id] *)
Definition parentEventIdOf (eid : string) : string :=
  if includes "-recur-" eid then splitHead "-recur-" eid else eid.

Inductive Status : Type :=
| NoContent
| NotFound.

(** The storage calls of [DELETE /api/events/:id] for an authenticated
    request, on the storage in use (the enhanced memory backend);
    [instanceDate] is the query parameter parsed by [new Date], for a
    parameter that is a non-empty string and denotes a valid date, and
    [None] for a request without it. *)
Definition deleteEvent (s : Mem.State) (eid : string)
    (instanceDate : option Z) : Mem.State * Status :=
  match instanceDate with
  | Some d =>
      let '(s', success) :=
        Mem.deleteRecurringInstance s (parentEventIdOf eid) d in
      (s', if success then NoContent else NotFound)
  | None =>
      let '(s', deleted) := Mem.deleteEvent s eid in
      (s', if deleted then NoContent else NotFound)
  end.

(** The storage calls of [PATCH /api/events/:id/instance] for an
    authenticated request whose body gives an [instanceDate] that denotes a
    valid date; [updates] is the rest of the body.  [None] is answered with
    the status 404. *)
Definition patchInstance (s : Mem.State) (newId : string) (now : Z)
    (eid : string) (instanceDate : Z) (updates : PartialInsertEvent)
  : Mem.State * option Event :=
  Mem.updateRecurringInstance s newId now (parentEventIdOf eid) instanceDate
    updates.

End Routes.

(** ** Vocabulary of the further properties *)

(** Ascending order of start instants, plain and with a gap of a day. *)
Definition startsNoLater (a b : Schema.Event) : Prop :=
  a.(Schema.startDate) <= b.(Schema.startDate).

Definition aDayApart (a b : Schema.Event) : Prop :=
  a.(Schema.startDate) + JSDate.msPerDay <= b.(Schema.startDate).

(** Events used to illustrate the further properties. *)
Module Samples.
Import JSDate Schema Scenario.

(** A weekly series of four weeks from 2024-01-01. *)
Definition fourWeeks : Event :=
  mkEvent "m4" "Course" None (dateOf 2024 0 1 0 0) None (Some true)
    (Some "weekly") (Some "4") None None (Some clock).

(** A weekly series whose week count does not read as a number. *)
Definition badWeeks : Event :=
  mkEvent "m5" "Club" None (dateOf 2024 0 1 0 0) None (Some true)
    (Some "weekly") (Some "many") None None (Some clock).

(** A weekly series of four weeks whose week count is written after a
    no-break space (the bytes 194 and 160). *)
Definition spacedWeeks : Event :=
  mkEvent "m7" "Choir" None (dateOf 2024 0 1 0 0) None (Some true)
    (Some "weekly")
    (Some (String (ascii_of_nat 194) (String (ascii_of_nat 160) "4")))
    None None (Some clock).

(** A series whose pattern is none of the four the code knows. *)
Definition badPattern : Event :=
  mkEvent "m6" "Review" None (dateOf 2024 0 1 0 0) None (Some true)
    (Some "fortnightly") (Some "indefinite") None None (Some clock).

(** A single event. *)
Definition dentist : Event :=
  mkEvent "d1" "Dentist" None (dateOf 2024 2 7 15 0) None (Some false)
    None None None None (Some clock).

End Samples.

(** The repetition number [i] that [generateRecurringEvents] builds for a
    master, at the date [newDate]. *)
Definition repetitionOf (base : Schema.Event) (i newDate : Z) : Schema.Event :=
  Schema.mkEvent
    (base.(Schema.id) +:+ "-recur-" +:+ JSDate.numberToString i)
    base.(Schema.title) base.(Schema.description) newDate
    (match base.(Schema.endDate) with
     | Some stop => JSDate.TimeClip (newDate + (stop - base.(Schema.startDate)))
     | None => None
     end)
    base.(Schema.isRecurring) base.(Schema.recurringPattern)
    base.(Schema.recurringWeeks) None None base.(Schema.createdAt).

(** The numbers from 1 to [n]. *)
Definition countTo (n : Z) : list Z := map Z.of_nat (seq 1 (Z.to_nat n)).

(** A key without the letter "r", as the hexadecimal keys generated by
    [randomUUID] and [gen_random_uuid()] are. *)
Fixpoint noLetterR (s : string) : bool :=
  match s with
  | EmptyString => true
  | String c s' => negb (Ascii.eqb c "r") && noLetterR s'
  end.

(** The user names of a user store, in insertion order. *)
Definition userNames (s : Users.State) : list string :=
  map (fun kv => Users.username (snd kv)) s.

(** * Properties *)

(** ** Sanity checks of the date arithmetic *)

Example dateOf_2024_01_01 : JSDate.dateOf 2024 0 1 0 0 = 1704067200000.
Proof. reflexivity. Qed.

Example toDateString_ex :
  JSDate.toDateString (JSDate.dateOf 2024 2 11 9 0) = "Mon Mar 11 2024"%string.
Proof. vm_compute. reflexivity. Qed.

Example format_ex :
  DateFns.format_yyyy_MM_dd (JSDate.dateOf 2024 2 11 9 0) = "2024-03-11"%string.
Proof. vm_compute. reflexivity. Qed.

Example setMonth_jan31 :
  JSDate.setMonth (JSDate.dateOf 2024 0 31 9 0) 1 = Some (JSDate.dateOf 2024 2 2 9 0).
Proof. vm_compute. reflexivity. Qed.

Example addMonths_jan31 :
  DateFns.addMonths (JSDate.dateOf 2024 0 31 9 0) (Some 1)
  = Some (JSDate.dateOf 2024 1 29 9 0).
Proof. vm_compute. reflexivity. Qed.

Example parseInt_ex :
  JSDate.parseInt " 42abc" = Some 42 /\ JSDate.parseInt "abc" = None
  /\ JSDate.parseInt "-3" = Some (-3) /\ JSDate.parseInt "0x1F" = Some 31.
Proof. vm_compute. repeat split. Qed.

(** White space outside ASCII is skipped as well: a no-break space (bytes
    194, 160), an ideographic space (227, 128, 128) and a byte order mark
    (239, 187, 191) before the digits; a letter outside ASCII (195, 169) is
    not. *)
Example parseInt_unicode_space :
  JSDate.parseInt
    (String (ascii_of_nat 194) (String (ascii_of_nat 160) "4")) = Some 4
  /\ JSDate.parseInt
       (String (ascii_of_nat 227)
          (String (ascii_of_nat 128) (String (ascii_of_nat 128) " 12")))
     = Some 12
  /\ JSDate.parseInt
       (String (ascii_of_nat 239)
          (String (ascii_of_nat 187) (String (ascii_of_nat 191) "-7x")))
     = Some (-7)
  /\ JSDate.parseInt
       (String (ascii_of_nat 195) (String (ascii_of_nat 169) "4")) = None.
Proof. vm_compute. repeat split. Qed.

(** ** Calendar arithmetic *)

Section Calendar.
Import JSDate.

Ltac break_ifs :=
  repeat match goal with
    | |- context [if (?a =? ?b) then _ else _] => destruct (Z.eqb_spec a b)
    | |- context [if (?a <? ?b) then _ else _] => destruct (Z.ltb_spec a b)
    | |- context [if (?a <=? ?b) then _ else _] => destruct (Z.leb_spec a b)
    | |- context [if negb (?a =? ?b) then _ else _] =>
        destruct (Z.eqb_spec a b); cbn [negb]
    end.

Lemma DaysInYear_cases y : DaysInYear y = 365 \/ DaysInYear y = 366.
Proof. unfold DaysInYear. break_ifs; auto. Qed.

Lemma InLeapYearOf_cases y : InLeapYearOf y = 0 \/ InLeapYearOf y = 1.
Proof. unfold InLeapYearOf. destruct (DaysInYear_cases y); lia. Qed.

Lemma DayFromYear_succ y : DayFromYear (y + 1) = DayFromYear y + DaysInYear y.
Proof.
  unfold DayFromYear, DaysInYear. break_ifs; Z.div_mod_to_equations; lia.
Qed.

Lemma DayFromYear_mono a b : a <= b -> DayFromYear a <= DayFromYear b.
Proof. unfold DayFromYear. intros. Z.div_mod_to_equations. lia. Qed.

(** [YearFromDay] meets the defining property of [YearFromTime]. *)
Lemma YearFromDay_spec n :
  DayFromYear (YearFromDay n) <= n < DayFromYear (YearFromDay n + 1).
Proof.
  unfold YearFromDay.
  destruct (Z.ltb_spec n (DayFromYear (1970 + n * 400 / 146097))).
  - unfold DayFromYear in *. Z.div_mod_to_equations. lia.
  - destruct (Z.leb_spec (DayFromYear (1970 + n * 400 / 146097 + 1)) n).
    + unfold DayFromYear in *. Z.div_mod_to_equations. lia.
    + lia.
Qed.

Lemma YearFromDay_unique n y :
  DayFromYear y <= n < DayFromYear (y + 1) -> YearFromDay n = y.
Proof.
  intros Hy. pose proof (YearFromDay_spec n) as Hs.
  destruct (Z.lt_trichotomy (YearFromDay n) y) as [Hlt | [Heq | Hgt]]; auto.
  - pose proof (DayFromYear_mono (YearFromDay n + 1) y). lia.
  - pose proof (DayFromYear_mono (y + 1) (YearFromDay n)). lia.
Qed.

Lemma DayWithinYear_range t :
  0 <= DayWithinYear t < 365 + InLeapYear t.
Proof.
  unfold DayWithinYear, InLeapYear, InLeapYearOf, YearFromTime.
  pose proof (YearFromDay_spec (Day t)) as Hs.
  rewrite DayFromYear_succ in Hs. lia.
Qed.

Lemma MonthFromTime_range t : 0 <= MonthFromTime t <= 11.
Proof. unfold MonthFromTime, monthOfDayWithinYear. break_ifs; lia. Qed.

Lemma daysInMonth_range y m : 28 <= daysInMonth y m <= 31.
Proof.
  unfold daysInMonth.
  destruct (InLeapYearOf_cases (y + m / 12)) as [-> | ->];
    assert (Hm : 0 <= m mod 12 < 12) by (apply Z.mod_pos_bound; lia);
    assert (Hc : m mod 12 = 0 \/ m mod 12 = 1 \/ m mod 12 = 2 \/ m mod 12 = 3
                 \/ m mod 12 = 4 \/ m mod 12 = 5 \/ m mod 12 = 6
                 \/ m mod 12 = 7 \/ m mod 12 = 8 \/ m mod 12 = 9
                 \/ m mod 12 = 10 \/ m mod 12 = 11) by lia;
    repeat (destruct Hc as [-> | Hc]); try rewrite Hc; vm_compute; split; discriminate.
Qed.

Lemma monthOfDayWithinYear_spec d leap :
  0 <= d < 365 + leap ->
  0 <= monthOfDayWithinYear d leap <= 11
  /\ monthStart (monthOfDayWithinYear d leap) leap <= d
     < monthStart (monthOfDayWithinYear d leap + 1) leap.
Proof.
  intros Hd. unfold monthOfDayWithinYear. break_ifs; unfold monthStart; simpl; lia.
Qed.

Lemma DateFromTime_range t :
  1 <= DateFromTime t <= daysInMonth (YearFromTime t) (MonthFromTime t).
Proof.
  pose proof (monthOfDayWithinYear_spec _ _ (DayWithinYear_range t)) as [Hm Hs].
  fold (MonthFromTime t) in Hm, Hs.
  unfold daysInMonth. rewrite Z.div_small, Z.mod_small, Z.add_0_r by lia.
  unfold DateFromTime. fold (InLeapYear t). lia.
Qed.

Lemma MakeDay_normalise y m d :
  MakeDay (y + m / 12) (m mod 12) d = MakeDay y m d.
Proof.
  unfold MakeDay.
  assert (Hm : 0 <= m mod 12 < 12) by (apply Z.mod_pos_bound; lia).
  rewrite (Z.div_small (m mod 12)), (Z.mod_small (m mod 12)), Z.add_0_r by lia.
  reflexivity.
Qed.

Lemma MakeDay_date y m d k : MakeDay y m (d + k) = MakeDay y m d + k.
Proof. unfold MakeDay. lia. Qed.

Lemma MakeDay_date0 y m d : MakeDay y m d = MakeDay y m 0 + d.
Proof. unfold MakeDay. lia. Qed.

(** The day number of [t] is rebuilt from its year, month and date. *)
Lemma MakeDay_of_time t :
  MakeDay (YearFromTime t) (MonthFromTime t) (DateFromTime t) = Day t.
Proof.
  pose proof (MonthFromTime_range t) as Hm.
  unfold MakeDay. rewrite Z.div_small, Z.mod_small, Z.add_0_r by lia.
  unfold DateFromTime, DayWithinYear, InLeapYear. lia.
Qed.

Lemma MakeDate_of_time t : MakeDate (Day t) (TimeWithinDay t) = t.
Proof.
  unfold MakeDate, Day, TimeWithinDay, msPerDay.
  Z.div_mod_to_equations. lia.
Qed.

Lemma TimeWithinDay_range t : 0 <= TimeWithinDay t < msPerDay.
Proof. unfold TimeWithinDay, msPerDay. apply Z.mod_pos_bound. lia. Qed.

Lemma Day_MakeDate n tod : 0 <= tod < msPerDay -> Day (MakeDate n tod) = n.
Proof.
  unfold Day, MakeDate, msPerDay. intros. Z.div_mod_to_equations. lia.
Qed.

Lemma TimeWithinDay_MakeDate n tod :
  0 <= tod < msPerDay -> TimeWithinDay (MakeDate n tod) = tod.
Proof.
  unfold TimeWithinDay, MakeDate, msPerDay. intros.
  Z.div_mod_to_equations. lia.
Qed.

(** Moving the date of [t] inside [MakeDay] shifts [t] by whole days. *)
Lemma atDate_shift t y m d :
  atDate t (y, m, d)
  = t + (MakeDay y m d - Day t) * msPerDay.
Proof.
  pose proof (MakeDate_of_time t) as Ht.
  unfold atDate, MakeDate in *. lia.
Qed.


Lemma monthStart_bounds m leap :
  0 <= m <= 11 -> 0 <= leap <= 1 ->
  0 <= monthStart m leap /\ monthStart m leap + 28 <= monthStart (m + 1) leap
  /\ monthStart (m + 1) leap <= monthStart m leap + 31
  /\ monthStart (m + 1) leap <= 365 + leap.
Proof.
  intros Hm Hl.
  assert (Hc : m = 0 \/ m = 1 \/ m = 2 \/ m = 3 \/ m = 4 \/ m = 5 \/ m = 6
               \/ m = 7 \/ m = 8 \/ m = 9 \/ m = 10 \/ m = 11) by lia.
  repeat (destruct Hc as [-> | Hc]); try subst m;
    unfold monthStart; simpl; lia.
Qed.

Lemma monthOfDayWithinYear_unique m k leap :
  0 <= m <= 11 -> 0 <= leap <= 1 ->
  monthStart m leap <= k < monthStart (m + 1) leap ->
  monthOfDayWithinYear k leap = m.
Proof.
  intros Hm Hl.
  assert (Hc : m = 0 \/ m = 1 \/ m = 2 \/ m = 3 \/ m = 4 \/ m = 5 \/ m = 6
               \/ m = 7 \/ m = 8 \/ m = 9 \/ m = 10 \/ m = 11) by lia.
  repeat (destruct Hc as [-> | Hc]); try subst m;
    unfold monthStart; simpl; intros Hk;
    unfold monthOfDayWithinYear; break_ifs; lia.
Qed.

Lemma InLeapYearOf_range y : 0 <= InLeapYearOf y <= 1.
Proof. destruct (InLeapYearOf_cases y); lia. Qed.

(** The year, month, date and time of day of a date built by [MakeDay] and
    [MakeDate] from a day that exists in its month. *)
Lemma fields_of_MakeDate y m d tod :
  1 <= d <= daysInMonth y m -> 0 <= tod < msPerDay ->
  let r := MakeDate (MakeDay y m d) tod in
  YearFromTime r = y + m / 12 /\ MonthFromTime r = m mod 12
  /\ DateFromTime r = d /\ TimeWithinDay r = tod.
Proof.
  intros Hd Htod r.
  assert (Hm : 0 <= m mod 12 <= 11)
    by (pose proof (Z.mod_pos_bound m 12); lia).
  pose proof (InLeapYearOf_range (y + m / 12)) as Hl.
  pose proof (monthStart_bounds _ _ Hm Hl) as (Hb0 & Hb1 & Hb2 & Hb3).
  unfold daysInMonth in Hd.
  assert (Hday : Day r = MakeDay y m d) by (apply Day_MakeDate; exact Htod).
  assert (Hy : YearFromTime r = y + m / 12).
  { unfold YearFromTime. rewrite Hday. apply YearFromDay_unique.
    rewrite DayFromYear_succ. unfold MakeDay, InLeapYearOf in *. lia. }
  assert (Hdw : DayWithinYear r
                = monthStart (m mod 12) (InLeapYearOf (y + m / 12)) + d - 1).
  { unfold DayWithinYear. rewrite Hy, Hday. unfold MakeDay. lia. }
  assert (Hmo : MonthFromTime r = m mod 12).
  { unfold MonthFromTime, InLeapYear. rewrite Hy, Hdw.
    apply monthOfDayWithinYear_unique; lia. }
  repeat split; auto.
  - unfold DateFromTime, InLeapYear. rewrite Hmo, Hy, Hdw. lia.
  - apply TimeWithinDay_MakeDate. exact Htod.
Qed.

Lemma MakeDay_next_month y m d :
  MakeDay y (m + 1) d = MakeDay y m d + daysInMonth y m.
Proof.
  unfold MakeDay, daysInMonth.
  assert (Hc : ((m + 1) / 12 = m / 12 /\ (m + 1) mod 12 = m mod 12 + 1)
               \/ (m mod 12 = 11 /\ (m + 1) / 12 = m / 12 + 1
                   /\ (m + 1) mod 12 = 0))
    by (Z.div_mod_to_equations; lia).
  destruct Hc as [[-> ->] | (Hr & -> & ->)].
  - lia.
  - rewrite Hr, Z.add_assoc, DayFromYear_succ.
    unfold InLeapYearOf, monthStart. simpl. lia.
Qed.

Lemma MakeDay_add12 y m d : MakeDay y (m + 12) d = MakeDay (y + 1) m d.
Proof.
  unfold MakeDay.
  replace ((m + 12) / 12) with (m / 12 + 1) by (Z.div_mod_to_equations; lia).
  replace ((m + 12) mod 12) with (m mod 12) by (Z.div_mod_to_equations; lia).
  replace (y + (m / 12 + 1)) with (y + 1 + m / 12) by lia. reflexivity.
Qed.

Lemma MakeDay_next_year y m d :
  0 <= m <= 11 ->
  365 <= MakeDay (y + 1) m d - MakeDay y m d <= 366.
Proof.
  intros Hm. unfold MakeDay.
  rewrite Z.div_small, Z.mod_small, !Z.add_0_r by lia.
  rewrite DayFromYear_succ.
  pose proof (InLeapYearOf_range y) as Hl.
  pose proof (InLeapYearOf_range (y + 1)) as Hl'.
  assert (Hleap : DaysInYear y = 365 + InLeapYearOf y)
    by (unfold InLeapYearOf; lia).
  assert (Hnot : InLeapYearOf y = 1 -> InLeapYearOf (y + 1) = 0).
  { unfold InLeapYearOf, DaysInYear. break_ifs; Z.div_mod_to_equations; lia. }
  assert (Hc : m = 0 \/ m = 1 \/ m = 2 \/ m = 3 \/ m = 4 \/ m = 5 \/ m = 6
               \/ m = 7 \/ m = 8 \/ m = 9 \/ m = 10 \/ m = 11) by lia.
  repeat (destruct Hc as [-> | Hc]); try subst m;
    unfold monthStart; simpl; lia.
Qed.

Lemma TimeClip_Some t r : TimeClip t = Some r -> r = t.
Proof. unfold TimeClip. destruct (Z.abs t <=? maxTime); congruence. Qed.

Lemma TimeClip_near t r :
  awayFromLimits t -> Z.abs (r - t) <= 400 * msPerDay -> TimeClip r = Some r.
Proof.
  unfold awayFromLimits, TimeClip. intros Ht Hr.
  destruct (Z.leb_spec (Z.abs r) maxTime); [reflexivity | lia].
Qed.

(** [setDate(getDate() + k)] moves a date by [k] whole days. *)
Lemma setDate_shift t k :
  setDate t (getDate t + k) = TimeClip (t + k * msPerDay).
Proof.
  unfold setDate, getDate. rewrite MakeDay_date, MakeDay_of_time.
  f_equal. pose proof (MakeDate_of_time t) as Ht.
  unfold MakeDate in *. lia.
Qed.

End Calendar.

(** ** The two interval steppers *)

Section Steppers.
Import JSDate DateFns.

Ltac pattern_cases p :=
  destruct (String.eqb p "daily");
  [| destruct (String.eqb p "weekly");
     [| destruct (String.eqb p "monthly");
        [| destruct (String.eqb p "yearly") ] ] ].

Lemma daysInMonth_add12 y m : daysInMonth y (m + 12) = daysInMonth (y + 1) m.
Proof.
  unfold daysInMonth.
  replace ((m + 12) / 12) with (m / 12 + 1) by (Z.div_mod_to_equations; lia).
  replace ((m + 12) mod 12) with (m mod 12) by (Z.div_mod_to_equations; lia).
  replace (y + (m / 12 + 1)) with (y + 1 + m / 12) by lia. reflexivity.
Qed.

(** The memory stepper sets the date fields to the target of the step and
    lets [MakeDay] normalise them. *)
Lemma Mem_next_exact t p :
  Mem.getNextRecurrenceDate t p = TimeClip (atDate t (stepTarget t p)).
Proof.
  destruct p as [p |]; unfold Mem.getNextRecurrenceDate, stepTarget;
    [pattern_cases p |];
    unfold atDate, setDate, setMonth, setMonth2, setFullYear, setFullYear3,
      getDate, getMonth, getFullYear;
    reflexivity.
Qed.

Lemma addMonths_exact t a :
  a <> 0 ->
  addMonths t (Some a)
  = match TimeClip (atDate t (getFullYear t, getMonth t + a + 1, 0)) with
    | Some _ =>
        TimeClip (atDate t (clampDay (getFullYear t, getMonth t + a, getDate t)))
    | None => None
    end.
Proof.
  intros Ha. unfold addMonths. destruct (Z.eqb_spec a 0) as [| _]; [lia |].
  unfold setMonth2, getFullYear, getMonth, getDate, atDate, clampDay.
  set (Y := YearFromTime t). set (M := MonthFromTime t).
  set (D := DateFromTime t). set (dim := daysInMonth Y (M + a)).
  assert (Hend : MakeDay Y (M + a + 1) 0 = MakeDay Y (M + a) dim).
  { rewrite MakeDay_next_month. fold dim.
    rewrite <- MakeDay_date. reflexivity. }
  rewrite Hend.
  destruct (TimeClip (MakeDate (MakeDay Y (M + a) dim) (TimeWithinDay t)))
    as [e |] eqn:He; [| reflexivity].
  apply TimeClip_Some in He as Hval.
  pose proof (daysInMonth_range Y (M + a)) as Hdim. fold dim in Hdim.
  destruct (fields_of_MakeDate Y (M + a) dim (TimeWithinDay t))
    as (Hy & Hm & Hd & _);
    [fold dim; lia | apply TimeWithinDay_range |].
  rewrite <- Hval in Hy, Hm, Hd. rewrite Hy, Hm, Hd.
  destruct (Z.geb_spec D dim) as [Hge | Hlt].
  - rewrite Z.min_r by lia. rewrite <- He. reflexivity.
  - rewrite Z.min_l by lia. unfold setFullYear3.
    rewrite MakeDay_normalise. reflexivity.
Qed.

(** The value of a step of the database stepper, when it yields a date. *)
Lemma Db_next_value t p r :
  Db.getNextRecurrenceDate t p = Some r ->
  r = atDate t (stepTargetClamped t p).
Proof.
  assert (Hdays : forall k, k <> 0 ->
            addDays t (Some k) = Some r ->
            r = atDate t (getFullYear t, getMonth t, getDate t + k)).
  { intros k Hk. unfold addDays. destruct (Z.eqb_spec k 0); [lia |].
    unfold setDate. intros H. apply TimeClip_Some in H. exact H. }
  assert (Hmonths : forall a, a <> 0 ->
            addMonths t (Some a) = Some r ->
            r = atDate t (clampDay (getFullYear t, getMonth t + a, getDate t))).
  { intros a Ha. rewrite addMonths_exact by exact Ha.
    destruct (TimeClip (atDate t (getFullYear t, getMonth t + a + 1, 0)));
      [| discriminate].
    intros H. apply TimeClip_Some in H. exact H. }
  destruct p as [p |];
    unfold Db.getNextRecurrenceDate, stepTargetClamped, stepTarget;
    [pattern_cases p |]; unfold addWeeks, addYears, option_map;
    change (1 * 7) with 7; change (1 * 12) with 12; intros H.
  - apply (Hdays 1); [lia | exact H].
  - apply (Hdays 7); [lia | exact H].
  - apply (Hmonths 1); [lia | exact H].
  - apply (Hmonths 12) in H; [| lia]. rewrite H.
    unfold clampDay, atDate.
    rewrite daysInMonth_add12, MakeDay_add12. reflexivity.
  - apply (Hdays 7); [lia | exact H].
  - apply (Hdays 7); [lia | exact H].
Qed.

(** Number of days gained by a step towards either target. *)
Lemma stepTarget_gain t p :
  let '(y, m, d) := stepTarget t p in 1 <= MakeDay y m d - Day t <= 366.
Proof.
  pose proof (MakeDay_of_time t) as Hday.
  pose proof (MonthFromTime_range t) as Hm.
  pose proof (daysInMonth_range (YearFromTime t) (MonthFromTime t)) as Hdim.
  pose proof (MakeDay_next_year (YearFromTime t) (MonthFromTime t)
                (DateFromTime t) Hm) as Hyear.
  destruct p as [p |]; unfold stepTarget, getFullYear, getMonth, getDate;
    [pattern_cases p |];
    rewrite ?MakeDay_date, ?MakeDay_next_month; lia.
Qed.

Lemma stepTargetClamped_gain t p :
  let '(y, m, d) := stepTargetClamped t p in
  1 <= MakeDay y m d - Day t <= 366.
Proof.
  pose proof (stepTarget_gain t p) as Hgain.
  pose proof (MakeDay_of_time t) as Hday.
  pose proof (MonthFromTime_range t) as Hm.
  pose proof (DateFromTime_range t) as Hd.
  pose proof (daysInMonth_range (YearFromTime t) (MonthFromTime t)) as Hdim.
  pose proof (daysInMonth_range (YearFromTime t) (MonthFromTime t + 1)) as Hdim1.
  pose proof (daysInMonth_range (YearFromTime t + 1) (MonthFromTime t)) as Hdim2.
  pose proof (MakeDay_next_year (YearFromTime t) (MonthFromTime t) 0 Hm) as Hyear.
  rewrite (MakeDay_date0 _ _ (DateFromTime t)) in Hday.
  destruct p as [p |];
    unfold stepTargetClamped, stepTarget, getFullYear, getMonth, getDate in *;
    [pattern_cases p |]; try exact Hgain; unfold clampDay.
  - rewrite MakeDay_date0, MakeDay_next_month. lia.
  - rewrite MakeDay_date0. lia.
Qed.

(** Every step of either stepper advances the cursor by at least one day
    and at most 366 days. *)
Lemma Mem_next_advance t p r :
  Mem.getNextRecurrenceDate t p = Some r ->
  t + msPerDay <= r <= t + 366 * msPerDay.
Proof.
  rewrite Mem_next_exact. intros H. apply TimeClip_Some in H. subst r.
  pose proof (stepTarget_gain t p) as Hgain.
  destruct (stepTarget t p) as [[y m] d].
  rewrite atDate_shift. unfold msPerDay. lia.
Qed.

Lemma Db_next_advance t p r :
  Db.getNextRecurrenceDate t p = Some r ->
  t + msPerDay <= r <= t + 366 * msPerDay.
Proof.
  intros H. apply Db_next_value in H. subst r.
  pose proof (stepTargetClamped_gain t p) as Hgain.
  destruct (stepTargetClamped t p) as [[y m] d].
  rewrite atDate_shift. unfold msPerDay. lia.
Qed.

End Steppers.

(** ** Sorting and the generator loops *)

Section Loops.
Import JSDate DateFns Schema.

Lemma insertByStart_perm e l : Permutation (insertByStart e l) (e :: l).
Proof.
  induction l as [| x l IH]; simpl.
  - reflexivity.
  - destruct (x.(startDate) <=? e.(startDate)).
    + rewrite IH. apply perm_swap.
    + reflexivity.
Qed.

Lemma sortByStart_perm l : Permutation (sortByStart l) l.
Proof.
  unfold sortByStart.
  assert (H : forall acc,
             Permutation (fold_left (fun acc e => insertByStart e acc) l acc)
               (l ++ acc)).
  { induction l as [| x l IH]; intros acc; simpl.
    - reflexivity.
    - rewrite IH, insertByStart_perm. symmetry. apply Permutation_middle. }
  rewrite H, app_nil_r. reflexivity.
Qed.

Lemma In_sortByStart e l : In e (sortByStart l) <-> In e l.
Proof.
  split; apply Permutation_in;
    [apply sortByStart_perm | symmetry; apply sortByStart_perm].
Qed.

Lemma stepN_advance next k c0 c :
  (forall t r, next t = Some r -> t + msPerDay <= r) ->
  stepN next k c0 = Some c -> c0 + Z.of_nat k * msPerDay <= c.
Proof.
  intros Hnext. revert c0.
  induction k as [| k IH]; intros c0; simpl.
  - intros [= ->]. lia.
  - destruct (next c0) as [c1 |] eqn:H1; [| discriminate].
    intros H. apply IH in H. apply Hnext in H1. unfold msPerDay in *. lia.
Qed.

(** *** The loop of the memory backend *)

Lemma Mem_loop_invalid rem base se del modi :
  Mem.instancesLoop rem base se del modi None = [].
Proof. destruct rem; reflexivity. Qed.

(** Every instance emitted by the loop sits at an iterate of the stepper
    from the initial cursor, before the series end, on a day that is in
    neither exception set. *)
Lemma Mem_loop_elem rem base se del modi c0 e :
  In e (Mem.instancesLoop rem base se del modi (Some c0)) ->
  exists k c stop,
    (k < rem)%nat /\ stepN (memNext base) k c0 = Some c
    /\ se = Some stop /\ c < stop
    /\ has del (toDateString c) = false
    /\ has modi (toDateString c) = false
    /\ e = Mem.instance base c.
Proof.
  revert c0. induction rem as [| rem IH]; intros c0; simpl; [intros [] |].
  destruct se as [stop |]; [| simpl; intros []].
  destruct (Z.ltb_spec c0 stop) as [Hlt | _]; [| simpl; intros []].
  assert (Hrest :
            In e (Mem.instancesLoop rem base (Some stop) del modi
                    (Mem.getNextRecurrenceDate c0 base.(recurringPattern))) ->
            exists k c stop',
              (k < S rem)%nat /\ stepN (memNext base) k c0 = Some c
              /\ Some stop = Some stop' /\ c < stop'
              /\ has del (toDateString c) = false
              /\ has modi (toDateString c) = false
              /\ e = Mem.instance base c).
  { destruct (Mem.getNextRecurrenceDate c0 base.(recurringPattern))
      as [c1 |] eqn:Hn.
    - intros Hin. apply IH in Hin as (k & c & stop' & Hk & Hs & Hrest).
      exists (S k), c, stop'. split; [lia |]. split; [| exact Hrest].
      simpl. unfold memNext at 1. rewrite Hn. exact Hs.
    - rewrite Mem_loop_invalid. simpl. intros []. }
  destruct (has del (toDateString c0)) eqn:Hd; simpl; [exact Hrest |].
  destruct (has modi (toDateString c0)) eqn:Hm; simpl; [exact Hrest |].
  intros [<- | Hin]; [| exact (Hrest Hin)].
  exists O, c0, stop. repeat split; auto. lia.
Qed.

Lemma Mem_loop_length rem base se del modi c :
  (length (Mem.instancesLoop rem base se del modi c) <= rem)%nat.
Proof.
  revert c. induction rem as [| rem IH]; intros c; simpl; [lia |].
  destruct c as [cur |]; [| simpl; lia].
  destruct se as [stop |]; [| simpl; lia].
  destruct (cur <? stop); [| simpl; lia].
  destruct (has del (toDateString cur) || has modi (toDateString cur)); simpl.
  - specialize (IH (Mem.getNextRecurrenceDate cur base.(recurringPattern))). lia.
  - specialize (IH (Mem.getNextRecurrenceDate cur base.(recurringPattern))). lia.
Qed.

(** Raising the cap only appends to the output: the capped output is a
    truncation of the longer one. *)
Lemma Mem_loop_prefix rem rem' base se del modi c :
  (rem <= rem')%nat ->
  exists rest,
    Mem.instancesLoop rem' base se del modi c
    = Mem.instancesLoop rem base se del modi c ++ rest.
Proof.
  revert rem' c. induction rem as [| rem IH]; intros rem' c Hle.
  - simpl. eexists. reflexivity.
  - destruct rem' as [| rem']; [lia |]. simpl.
    destruct c as [cur |]; [| exists []; reflexivity].
    destruct se as [stop |]; [| exists []; reflexivity].
    destruct (cur <? stop); [| exists []; reflexivity].
    destruct (IH rem' (Mem.getNextRecurrenceDate cur base.(recurringPattern)))
      as [rest Hrest]; [lia |].
    exists rest.
    destruct (has del (toDateString cur) || has modi (toDateString cur));
      simpl; rewrite Hrest; reflexivity.
Qed.

(** *** The loop of the database backend *)

Lemma Db_loop_invalid fuel base se del modi :
  Db.instancesLoop fuel base se del modi None = Some [].
Proof. destruct fuel; reflexivity. Qed.

Lemma Db_loop_elem fuel base se del modi c0 l e :
  Db.instancesLoop fuel base se del modi (Some c0) = Some l ->
  In e l ->
  exists k c stop,
    (k < fuel)%nat /\ stepN (dbNext base) k c0 = Some c
    /\ se = Some stop /\ c < stop
    /\ has del (format_yyyy_MM_dd c) = false
    /\ has modi (format_yyyy_MM_dd c) = false
    /\ e = Db.instance base c.
Proof.
  revert c0 l. induction fuel as [| fuel IH]; intros c0 l; simpl.
  - destruct se as [stop |]; simpl.
    + destruct (c0 <? stop); [discriminate | intros [= <-] []].
    + intros [= <-] [].
  - destruct se as [stop |]; simpl; [| intros [= <-] []].
    destruct (Z.ltb_spec c0 stop) as [Hlt | _]; [| intros [= <-] []].
    assert (Hrest : forall l',
              Db.instancesLoop fuel base (Some stop) del modi
                (Db.getNextRecurrenceDate c0 base.(recurringPattern)) = Some l' ->
              In e l' ->
              exists k c stop',
                (k < S fuel)%nat /\ stepN (dbNext base) k c0 = Some c
                /\ Some stop = Some stop' /\ c < stop'
                /\ has del (format_yyyy_MM_dd c) = false
                /\ has modi (format_yyyy_MM_dd c) = false
                /\ e = Db.instance base c).
    { intros l'.
      destruct (Db.getNextRecurrenceDate c0 base.(recurringPattern))
        as [c1 |] eqn:Hn.
      - intros Hl Hin.
        destruct (IH _ _ Hl Hin) as (k & c & stop' & Hk & Hs & Hmore).
        exists (S k), c, stop'. split; [lia |]. split; [| exact Hmore].
        simpl. unfold dbNext at 1. rewrite Hn. exact Hs.
      - rewrite Db_loop_invalid. intros [= <-] []. }
    destruct (has del (format_yyyy_MM_dd c0)) eqn:Hd; [apply Hrest |].
    destruct (has modi (format_yyyy_MM_dd c0)) eqn:Hm; [apply Hrest |].
    destruct (Db.instancesLoop fuel base (Some stop) del modi
                (Db.getNextRecurrenceDate c0 base.(recurringPattern)))
      as [l' |] eqn:Hl; simpl; [| discriminate].
    intros [= <-] [<- | Hin]; [| exact (Hrest l' eq_refl Hin)].
    exists O, c0, stop. repeat split; auto. lia.
Qed.

(** The loop completes whenever the fuel covers one turn per day between
    the cursor and the series end. *)
Lemma Db_loop_completes fuel base se del modi c0 :
  (forall stop, se = Some stop -> stop - c0 <= Z.of_nat fuel * msPerDay) ->
  exists l, Db.instancesLoop fuel base se del modi (Some c0) = Some l
            /\ (length l <= fuel)%nat.
Proof.
  revert c0. induction fuel as [| fuel IH]; intros c0 Hfuel.
  - simpl. destruct se as [stop |]; simpl.
    + specialize (Hfuel stop eq_refl).
      destruct (Z.ltb_spec c0 stop); [lia |]. exists []. split; [reflexivity | simpl; lia].
    + exists []. split; [reflexivity | simpl; lia].
  - simpl. destruct se as [stop |]; simpl;
      [| exists []; split; [reflexivity | simpl; lia]].
    specialize (Hfuel stop eq_refl).
    destruct (Z.ltb_spec c0 stop) as [Hlt | _];
      [| exists []; split; [reflexivity | simpl; lia]].
    assert (Hrest : exists l,
               Db.instancesLoop fuel base (Some stop) del modi
                 (Db.getNextRecurrenceDate c0 base.(recurringPattern)) = Some l
               /\ (length l <= fuel)%nat).
    { destruct (Db.getNextRecurrenceDate c0 base.(recurringPattern))
        as [c1 |] eqn:Hn.
      - apply IH. intros stop' [= <-]. apply Db_next_advance in Hn.
        unfold msPerDay in *. lia.
      - rewrite Db_loop_invalid. exists []. split; [reflexivity | simpl; lia]. }
    destruct Hrest as (l & Hl & Hlen). rewrite Hl.
    destruct (has del (format_yyyy_MM_dd c0));
      [exists l; split; [reflexivity | lia] |].
    destruct (has modi (format_yyyy_MM_dd c0));
      [exists l; split; [reflexivity | lia] |].
    exists (Db.instance base c0 :: l). split; [reflexivity | simpl; lia].
Qed.

(** Once the loop has completed, more fuel does not change its result. *)
Lemma Db_loop_fuel_irrelevant fuel fuel' base se del modi c l :
  (fuel <= fuel')%nat ->
  Db.instancesLoop fuel base se del modi c = Some l ->
  Db.instancesLoop fuel' base se del modi c = Some l.
Proof.
  revert fuel' c l. induction fuel as [| fuel IH]; intros fuel' c l Hle.
  - simpl. destruct (isBefore c se) eqn:Hb; [discriminate |].
    intros [= <-]. destruct fuel'; simpl; rewrite Hb; reflexivity.
  - destruct fuel' as [| fuel']; [lia |]. simpl.
    destruct (isBefore c se); [| auto].
    destruct c as [cur |]; [| discriminate].
    assert (Hrest : forall l',
              Db.instancesLoop fuel base se del modi
                (Db.getNextRecurrenceDate cur base.(recurringPattern)) = Some l' ->
              Db.instancesLoop fuel' base se del modi
                (Db.getNextRecurrenceDate cur base.(recurringPattern)) = Some l')
      by (intros l'; apply IH; lia).
    destruct (has del (format_yyyy_MM_dd cur)); [apply Hrest |].
    destruct (has modi (format_yyyy_MM_dd cur)); [apply Hrest |].
    destruct (Db.instancesLoop fuel base se del modi
                (Db.getNextRecurrenceDate cur base.(recurringPattern)))
      as [l' |] eqn:Hl; simpl; [| discriminate].
    intros [= <-]. rewrite (Hrest l' eq_refl). reflexivity.
Qed.

Lemma loopFuel_covers c0 se stop :
  se = Some stop -> stop - c0 <= Z.of_nat (Db.loopFuel c0 se) * msPerDay.
Proof.
  intros ->. unfold Db.loopFuel, msPerDay.
  destruct (Z.le_gt_cases 0 ((stop - c0) / 86400000 + 1)) as [Hpos | Hneg].
  - rewrite Z2Nat.id by exact Hpos. Z.div_mod_to_equations. lia.
  - assert (Z.to_nat ((stop - c0) / 86400000 + 1) = O) as -> by lia.
    Z.div_mod_to_equations. lia.
Qed.

End Loops.

(** ** What the read paths return *)

Section ReadPaths.
Import JSDate DateFns Schema.

Lemma Db_generate_elem base S E excs e :
  In e (Db.generateRecurringInstances base S E excs) ->
  exists k c stop,
    stepN (dbNext base) k (Z.max base.(startDate) S) = Some c
    /\ Db.seriesEnd base E = Some stop /\ c < stop
    /\ has (Db.datesOfType "deleted" excs) (format_yyyy_MM_dd c) = false
    /\ has (Db.datesOfType "modified" excs) (format_yyyy_MM_dd c) = false
    /\ e = Db.instance base c.
Proof.
  unfold Db.generateRecurringInstances. intros Hin.
  destruct (Db.instancesLoop _ base _ _ _ _) as [l |] eqn:Hl;
    simpl in Hin; [| destruct Hin].
  destruct (Db_loop_elem _ _ _ _ _ _ _ _ Hl Hin)
    as (k & c & stop & _ & Hs & Hse & Hlt & Hd & Hm & He).
  exists k, c, stop. auto 10.
Qed.

Lemma Mem_generate_elem base S E del modi e :
  In e (Mem.generateRecurringInstances base S E del modi) ->
  exists k c stop,
    (k < Mem.maxIterations)%nat
    /\ stepN (memNext base) k (Z.max base.(startDate) S) = Some c
    /\ Mem.seriesEnd base E = Some stop /\ c < stop
    /\ has del (toDateString c) = false
    /\ has modi (toDateString c) = false
    /\ e = Mem.instance base c.
Proof. unfold Mem.generateRecurringInstances. apply Mem_loop_elem. Qed.

Lemma Db_seriesEnd_le base E stop :
  Db.seriesEnd base (Some E) = Some stop -> stop <= E.
Proof.
  unfold Db.seriesEnd, Db.minTime.
  destruct (_ && _).
  - destruct (addWeeks _ _) as [calc |]; [| discriminate].
    intros [= <-]. lia.
  - intros [= <-]. lia.
Qed.

Lemma Mem_seriesEnd_le base E stop :
  Mem.seriesEnd base E = Some stop -> stop <= E.
Proof.
  unfold Mem.seriesEnd.
  destruct (_ && _).
  - destruct (parseInt _) as [w |]; [| discriminate].
    destruct (TimeClip _) as [calc |]; [| discriminate].
    intros [= <-]. lia.
  - intros [= <-]. lia.
Qed.

Lemma dbNext_advance base t r :
  dbNext base t = Some r -> t + msPerDay <= r.
Proof. intros H. apply Db_next_advance in H. lia. Qed.

Lemma memNext_advance base t r :
  memNext base t = Some r -> t + msPerDay <= r.
Proof. intros H. apply Mem_next_advance in H. lia. Qed.

(** The three sources of the events returned by the database backend: a
    fetched non-recurring row, an instance generated from a fetched
    recurring row, or a stored standalone modified instance. *)
Lemma Db_expand_elem s now dbEvents range e :
  In e (Db.expandRecurringEvents s now dbEvents range) ->
  (In e dbEvents /\ truthyBool e.(isRecurring) = false)
  \/ (exists base excs,
        In base dbEvents /\ truthyBool base.(isRecurring) = true
        /\ In e (Db.generateRecurringInstances base
                   (match range with Some (rs, _) => rs | None => now end)
                   (match range with
                    | Some (_, re) => Some re
                    | None => addMonths now (Some 6)
                    end) excs))
  \/ (In e s.(Db.events) /\ e.(isRecurring) = Some false
      /\ is_Some e.(parentEventId)).
Proof.
  unfold Db.expandRecurringEvents. rewrite In_sortByStart, in_app_iff.
  intros [Hin | Hin].
  - apply in_flat_map in Hin as (ev & Hev & Hin).
    destruct (negb (truthyBool ev.(isRecurring))) eqn:Hrec.
    + apply negb_true_iff in Hrec. destruct Hin as [<- | []]. left. auto.
    + apply negb_false_iff in Hrec. right. left. eexists ev, _.
      split; [exact Hev |]. split; [exact Hrec |]. exact Hin.
  - apply List.filter_In in Hin as (Hin & Hf).
    apply andb_true_iff in Hf as (H1 & H2).
    apply bool_decide_eq_true in H1, H2. right. right. auto.
Qed.

Lemma Db_instance_fields base c :
  (Db.instance base c).(startDate) = c
  /\ (Db.instance base c).(isRecurring) = base.(isRecurring)
  /\ (Db.instance base c).(parentEventId) = Some base.(id)
  /\ (Db.instance base c).(originalDate) = Some c
  /\ (Db.instance base c).(id)
     = base.(id) +:+ "-recur-" +:+ format_yyyy_MM_dd c.
Proof. repeat split. Qed.

Lemma Mem_instance_fields base c :
  (Mem.instance base c).(startDate) = c
  /\ (Mem.instance base c).(isRecurring) = base.(isRecurring)
  /\ (Mem.instance base c).(parentEventId) = Some base.(id)
  /\ (Mem.instance base c).(originalDate) = Some c
  /\ (Mem.instance base c).(id)
     = base.(id) +:+ "-recur-" +:+ numberToString c.
Proof. repeat split. Qed.

Lemma Mem_expand_elem s now baseEvents e :
  In e (Mem.expandRecurringEvents s now baseEvents) ->
  (In e baseEvents /\ truthyBool e.(isRecurring) = false)
  \/ (exists base del modi,
        In base baseEvents /\ truthyBool base.(isRecurring) = true
        /\ In e (Mem.generateRecurringInstances base now
                   (now + 6 * 30 * 24 * 60 * 60 * 1000) del modi)).
Proof.
  unfold Mem.expandRecurringEvents. rewrite In_sortByStart.
  intros Hin. apply in_flat_map in Hin as (ev & Hev & Hin).
  destruct (negb (truthyBool ev.(isRecurring))) eqn:Hrec.
  - apply negb_true_iff in Hrec. destruct Hin as [<- | []]. left. auto.
  - apply negb_false_iff in Hrec. right. eexists ev, _, _.
    split; [exact Hev |]. split; [exact Hrec |]. exact Hin.
Qed.

(** The two sources of the events returned by the range query of the
    memory backend: a stored event that starts in the window, or a
    repetition of a stored recurring event that starts in the window. *)
Lemma Mem_range_elem s S E e :
  In e (Mem.getEventsByDateRange s S E) ->
  S <= e.(startDate) <= E
  /\ (In e (Mem.mapValues s.(Mem.events))
      \/ exists base i,
           In base (Mem.mapValues s.(Mem.events))
           /\ truthyBool base.(isRecurring) = true
           /\ (1 <= i <= 365)%nat
           /\ In e (Mem.legacyInstance base (Z.of_nat i))).
Proof.
  unfold Mem.getEventsByDateRange. rewrite In_sortByStart.
  intros Hin. apply in_flat_map in Hin as (ev & Hev & Hin).
  apply in_app_iff in Hin as [Hin | Hin].
  - destruct (_ && _) eqn:Hw in Hin; [| destruct Hin].
    destruct Hin as [<- | []]. split; [lia | left; exact Hev].
  - destruct (truthyBool ev.(isRecurring)) eqn:Hr; [| destruct Hin].
    destruct (truthyStr ev.(recurringPattern)); [| destruct Hin].
    apply List.filter_In in Hin as (Hin & Hw). split; [lia |].
    right. unfold Mem.generateRecurringEvents in Hin.
    apply in_flat_map in Hin as (i & Hi & Hin).
    apply in_seq in Hi. exists ev, i. repeat split; auto; try lia.
    assert (Hb : 365 / Mem.getRecurrenceInterval
                   match orNull ev.(recurringPattern) with
                   | Some p => p
                   | None => "weekly"
                   end <= 365).
    { unfold Mem.getRecurrenceInterval.
      repeat match goal with |- context [if ?b then _ else _] => destruct b end;
        vm_compute; discriminate. }
    lia.
Qed.

End ReadPaths.

(** ** Exception shadowing in the generators *)

Section Shadowing.
Import JSDate DateFns Schema.

(** The calendar fields of an instant depend on its day number only. *)
Lemma fields_Day a b :
  Day a = Day b ->
  YearFromTime a = YearFromTime b /\ MonthFromTime a = MonthFromTime b
  /\ DateFromTime a = DateFromTime b /\ WeekDay a = WeekDay b.
Proof.
  intros H.
  assert (Hy : YearFromTime a = YearFromTime b)
    by (unfold YearFromTime; rewrite H; reflexivity).
  assert (Hl : InLeapYear a = InLeapYear b)
    by (unfold InLeapYear; rewrite Hy; reflexivity).
  assert (Hd : DayWithinYear a = DayWithinYear b)
    by (unfold DayWithinYear; rewrite H, Hy; reflexivity).
  assert (Hm : MonthFromTime a = MonthFromTime b)
    by (unfold MonthFromTime; rewrite Hd, Hl; reflexivity).
  repeat split; auto.
  - unfold DateFromTime. rewrite Hd, Hm, Hl. reflexivity.
  - unfold WeekDay. rewrite H. reflexivity.
Qed.

Lemma toDateString_Day a b : Day a = Day b -> toDateString a = toDateString b.
Proof.
  intros H. destruct (fields_Day a b H) as (Hy & Hm & Hd & Hw).
  unfold toDateString. rewrite Hy, Hm, Hd, Hw. reflexivity.
Qed.

Lemma format_Day a b :
  Day a = Day b -> format_yyyy_MM_dd a = format_yyyy_MM_dd b.
Proof.
  intros H. destruct (fields_Day a b H) as (Hy & Hm & Hd & Hw).
  unfold format_yyyy_MM_dd, getFullYear, getMonth, getDate.
  rewrite Hy, Hm, Hd. reflexivity.
Qed.

Lemma has_In set key : In key set -> has set key = true.
Proof.
  intros H. unfold has. apply existsb_exists. exists key.
  split; [exact H | apply String.eqb_refl].
Qed.

(** An instance generated by the memory backend never falls on the day of
    a "deleted" or "modified" exception of its parent. *)
Lemma Mem_generator_shadows base S E excs x e :
  In x excs ->
  x.(Mem.type) = "deleted" \/ x.(Mem.type) = "modified" ->
  In e (Mem.generateRecurringInstances base S E
          (Mem.datesOfType "deleted" excs)
          (Mem.datesOfType "modified" excs)) ->
  Day e.(startDate) <> Day x.(Mem.exceptionDate).
Proof.
  intros Hx Hty Hin Hday.
  apply Mem_generate_elem in Hin
    as (k & c & stop & _ & _ & _ & _ & Hd & Hm & He).
  subst e. apply toDateString_Day in Hday.
  change (toDateString c = toDateString x.(Mem.exceptionDate)) in Hday.
  assert (Hmem : forall ty, x.(Mem.type) = ty ->
                   has (Mem.datesOfType ty excs) (toDateString c) = true).
  { intros ty Hty'. apply has_In. unfold Mem.datesOfType.
    rewrite Hday. apply in_map_iff. exists x. split; [reflexivity |].
    apply List.filter_In. split; [exact Hx |].
    rewrite Hty'. apply String.eqb_refl. }
  destruct Hty as [Hty | Hty]; apply Hmem in Hty; congruence.
Qed.

(** The same for the database backend. *)
Lemma Db_generator_shadows base S E excs x e :
  In x excs ->
  x.(exType) = "deleted" \/ x.(exType) = "modified" ->
  In e (Db.generateRecurringInstances base S E excs) ->
  Day e.(startDate) <> Day x.(exceptionDate).
Proof.
  intros Hx Hty Hin Hday.
  apply Db_generate_elem in Hin as (k & c & stop & _ & _ & _ & Hd & Hm & He).
  subst e. apply format_Day in Hday.
  change (format_yyyy_MM_dd c = format_yyyy_MM_dd x.(exceptionDate)) in Hday.
  assert (Hmem : forall ty, x.(exType) = ty ->
                   has (Db.datesOfType ty excs) (format_yyyy_MM_dd c) = true).
  { intros ty Hty'. apply has_In. unfold Db.datesOfType.
    rewrite Hday. apply in_map_iff. exists x. split; [reflexivity |].
    apply List.filter_In. split; [exact Hx |].
    rewrite Hty'. apply String.eqb_refl. }
  destruct Hty as [Hty | Hty]; apply Hmem in Hty; congruence.
Qed.

End Shadowing.

Section ExceptionShadowing.
Import JSDate Schema Scenario.

(** The range query of the memory backend is the one inherited from
    [MemStorage]; it does not read the exception map, so the occurrence of
    2024-03-11, deleted on its own, is still listed. *)
Example Mem_range_lists_deleted_instance :
  starts (Mem.getEventsByDateRange memDeleted
            (dateOf 2024 2 1 0 0) (dateOf 2024 2 22 0 0))
  = [ ("m1", dateOf 2024 2 4 9 0);
      ("m1-recur-1", dateOf 2024 2 11 9 0);
      ("m1-recur-2", dateOf 2024 2 18 9 0) ].
Proof. vm_compute. reflexivity. Qed.

(** The database backend skips the deleted occurrence. *)
Example Db_range_skips_deleted_instance :
  starts (Db.getEventsByDateRange dbDeleted clock
            (dateOf 2024 2 1 0 0) (dateOf 2024 2 22 0 0))
  = [ ("m1-recur-2024-03-04", dateOf 2024 2 4 9 0);
      ("m1-recur-2024-03-18", dateOf 2024 2 18 9 0) ].
Proof. vm_compute. reflexivity. Qed.

(** C1 (exception shadowing). The claim asks that the standalone event of
    a modified occurrence be listed exactly once.  In the database backend
    the edited occurrence of 2024-03-11 leaves the generated series, but
    its standalone event "x1" is returned twice: once as a non-recurring
    row of the fetched events and once more by the query that adds the
    modified instances. *)
Theorem C1_modified_instance_listed_twice :
  starts (Db.getEventsByDateRange dbEdited clock
            (dateOf 2024 2 1 0 0) (dateOf 2024 2 22 0 0))
  = [ ("m1-recur-2024-03-04", dateOf 2024 2 4 9 0);
      ("x1", dateOf 2024 2 12 14 0);
      ("x1", dateOf 2024 2 12 14 0);
      ("m1-recur-2024-03-18", dateOf 2024 2 18 9 0) ].
Proof. vm_compute. reflexivity. Qed.

End ExceptionShadowing.

(** ** Deleting one occurrence *)

Section DeleteInstance.
Import JSDate Schema Scenario.

(** The database backend rejects the exception row of an unknown parent:
    the foreign key fails and nothing is written. *)
Lemma Db_deleteRecurringInstance_unknown_parent s newId now p d :
  Db.eventExists s p = false ->
  Db.deleteRecurringInstance s newId now p d = Db.Rejected.
Proof.
  intros Hp. unfold Db.deleteRecurringInstance, Db.insertExceptionRow.
  simpl. rewrite Hp. simpl. rewrite orb_true_r. reflexivity.
Qed.

(** With a known parent and a fresh key it appends the "deleted" row. *)
Lemma Db_deleteRecurringInstance_known_parent s newId now p d :
  Db.eventExists s p = true ->
  Db.exceptionExists s newId = false ->
  Db.deleteRecurringInstance s newId now p d
  = Db.Done
      (Db.mkState s.(Db.events)
         (s.(Db.eventExceptions)
          ++ [mkEventException newId p d "deleted" None (Some now)]))
      true.
Proof.
  intros Hp Hx. unfold Db.deleteRecurringInstance, Db.insertExceptionRow.
  simpl. rewrite Hp, Hx. reflexivity.
Qed.

(** C7 (deleteInstance on an unknown parent). The claim asks for a failure
    that writes nothing.  The memory backend never looks the parent up: on
    the empty store, deleting an occurrence of the unknown parent "ghost"
    reports success and stores a "deleted" exception for it. *)
Theorem C7_memory_delete_instance_of_unknown_parent :
  Mem.getEvent Mem.empty "ghost" = None
  /\ snd (Mem.deleteRecurringInstance Mem.empty "ghost"
            (dateOf 2024 2 11 9 0)) = true
  /\ Mem.eventExceptions
       (fst (Mem.deleteRecurringInstance Mem.empty "ghost"
               (dateOf 2024 2 11 9 0))) !! "ghost"
     = Some [Mem.mkException (dateOf 2024 2 11 9 0) "deleted" None].
Proof. vm_compute. repeat split. Qed.

End DeleteInstance.


(** ** Exception records are not unique per parent and date *)

Section ExceptionRecords.
Import JSDate Schema Scenario.

Lemma memExceptionCount_push s ev p d x :
  x.(Mem.exceptionDate) = d ->
  memExceptionCount
    (Mem.mkState ev
       (<[p := default [] (s.(Mem.eventExceptions) !! p) ++ [x]]>
          s.(Mem.eventExceptions))) p d
  = S (memExceptionCount s p d).
Proof.
  intros Hx. unfold memExceptionCount. cbn [Mem.eventExceptions].
  rewrite lookup_insert_eq. cbn [from_option Datatypes.id].
  rewrite List.filter_app, length_app. cbn [List.filter].
  rewrite Hx, Z.eqb_refl. cbn [length]. lia.
Qed.

Lemma dbExceptionCount_push ev rows p d x :
  x.(exParentEventId) = p -> x.(exceptionDate) = d ->
  dbExceptionCount (Db.mkState ev (rows ++ [x])) p d
  = S (dbExceptionCount (Db.mkState ev rows) p d).
Proof.
  intros Hp Hd. unfold dbExceptionCount. cbn [Db.eventExceptions].
  rewrite List.filter_app, length_app. cbn [List.filter].
  rewrite Hp, Hd, String.eqb_refl, Z.eqb_refl. cbn [andb length]. lia.
Qed.

(** C3 (exception uniqueness), as the code has it: neither backend looks
    for an existing record; every successful single-occurrence delete or
    edit appends one more exception record for its parent and date, so the
    number of records that share the pair grows by one with each call. *)
Theorem C3_each_call_appends_a_record :
  (forall s p d,
      memExceptionCount (fst (Mem.deleteRecurringInstance s p d)) p d
      = S (memExceptionCount s p d))
  /\ (forall s newId now p d u ev,
        snd (Mem.updateRecurringInstance s newId now p d u) = Some ev ->
        memExceptionCount
          (fst (Mem.updateRecurringInstance s newId now p d u)) p d
        = S (memExceptionCount s p d))
  /\ (forall s newId now p d s',
        Db.deleteRecurringInstance s newId now p d = Db.Done s' true ->
        dbExceptionCount s' p d = S (dbExceptionCount s p d))
  /\ (forall s newEventId newExceptionId now p d u s' ev,
        Db.updateRecurringInstance s newEventId newExceptionId now p d u
        = Db.Done s' (Some ev) ->
        dbExceptionCount s' p d = S (dbExceptionCount s p d)).
Proof.
  repeat split.
  - intros s p d. unfold Mem.deleteRecurringInstance. cbn [fst].
    apply memExceptionCount_push. reflexivity.
  - intros s newId now p d u ev. unfold Mem.updateRecurringInstance.
    destruct (Mem.getEvent s p); cbn [fst snd]; [| discriminate].
    intros _. apply memExceptionCount_push. reflexivity.
  - intros s newId now p d s'.
    unfold Db.deleteRecurringInstance, Db.insertExceptionRow.
    destruct (_ || _); cbv beta iota; [discriminate |]. intros [= <-].
    destruct s as [ev rows]. apply dbExceptionCount_push; reflexivity.
  - intros s newEventId newExceptionId now p d u s' ev.
    unfold Db.updateRecurringInstance.
    destruct (Db.getEvent s p); [| discriminate].
    unfold Db.insertEventRow. cbn [id].
    destruct (Db.eventExists s newEventId); cbv beta iota; [discriminate |].
    unfold Db.insertExceptionRow. destruct (_ || _); cbv beta iota;
      [discriminate |].
    intros [= <- _]. destruct s as [evs rows]. cbn [Db.events Db.eventExceptions].
    rewrite (dbExceptionCount_push _ rows p d); reflexivity.
Qed.

Lemma C3_each_call_appends_a_record_witness :
  Db.deleteRecurringInstance dbDeleted "e2" clock "m1" (dateOf 2024 2 11 9 0)
  = Db.Done
      (after (Db.deleteRecurringInstance dbDeleted "e2" clock "m1"
                (dateOf 2024 2 11 9 0))) true
  /\ dbExceptionCount
       (after (Db.deleteRecurringInstance dbDeleted "e2" clock "m1"
                 (dateOf 2024 2 11 9 0))) "m1" (dateOf 2024 2 11 9 0)
     = S (dbExceptionCount dbDeleted "m1" (dateOf 2024 2 11 9 0)).
Proof.
  split.
  - vm_compute. reflexivity.
  - apply (proj1 (proj2 (proj2 C3_each_call_appends_a_record))
             dbDeleted "e2" clock "m1" (dateOf 2024 2 11 9 0)).
    vm_compute. reflexivity.
Defined.

(** Deleting the occurrence of 2024-03-11 twice leaves two exception
    records for the same parent and date, in either backend. *)
Lemma C3_counterexample :
  Mem.eventExceptions
    (fst (Mem.deleteRecurringInstance memDeleted "m1" (dateOf 2024 2 11 9 0)))
    !! "m1"
  = Some [ Mem.mkException (dateOf 2024 2 11 9 0) "deleted" None;
           Mem.mkException (dateOf 2024 2 11 9 0) "deleted" None ]
  /\ map (fun x => (x.(exParentEventId), x.(exceptionDate)))
       (Db.eventExceptions
          (after (Db.deleteRecurringInstance dbDeleted "e2" clock "m1"
                    (dateOf 2024 2 11 9 0))))
     = [ ("m1", dateOf 2024 2 11 9 0); ("m1", dateOf 2024 2 11 9 0) ].
Proof. vm_compute. split; reflexivity. Qed.

End ExceptionRecords.

(** ** Deleting a series *)

Section SeriesDelete.
Import JSDate Schema Scenario.

Lemma Db_getEvents_elem s now e :
  In e (Db.getEvents s now) ->
  In e s.(Db.events)
  \/ exists base c, In base s.(Db.events) /\ e = Db.instance base c.
Proof.
  unfold Db.getEvents. intros Hin.
  apply Db_expand_elem in Hin
    as [[Hin _] | [(base & excs & Hb & _ & Hin) | [Hin _]]].
  - left. rewrite In_sortByStart in Hin. exact Hin.
  - right. rewrite In_sortByStart in Hb.
    apply Db_generate_elem in Hin as (k & c & stop & _ & _ & _ & _ & _ & ->).
    exists base, c. split; [exact Hb | reflexivity].
  - left. exact Hin.
Qed.

Lemma Mem_getEvents_elem s now e :
  In e (Mem.getEvents s now) ->
  In e (Mem.mapValues s.(Mem.events))
  \/ exists base c,
       In base (Mem.mapValues s.(Mem.events)) /\ e = Mem.instance base c.
Proof.
  unfold Mem.getEvents. intros Hin.
  apply Mem_expand_elem in Hin
    as [[Hin _] | (base & del & modi & Hb & _ & Hin)].
  - left. exact Hin.
  - right.
    apply Mem_generate_elem in Hin
      as (k & c & stop & _ & _ & _ & _ & _ & _ & ->).
    exists base, c. split; [exact Hb | reflexivity].
Qed.

(** C4 (series delete), as the code has it: the delete removes the event
    records stored under the given id and nothing else from the events;
    in the database backend it cascades to the exception rows that
    reference the id; afterwards a read returns stored records and
    occurrences generated from the remaining records only.  Standalone
    modified events of the deleted series are among the records that
    remain. *)
Theorem C4_series_delete (eid : string) :
  (forall s,
      let s' := fst (Db.deleteEvent s eid) in
      (forall e, In e s'.(Db.events) <-> In e s.(Db.events) /\ e.(id) <> eid)
      /\ (forall x, In x s'.(Db.eventExceptions) <->
                    In x s.(Db.eventExceptions)
                    /\ x.(exParentEventId) <> eid
                    /\ x.(modifiedEventId) <> Some eid)
      /\ (forall now e, In e (Db.getEvents s' now) ->
            In e s'.(Db.events)
            \/ exists base c,
                 In base s.(Db.events) /\ base.(id) <> eid
                 /\ e = Db.instance base c))
  /\ (forall s,
        let s' := fst (Mem.deleteEvent s eid) in
        (forall kv, In kv s'.(Mem.events) <->
                    In kv s.(Mem.events) /\ fst kv <> eid)
        /\ (forall now e, In e (Mem.getEvents s' now) ->
              In e (Mem.mapValues s'.(Mem.events))
              \/ exists k base c,
                   In (k, base) s.(Mem.events) /\ k <> eid
                   /\ e = Mem.instance base c)).
Proof.
  assert (Hdb : forall s e,
             In e (Db.events (fst (Db.deleteEvent s eid))) <->
             In e s.(Db.events) /\ e.(id) <> eid).
  { intros s e. unfold Db.deleteEvent. cbn [fst Db.events].
    rewrite List.filter_In, negb_true_iff, String.eqb_neq. reflexivity. }
  assert (Hmem : forall s kv,
             In kv (Mem.events (fst (Mem.deleteEvent s eid))) <->
             In kv s.(Mem.events) /\ fst kv <> eid).
  { intros s kv. unfold Mem.deleteEvent, Mem.mapDelete.
    cbn [fst Mem.events].
    rewrite List.filter_In, negb_true_iff, String.eqb_neq. reflexivity. }
  split.
  - intros s s'. split; [apply Hdb |]. split.
    + intros x. subst s'. unfold Db.deleteEvent.
      cbn [fst Db.eventExceptions].
      rewrite List.filter_In, andb_true_iff, !negb_true_iff.
      rewrite String.eqb_neq, bool_decide_eq_false. tauto.
    + intros now e Hin.
      apply Db_getEvents_elem in Hin as [Hin | (base & c & Hb & ->)].
      * left. exact Hin.
      * right. apply Hdb in Hb as [Hb Hne].
        exists base, c. auto.
  - intros s s'. split; [apply Hmem |].
    intros now e Hin.
    apply Mem_getEvents_elem in Hin as [Hin | (base & c & Hb & ->)].
    + left. exact Hin.
    + right. unfold Mem.mapValues in Hb.
      apply in_map_iff in Hb as ([k base'] & Heq & Hb).
      cbn [snd] in Heq. subst base'.
      apply Hmem in Hb as [Hb Hne]. exists k, base, c. auto.
Qed.

Lemma C4_series_delete_witness :
  In (Db.instance
        (mkEvent "m2" "Review" None (dateOf 2024 2 5 10 0) None (Some true)
           (Some "weekly") (Some "2") None None (Some clock))
        (dateOf 2024 2 5 10 0))
     (Db.getEvents
        (fst (Db.deleteEvent
                (after (Db.createEvent dbStandup "m2" clock
                          (mkInsertEvent "Review" None (dateOf 2024 2 5 10 0)
                             None (Some true) (Some "weekly") (Some "2")
                             None None)))
                "m1"))
        clock)
  /\ (In (Db.instance
            (mkEvent "m2" "Review" None (dateOf 2024 2 5 10 0) None
               (Some true) (Some "weekly") (Some "2") None None (Some clock))
            (dateOf 2024 2 5 10 0))
         (Db.events
            (fst (Db.deleteEvent
                    (after (Db.createEvent dbStandup "m2" clock
                              (mkInsertEvent "Review" None
                                 (dateOf 2024 2 5 10 0) None (Some true)
                                 (Some "weekly") (Some "2") None None)))
                    "m1")))
      \/ exists base c,
           In base
             (Db.events
                (after (Db.createEvent dbStandup "m2" clock
                          (mkInsertEvent "Review" None (dateOf 2024 2 5 10 0)
                             None (Some true) (Some "weekly") (Some "2")
                             None None))))
           /\ base.(id) <> "m1"
           /\ Db.instance
                (mkEvent "m2" "Review" None (dateOf 2024 2 5 10 0) None
                   (Some true) (Some "weekly") (Some "2") None None
                   (Some clock))
                (dateOf 2024 2 5 10 0)
              = Db.instance base c).
Proof.
  assert (Hin :
    In (Db.instance
          (mkEvent "m2" "Review" None (dateOf 2024 2 5 10 0) None (Some true)
             (Some "weekly") (Some "2") None None (Some clock))
          (dateOf 2024 2 5 10 0))
       (Db.getEvents
          (fst (Db.deleteEvent
                  (after (Db.createEvent dbStandup "m2" clock
                            (mkInsertEvent "Review" None
                               (dateOf 2024 2 5 10 0) None (Some true)
                               (Some "weekly") (Some "2") None None)))
                  "m1"))
          clock)).
  { vm_compute. left. reflexivity. }
  split; [exact Hin |].
  exact (proj2 (proj2 (proj1 (C4_series_delete "m1") _)) clock _ Hin).
Defined.

(** After the edited Standup series is deleted, its standalone modified
    event is still stored, still names the deleted series as its parent,
    and is still returned by a read. *)
Lemma C4_counterexample :
  exists e,
    In e (Db.events (fst (Db.deleteEvent dbEdited "m1")))
    /\ e.(parentEventId) = Some "m1"
    /\ In e (Db.getEvents (fst (Db.deleteEvent dbEdited "m1")) clock)
    /\ Db.getEvent (fst (Db.deleteEvent dbEdited "m1")) "m1" = None.
Proof.
  eexists. split; [vm_compute; left; reflexivity |].
  split; [reflexivity |]. split; [vm_compute; left; reflexivity |].
  vm_compute. reflexivity.
Qed.

End SeriesDelete.

(** ** Range queries *)

Section RangeQueries.
Import JSDate DateFns Schema Scenario.

(** C5 (window bound), as the code has it: the range query of the memory
    backend keeps the events that start in the closed window from [S] to
    [E], both ends included; in the database backend every generated
    occurrence starts at or after [S] and strictly before [E]. *)
Theorem C5_window_bound :
  (forall s S E e,
      In e (Mem.getEventsByDateRange s S E) -> S <= e.(startDate) <= E)
  /\ (forall s now S E e,
        In e (Db.getEventsByDateRange s now S E) ->
        truthyBool e.(isRecurring) = true ->
        S <= e.(startDate) < E).
Proof.
  split.
  - intros s S E e Hin. apply Mem_range_elem in Hin. tauto.
  - intros s now S E e Hin Hrec. unfold Db.getEventsByDateRange in Hin.
    apply Db_expand_elem in Hin
      as [[_ Hf] | [(base & excs & _ & _ & Hin) | (_ & Hf & _)]].
    + congruence.
    + apply Db_generate_elem in Hin
        as (k & c & stop & Hs & Hse & Hlt & _ & _ & ->).
      apply Db_seriesEnd_le in Hse.
      apply (stepN_advance _ _ _ _ (dbNext_advance base)) in Hs.
      rewrite (proj1 (Db_instance_fields base c)).
      unfold msPerDay in Hs. lia.
    + rewrite Hf in Hrec. discriminate.
Qed.

Lemma C5_window_bound_witness :
  In (Db.instance
        (mkEvent "m1" "Standup" None standupStart None (Some true)
           (Some "weekly") (Some "indefinite") None None (Some clock))
        (dateOf 2024 2 18 9 0))
     (Db.getEventsByDateRange dbStandup clock
        (dateOf 2024 2 1 0 0) (dateOf 2024 2 22 0 0))
  /\ dateOf 2024 2 1 0 0
     <= (Db.instance
           (mkEvent "m1" "Standup" None standupStart None (Some true)
              (Some "weekly") (Some "indefinite") None None (Some clock))
           (dateOf 2024 2 18 9 0)).(startDate)
     < dateOf 2024 2 22 0 0.
Proof.
  assert (Hin :
    In (Db.instance
          (mkEvent "m1" "Standup" None standupStart None (Some true)
             (Some "weekly") (Some "indefinite") None None (Some clock))
          (dateOf 2024 2 18 9 0))
       (Db.getEventsByDateRange dbStandup clock
          (dateOf 2024 2 1 0 0) (dateOf 2024 2 22 0 0))).
  { vm_compute. right. right. left. reflexivity. }
  split; [exact Hin |].
  exact (proj2 C5_window_bound dbStandup clock _ _ _ Hin eq_refl).
Defined.

(** In the memory backend a window that ends exactly when the second
    Standup occurrence starts still returns that occurrence. *)
Lemma C5_counterexample :
  exists e,
    In e (Mem.getEventsByDateRange memStandup
            (dateOf 2024 2 4 9 0) (dateOf 2024 2 11 9 0))
    /\ e.(id) = "m1-recur-1"
    /\ truthyBool e.(isRecurring) = true
    /\ ~ e.(startDate) < dateOf 2024 2 11 9 0.
Proof.
  eexists. split; [vm_compute; right; left; reflexivity |].
  split; [reflexivity |]. split; [reflexivity |].
  vm_compute. discriminate.
Qed.

(** Where the range query of the database backend takes its events from:
    stored rows, and occurrences stepped from the start of a recurring row
    that itself starts in the window from [S] to [E]. *)
Lemma Db_range_query_sources s now S E e :
  In e (Db.getEventsByDateRange s now S E) ->
  In e s.(Db.events)
  \/ exists base k c,
       In base s.(Db.events)
       /\ truthyBool base.(isRecurring) = true
       /\ S <= base.(startDate) <= E
       /\ stepN (dbNext base) k base.(startDate) = Some c
       /\ e = Db.instance base c.
Proof.
  intros Hin. unfold Db.getEventsByDateRange in Hin.
  apply Db_expand_elem in Hin
    as [[Hin _] | [(base & excs & Hb & Hrec & Hin) | (Hin & _)]].
  - left. rewrite In_sortByStart in Hin. apply List.filter_In in Hin. tauto.
  - right. rewrite In_sortByStart in Hb. apply List.filter_In in Hb as [Hb Hw].
    apply Db_generate_elem in Hin as (k & c & stop & Hs & _ & _ & _ & _ & ->).
    rewrite Z.max_l in Hs by lia.
    exists base, k, c. repeat split; auto; lia.
  - left. exact Hin.
Qed.

(** C6 (window coverage).  The claim asks that a recurring master that
    starts before the window still yields its occurrences in the window.
    The Standup series is stored, is recurring and starts on 2024-03-04,
    two days before the window from 2024-03-06 to 2024-03-27.  Given the
    series and the window, the generator yields three occurrences, and the
    listing of all events holds the occurrence of 2024-03-11; the range
    query of the database backend selects the rows by their own start, never
    hands the series to the generator and returns nothing.  The range query
    of the memory backend returns the three repetitions on the same input. *)
Theorem C6_earlier_master_missing_from_range_query :
  Db.getEvent dbStandup "m1" = Some standupEvent
  /\ truthyBool standupEvent.(isRecurring) = true
  /\ standupEvent.(startDate) < dateOf 2024 2 6 0 0
  /\ starts (Db.generateRecurringInstances standupEvent (dateOf 2024 2 6 0 0)
               (Some (dateOf 2024 2 27 0 0)) [])
     = [ ("m1-recur-2024-03-06", dateOf 2024 2 6 0 0);
         ("m1-recur-2024-03-13", dateOf 2024 2 13 0 0);
         ("m1-recur-2024-03-20", dateOf 2024 2 20 0 0) ]
  /\ In ("m1-recur-2024-03-11"%string, dateOf 2024 2 11 9 0)
       (starts (Db.getEvents dbStandup clock))
  /\ Db.getEventsByDateRange dbStandup clock
       (dateOf 2024 2 6 0 0) (dateOf 2024 2 27 0 0) = []
  /\ starts (Mem.getEventsByDateRange memStandup
               (dateOf 2024 2 6 0 0) (dateOf 2024 2 27 0 0))
     = [ ("m1-recur-1", dateOf 2024 2 11 9 0);
         ("m1-recur-2", dateOf 2024 2 18 9 0);
         ("m1-recur-3", dateOf 2024 2 25 9 0) ].
Proof.
  split; [vm_compute; reflexivity |]. split; [reflexivity |].
  split; [vm_compute; reflexivity |]. split; [vm_compute; reflexivity |].
  split; [vm_compute; right; left; reflexivity |].
  split; vm_compute; reflexivity.
Qed.

End RangeQueries.

(** ** Termination and the iteration cap *)

Section Termination.
Import JSDate DateFns Schema Scenario.

(** C2 (termination and iteration cap), as the code has it: the generator
    of the memory backend runs at most 500 turns, so it emits at most 500
    occurrences, and what it emits is a truncation of what a larger cap
    would give; the generator of the database backend has no cap: its loop
    completes because every step advances the cursor by at least one day,
    within one turn per day between the cursor and the series end, and it
    emits at most that many occurrences. *)
Theorem C2_generators_terminate :
  (forall base S E del modi,
      (length (Mem.generateRecurringInstances base S E del modi) <= 500)%nat
      /\ forall cap, (500 <= cap)%nat ->
           exists rest,
             Mem.instancesLoop cap base (Mem.seriesEnd base E) del modi
               (Some (Z.max base.(startDate) S))
             = Mem.generateRecurringInstances base S E del modi ++ rest)
  /\ (forall base S E excs,
        let cur := Z.max base.(startDate) S in
        let stop := Db.seriesEnd base E in
        exists l,
          (forall fuel, (Db.loopFuel cur stop <= fuel)%nat ->
             Db.instancesLoop fuel base stop
               (Db.datesOfType "deleted" excs)
               (Db.datesOfType "modified" excs) (Some cur) = Some l)
          /\ Db.generateRecurringInstances base S E excs = l
          /\ (length l <= Db.loopFuel cur stop)%nat).
Proof.
  split.
  - intros base S E del modi. split.
    + exact (Mem_loop_length Mem.maxIterations base (Mem.seriesEnd base E)
               del modi (Some (Z.max base.(startDate) S))).
    + intros cap Hcap.
      exact (Mem_loop_prefix Mem.maxIterations cap base
               (Mem.seriesEnd base E) del modi
               (Some (Z.max base.(startDate) S)) Hcap).
  - intros base S E excs cur stop.
    destruct (Db_loop_completes (Db.loopFuel cur stop) base stop
                (Db.datesOfType "deleted" excs)
                (Db.datesOfType "modified" excs) cur)
      as (l & Hl & Hlen).
    { intros e He. apply loopFuel_covers. exact He. }
    exists l. split; [| split].
    + intros fuel Hfuel.
      exact (Db_loop_fuel_irrelevant _ _ _ _ _ _ _ _ Hfuel Hl).
    + unfold Db.generateRecurringInstances. fold cur. fold stop.
      rewrite Hl. reflexivity.
    + exact Hlen.
Qed.

Lemma C2_generators_terminate_witness :
  (500 <= 600)%nat
  /\ exists rest,
       Mem.instancesLoop 600 standupEvent
         (Mem.seriesEnd standupEvent (dateOf 2074 2 1 0 0)) [] []
         (Some (Z.max standupEvent.(startDate) (dateOf 2024 2 1 0 0)))
       = Mem.generateRecurringInstances standupEvent (dateOf 2024 2 1 0 0)
           (dateOf 2074 2 1 0 0) [] [] ++ rest.
Proof.
  assert (H : (500 <= 600)%nat) by lia.
  split; [exact H |].
  exact (proj2 (proj1 C2_generators_terminate standupEvent
                  (dateOf 2024 2 1 0 0) (dateOf 2074 2 1 0 0) [] [])
           600%nat H).
Defined.

(** The weekly Standup series, queried over the fifty years from
    2024-03-01 to 2074-03-01: the generator of the memory backend stops at
    500 occurrences, the range query of the database backend returns more
    than 500. *)
Lemma C2_counterexample :
  length (Mem.generateRecurringInstances standupEvent (dateOf 2024 2 1 0 0)
            (dateOf 2074 2 1 0 0) [] []) = 500%nat
  /\ (500 < length (Db.getEventsByDateRange dbStandup clock
                      (dateOf 2024 2 1 0 0) (dateOf 2074 2 1 0 0)))%nat.
Proof.
  split.
  - vm_compute. reflexivity.
  - apply Nat.ltb_lt. vm_compute. reflexivity.
Qed.

End Termination.

(** ** The occurrence grid is anchored at the window start *)

Section WindowAnchor.
Import JSDate DateFns Schema Scenario.

(** One turn of the loop of the memory backend. *)
Lemma Mem_loop_turn rem base stop del modi cur :
  rem <> O ->
  Mem.instancesLoop rem base (Some stop) del modi (Some cur)
  = if cur <? stop then
      if has del (toDateString cur) || has modi (toDateString cur)
      then Mem.instancesLoop (Nat.pred rem) base (Some stop) del modi
             (Mem.getNextRecurrenceDate cur base.(recurringPattern))
      else Mem.instance base cur
           :: Mem.instancesLoop (Nat.pred rem) base (Some stop) del modi
                (Mem.getNextRecurrenceDate cur base.(recurringPattern))
    else [].
Proof. destruct rem as [| rem]; [congruence | reflexivity]. Qed.

(** One turn of the loop of the database backend. *)
Lemma Db_loop_turn fuel base stop del modi cur :
  fuel <> O -> cur < stop ->
  has del (format_yyyy_MM_dd cur) = false ->
  has modi (format_yyyy_MM_dd cur) = false ->
  Db.instancesLoop fuel base (Some stop) del modi (Some cur)
  = option_map (cons (Db.instance base cur))
      (Db.instancesLoop (Nat.pred fuel) base (Some stop) del modi
         (Db.getNextRecurrenceDate cur base.(recurringPattern))).
Proof.
  intros Hfuel Hlt Hd Hm. destruct fuel as [| fuel]; [congruence |].
  cbn [Db.instancesLoop Nat.pred isBefore].
  destruct (Z.ltb_spec cur stop); [| lia].
  rewrite Hd, Hm. reflexivity.
Qed.

Lemma maxIterations_positive : Mem.maxIterations <> O.
Proof. discriminate. Qed.

(** C10 (window-anchored grid), as the code has it: for a recurring master
    that starts before the window start [S], every occurrence the generator
    emits sits at an iterate of the stepper from [S], and its fields,
    instance id included, are derived from that instant; when the series
    end lies after [S] and the day of [S] carries no exception, the first
    emitted occurrence starts exactly at [S]. *)
Theorem C10_window_anchored base S E :
  base.(startDate) < S ->
  (forall del modi,
      (forall e,
          In e (Mem.generateRecurringInstances base S E del modi) ->
          exists k,
            stepN (memNext base) k S = Some e.(startDate)
            /\ e = Mem.instance base e.(startDate))
      /\ (forall stop,
            Mem.seriesEnd base E = Some stop -> S < stop ->
            has del (toDateString S) = false ->
            has modi (toDateString S) = false ->
            exists rest,
              Mem.generateRecurringInstances base S E del modi
              = Mem.instance base S :: rest))
  /\ (forall excs,
        (forall e,
            In e (Db.generateRecurringInstances base S (Some E) excs) ->
            exists k,
              stepN (dbNext base) k S = Some e.(startDate)
              /\ e = Db.instance base e.(startDate))
        /\ (forall stop,
              Db.seriesEnd base (Some E) = Some stop -> S < stop ->
              has (Db.datesOfType "deleted" excs) (format_yyyy_MM_dd S) = false ->
              has (Db.datesOfType "modified" excs) (format_yyyy_MM_dd S) = false ->
              exists rest,
                Db.generateRecurringInstances base S (Some E) excs
                = Db.instance base S :: rest)).
Proof.
  intros Hbefore.
  assert (Hmax : Z.max base.(startDate) S = S) by lia.
  split.
  - intros del modi. split.
    + intros e Hin.
      apply Mem_generate_elem in Hin
        as (k & c & stop & _ & Hs & _ & _ & _ & _ & ->).
      rewrite Hmax in Hs. exists k.
      rewrite (proj1 (Mem_instance_fields base c)). auto.
    + intros stop Hse Hlt Hd Hm. unfold Mem.generateRecurringInstances.
      rewrite Hse, Hmax, Mem_loop_turn by exact maxIterations_positive.
      destruct (Z.ltb_spec S stop); [| lia].
      rewrite Hd, Hm. cbn [orb]. eexists. reflexivity.
  - intros excs. split.
    + intros e Hin.
      apply Db_generate_elem in Hin
        as (k & c & stop & Hs & _ & _ & _ & _ & ->).
      rewrite Hmax in Hs. exists k.
      rewrite (proj1 (Db_instance_fields base c)). auto.
    + intros stop Hse Hlt Hd Hm. unfold Db.generateRecurringInstances.
      rewrite Hse, Hmax.
      destruct (Db_loop_completes (Db.loopFuel S (Some stop)) base
                  (Some stop) (Db.datesOfType "deleted" excs)
                  (Db.datesOfType "modified" excs) S)
        as (l & Hl & _).
      { intros e He. apply loopFuel_covers. exact He. }
      rewrite Hl. rewrite Db_loop_turn in Hl; try assumption.
      * destruct (Db.instancesLoop _ base _ _ _ _) as [rest |];
          [| discriminate].
        injection Hl as <-. exists rest. reflexivity.
      * unfold Db.loopFuel, msPerDay.
        assert (0 <= (stop - S) / 86400000)
          by (Z.div_mod_to_equations; lia).
        lia.
Qed.

Lemma C10_window_anchored_witness :
  standupEvent.(startDate) < dateOf 2024 2 6 0 0
  /\ exists rest,
       Db.generateRecurringInstances standupEvent (dateOf 2024 2 6 0 0)
         (Some (dateOf 2024 2 27 0 0)) []
       = Db.instance standupEvent (dateOf 2024 2 6 0 0) :: rest.
Proof.
  assert (H : standupEvent.(startDate) < dateOf 2024 2 6 0 0)
    by (vm_compute; reflexivity).
  split; [exact H |].
  apply (proj2 (proj2 (C10_window_anchored standupEvent (dateOf 2024 2 6 0 0)
                         (dateOf 2024 2 27 0 0) H) [])
           (dateOf 2024 2 27 0 0)).
  - vm_compute. reflexivity.
  - vm_compute. reflexivity.
  - vm_compute. reflexivity.
  - vm_compute. reflexivity.
Defined.

(** The Standup series falls on Mondays at 09:00.  Queried over a window
    that starts on Wednesday 2024-03-06 at 00:00, the generator emits
    occurrences on Wednesdays at 00:00, with instance ids to match. *)
Example window_anchored_grid :
  starts (Db.generateRecurringInstances standupEvent (dateOf 2024 2 6 0 0)
            (Some (dateOf 2024 2 27 0 0)) [])
  = [ ("m1-recur-2024-03-06", dateOf 2024 2 6 0 0);
      ("m1-recur-2024-03-13", dateOf 2024 2 13 0 0);
      ("m1-recur-2024-03-20", dateOf 2024 2 20 0 0) ].
Proof. vm_compute. reflexivity. Qed.

(** With the occurrence of 2024-03-11 deleted and a window that starts on
    that day at 10:00, the first occurrence emitted by the generator of the
    memory backend starts a week after the window start. *)
Lemma C10_counterexample :
  exists e rest,
    Mem.generateRecurringInstances standupEvent (dateOf 2024 2 11 10 0)
      (dateOf 2024 3 1 0 0)
      (Mem.datesOfType "deleted"
         [Mem.mkException (dateOf 2024 2 11 9 0) "deleted" None])
      (Mem.datesOfType "modified"
         [Mem.mkException (dateOf 2024 2 11 9 0) "deleted" None])
    = e :: rest
    /\ standupEvent.(startDate) < dateOf 2024 2 11 10 0
    /\ e.(startDate) = dateOf 2024 2 18 10 0
    /\ e.(startDate) <> dateOf 2024 2 11 10 0.
Proof.
  eexists _, _. split; [vm_compute; reflexivity |].
  split; [vm_compute; reflexivity |].
  split; [vm_compute; reflexivity |]. vm_compute. discriminate.
Qed.

End WindowAnchor.

(** ** Editing one occurrence *)

Section EditInstance.
Import JSDate Schema Scenario.

Lemma mapGet_mapSet m k v : Mem.mapGet (Mem.mapSet m k v) k = Some v.
Proof.
  induction m as [| [k' v'] m IH]; cbn [Mem.mapSet Mem.mapGet].
  - rewrite String.eqb_refl. reflexivity.
  - destruct (String.eqb k' k) eqn:Hk; cbn [Mem.mapGet]; rewrite Hk.
    + reflexivity.
    + exact IH.
Qed.

Lemma Db_getEvent_exists s p parent :
  Db.getEvent s p = Some parent -> Db.eventExists s p = true.
Proof.
  unfold Db.getEvent, Db.eventExists. intros H.
  apply find_some in H as [Hin Hp]. apply existsb_exists. eauto.
Qed.

Lemma Db_eventExists_app evs rows ev p :
  Db.eventExists (Db.mkState (evs ++ [ev]) rows) p
  = Db.eventExists (Db.mkState evs rows) p || String.eqb ev.(id) p.
Proof.
  unfold Db.eventExists. cbn [Db.events].
  rewrite existsb_app. cbn [existsb]. rewrite orb_false_r. reflexivity.
Qed.

(** C8 (editInstance), as the code has it: with an unknown parent the
    edit returns null and leaves the store as it is; with a known parent
    it stores and returns a new standalone event whose title, description
    and end are the parent's unless the updates give them, whose start is
    the start given in the updates or else the occurrence date, which is
    not recurring, carries no pattern and no week count, and names the
    parent and the occurrence date; and it appends the paired "modified"
    exception that points at the new event.  (In the database backend the
    two generated keys must be unused.) *)
Theorem C8_edit_instance :
  (forall s newId now p d u,
      Mem.getEvent s p = None ->
      Mem.updateRecurringInstance s newId now p d u = (s, None))
  /\ (forall s newId now p d u parent,
        Mem.getEvent s p = Some parent ->
        exists s' ev,
          Mem.updateRecurringInstance s newId now p d u = (s', Some ev)
          /\ standaloneOf parent p d u newId ev
          /\ Mem.getEvent s' newId = Some ev
          /\ s'.(Mem.eventExceptions) !! p
             = Some (default [] (s.(Mem.eventExceptions) !! p)
                     ++ [Mem.mkException d "modified" (Some newId)]))
  /\ (forall s newEventId newExceptionId now p d u,
        Db.getEvent s p = None ->
        Db.updateRecurringInstance s newEventId newExceptionId now p d u
        = Db.Done s None)
  /\ (forall s newEventId newExceptionId now p d u parent,
        Db.getEvent s p = Some parent ->
        Db.eventExists s newEventId = false ->
        Db.exceptionExists s newExceptionId = false ->
        exists ev,
          Db.updateRecurringInstance s newEventId newExceptionId now p d u
          = Db.Done
              (Db.mkState (s.(Db.events) ++ [ev])
                 (s.(Db.eventExceptions)
                  ++ [mkEventException newExceptionId p d "modified"
                        (Some newEventId) (Some now)]))
              (Some ev)
          /\ standaloneOf parent p d u newEventId ev).
Proof.
  split; [| split; [| split]].
  - intros s newId now p d u Hp. unfold Mem.updateRecurringInstance.
    rewrite Hp. reflexivity.
  - intros s newId now p d u parent Hp. unfold Mem.updateRecurringInstance.
    rewrite Hp. eexists _, _. split; [reflexivity |].
    split; [repeat split |]. split.
    + unfold Mem.getEvent. cbn [Mem.events]. apply mapGet_mapSet.
    + cbn [Mem.eventExceptions]. apply lookup_insert_eq.
  - intros s newEventId newExceptionId now p d u Hp.
    unfold Db.updateRecurringInstance. rewrite Hp. reflexivity.
  - intros s newEventId newExceptionId now p d u parent Hp Hfresh Hfresh'.
    unfold Db.updateRecurringInstance. rewrite Hp.
    unfold Db.insertEventRow. cbn [id]. rewrite Hfresh.
    unfold Db.insertExceptionRow.
    cbn [exId exParentEventId modifiedEventId id Db.eventExceptions Db.events].
    destruct s as [evs rows].
    unfold Db.exceptionExists in *. cbn [Db.eventExceptions Db.events] in *.
    rewrite Hfresh'. rewrite !Db_eventExists_app.
    rewrite (Db_getEvent_exists _ _ _ Hp). cbn [id].
    rewrite String.eqb_refl, orb_true_r. cbn [negb orb].
    eexists. split; [reflexivity | repeat split].
Qed.

Lemma C8_edit_instance_witness :
  Db.getEvent dbStandup "m1" = Some standupEvent
  /\ Db.eventExists dbStandup "x1" = false
  /\ Db.exceptionExists dbStandup "e1" = false
  /\ exists ev,
       Db.updateRecurringInstance dbStandup "x1" "e1" clock "m1"
         (dateOf 2024 2 11 9 0) moved
       = Db.Done
           (Db.mkState (dbStandup.(Db.events) ++ [ev])
              (dbStandup.(Db.eventExceptions)
               ++ [mkEventException "e1" "m1" (dateOf 2024 2 11 9 0)
                     "modified" (Some "x1") (Some clock)]))
           (Some ev)
       /\ standaloneOf standupEvent "m1" (dateOf 2024 2 11 9 0) moved "x1" ev.
Proof.
  assert (H1 : Db.getEvent dbStandup "m1" = Some standupEvent)
    by (vm_compute; reflexivity).
  assert (H2 : Db.eventExists dbStandup "x1" = false)
    by (vm_compute; reflexivity).
  assert (H3 : Db.exceptionExists dbStandup "e1" = false)
    by (vm_compute; reflexivity).
  split; [exact H1 |]. split; [exact H2 |]. split; [exact H3 |].
  exact (proj2 (proj2 (proj2 C8_edit_instance)) dbStandup "x1" "e1" clock
           "m1" (dateOf 2024 2 11 9 0) moved standupEvent H1 H2 H3).
Defined.

(** Editing the Standup occurrence of 2024-03-11 without any update gives
    a standalone event that starts on 2024-03-11, not on the parent's
    start of 2024-03-04, and that has no pattern where the parent has
    "weekly". *)
Lemma C8_counterexample :
  exists ev parent,
    snd (Mem.updateRecurringInstance memStandup "x1" clock "m1"
           (dateOf 2024 2 11 9 0) noUpdates) = Some ev
    /\ Mem.getEvent memStandup "m1" = Some parent
    /\ ev.(startDate) = dateOf 2024 2 11 9 0
    /\ ev.(startDate) <> parent.(startDate)
    /\ ev.(recurringPattern) <> parent.(recurringPattern).
Proof.
  eexists _, _. split; [vm_compute; reflexivity |].
  split; [vm_compute; reflexivity |].
  split; [vm_compute; reflexivity |].
  split; vm_compute; discriminate.
Qed.

End EditInstance.

(** ** What one step of each stepper does *)

Section StepperSemantics.
Import JSDate DateFns Schema Scenario.

Ltac pattern_cases p :=
  destruct (String.eqb p "daily");
  [| destruct (String.eqb p "weekly");
     [| destruct (String.eqb p "monthly");
        [| destruct (String.eqb p "yearly") ] ] ].

Lemma TimeClip_atDate t y m d :
  awayFromLimits t ->
  -400 <= MakeDay y m d - Day t <= 400 ->
  TimeClip (atDate t (y, m, d)) = Some (atDate t (y, m, d)).
Proof.
  intros Ht Hgain. apply (TimeClip_near t); [exact Ht |].
  rewrite atDate_shift. unfold msPerDay. lia.
Qed.

Lemma Mem_next_defined t p :
  awayFromLimits t ->
  Mem.getNextRecurrenceDate t p = Some (atDate t (stepTarget t p)).
Proof.
  intros Ht. rewrite Mem_next_exact.
  pose proof (stepTarget_gain t p) as Hgain.
  destruct (stepTarget t p) as [[y m] d].
  apply TimeClip_atDate; [exact Ht | lia].
Qed.

Lemma Db_next_defined t p :
  awayFromLimits t ->
  Db.getNextRecurrenceDate t p = Some (atDate t (stepTargetClamped t p)).
Proof.
  intros Ht.
  assert (Hsome : exists r, Db.getNextRecurrenceDate t p = Some r).
  { pose proof (MakeDay_of_time t) as Hday.
    rewrite (MakeDay_date0 _ _ (DateFromTime t)) in Hday.
    pose proof (MonthFromTime_range t) as Hm.
    pose proof (DateFromTime_range t) as Hd.
    pose proof (daysInMonth_range (YearFromTime t) (MonthFromTime t)) as Hdim.
    assert (Hdays : forall k, k <> 0 -> 0 <= k <= 7 ->
              exists r, addDays t (Some k) = Some r).
    { intros k Hk Hk7. unfold addDays. destruct (Z.eqb_spec k 0); [lia |].
      rewrite setDate_shift. eexists. apply (TimeClip_near t); [exact Ht |].
      unfold msPerDay. lia. }
    assert (Hmonths : forall a, a = 1 \/ a = 12 ->
              exists r, addMonths t (Some a) = Some r).
    { intros a Ha. rewrite addMonths_exact by lia.
      unfold getFullYear, getMonth, getDate.
      set (Y := YearFromTime t) in *. set (M := MonthFromTime t) in *.
      set (D := DateFromTime t) in *.
      pose proof (daysInMonth_range Y (M + a)) as Hdima.
      assert (Hbase : 28 <= MakeDay Y (M + a) 0 - MakeDay Y M 0 <= 366).
      { destruct Ha as [-> | ->].
        - rewrite MakeDay_next_month. lia.
        - rewrite MakeDay_add12.
          pose proof (MakeDay_next_year Y M 0 Hm). lia. }
      rewrite TimeClip_atDate.
      - unfold clampDay. eexists. apply TimeClip_atDate; [exact Ht |].
        rewrite (MakeDay_date0 _ _ (Z.min _ _)). fold D in Hd. lia.
      - exact Ht.
      - rewrite MakeDay_next_month. fold D in Hd. lia. }
    destruct p as [p |]; unfold Db.getNextRecurrenceDate;
      [pattern_cases p |]; unfold addWeeks, addYears, option_map;
      change (1 * 7) with 7; change (1 * 12) with 12;
      first [apply Hdays; lia | apply Hmonths; lia]. }
  destruct Hsome as [r Hr]. rewrite Hr.
  apply Db_next_value in Hr. rewrite Hr. reflexivity.
Qed.

Lemma MakeDate_day_inj a b tod : MakeDate a tod = MakeDate b tod -> a = b.
Proof. unfold MakeDate, msPerDay. lia. Qed.

Lemma atDate_inj t y m d d' :
  atDate t (y, m, d) = atDate t (y, m, d') -> d = d'.
Proof.
  unfold atDate. intros H. apply MakeDate_day_inj in H.
  rewrite (MakeDay_date0 y m d), (MakeDay_date0 y m d') in H. lia.
Qed.

(** The clamped target is the plain target exactly when the step does not
    overshoot. *)
Lemma clamped_when t p :
  (overshoots t p = false -> stepTargetClamped t p = stepTarget t p)
  /\ (atDate t (stepTargetClamped t p) = atDate t (stepTarget t p) ->
      overshoots t p = false).
Proof.
  unfold overshoots, stepTargetClamped.
  destruct p as [p |]; [pattern_cases p |]; try (split; reflexivity).
  - destruct (stepTarget t (Some p)) as [[y m] d]. unfold clampDay. split.
    + intros H. apply Z.ltb_ge in H. rewrite Z.min_l by lia. reflexivity.
    + intros H. apply atDate_inj in H. apply Z.ltb_ge. lia.
  - destruct (stepTarget t (Some p)) as [[y m] d]. unfold clampDay. split.
    + intros H. apply Z.ltb_ge in H. rewrite Z.min_l by lia. reflexivity.
    + intros H. apply atDate_inj in H. apply Z.ltb_ge. lia.
Qed.

Lemma atDate_fields t y m d :
  1 <= d <= daysInMonth y m ->
  YearFromTime (atDate t (y, m, d)) = y + m / 12
  /\ MonthFromTime (atDate t (y, m, d)) = m mod 12
  /\ DateFromTime (atDate t (y, m, d)) = d
  /\ TimeWithinDay (atDate t (y, m, d)) = TimeWithinDay t.
Proof.
  intros Hd. unfold atDate.
  apply (fields_of_MakeDate y m d (TimeWithinDay t) Hd (TimeWithinDay_range t)).
Qed.

Lemma atDate_rollover t y m d :
  atDate t (y, m, d) = atDate t (y, m + 1, d - daysInMonth y m).
Proof.
  unfold atDate. f_equal.
  rewrite (MakeDay_date0 y m d), (MakeDay_date0 y (m + 1) _).
  rewrite MakeDay_next_month. lia.
Qed.

(** C9 (interval steppers), as the code has it, for an instant [t] away
    from the limits of the time range: both steppers add one day for
    "daily" and seven days for "weekly", for an unrecognised and for a
    missing pattern; for "monthly" and "yearly" both move to the same day
    of the month, at the same time of day, one month or one year later
    when that day exists; when it does not, the database stepper stops at
    the last day of the month aimed at and the memory stepper carries the
    excess days into the following month.  The two steppers agree exactly
    on the steps that do not overshoot. *)
Theorem C9_steppers t p :
  awayFromLimits t ->
  Mem.getNextRecurrenceDate t p = Some (atDate t (stepTarget t p))
  /\ Db.getNextRecurrenceDate t p = Some (atDate t (stepTargetClamped t p))
  /\ (p = Some "daily" ->
      Mem.getNextRecurrenceDate t p = Some (t + msPerDay)
      /\ Db.getNextRecurrenceDate t p = Some (t + msPerDay))
  /\ (p <> Some "daily" -> p <> Some "monthly" -> p <> Some "yearly" ->
      Mem.getNextRecurrenceDate t p = Some (t + 7 * msPerDay)
      /\ Db.getNextRecurrenceDate t p = Some (t + 7 * msPerDay))
  /\ (overshoots t p = false <->
      Mem.getNextRecurrenceDate t p = Db.getNextRecurrenceDate t p)
  /\ (p = Some "monthly" \/ p = Some "yearly" ->
      forall y m d, stepTarget t p = (y, m, d) ->
      d = DateFromTime t
      /\ (y, m) = (if bool_decide (p = Some "monthly")
                   then (YearFromTime t, MonthFromTime t + 1)
                   else (YearFromTime t + 1, MonthFromTime t))
      /\ (overshoots t p = false ->
          forall r, Mem.getNextRecurrenceDate t p = Some r ->
            YearFromTime r = y + m / 12 /\ MonthFromTime r = m mod 12
            /\ DateFromTime r = DateFromTime t
            /\ TimeWithinDay r = TimeWithinDay t)
      /\ (overshoots t p = true ->
          (forall r, Db.getNextRecurrenceDate t p = Some r ->
             YearFromTime r = y + m / 12 /\ MonthFromTime r = m mod 12
             /\ DateFromTime r = daysInMonth y m
             /\ TimeWithinDay r = TimeWithinDay t)
          /\ (forall r, Mem.getNextRecurrenceDate t p = Some r ->
                r = atDate t (y, m + 1, d - daysInMonth y m)))).
Proof.
  intros Ht.
  pose proof (Mem_next_defined t p Ht) as Hmem.
  pose proof (Db_next_defined t p Ht) as Hdb.
  pose proof (clamped_when t p) as [Hsame Hdiff].
  split; [exact Hmem |]. split; [exact Hdb |].
  split; [| split; [| split]].
  - intros ->. unfold Mem.getNextRecurrenceDate, Db.getNextRecurrenceDate.
    cbn [String.eqb Ascii.eqb Bool.eqb]. unfold addDays.
    cbn [Z.eqb]. rewrite setDate_shift.
    replace (t + 1 * msPerDay) with (t + msPerDay) by lia.
    assert (H : TimeClip (t + msPerDay) = Some (t + msPerDay))
      by (apply (TimeClip_near t); [exact Ht | unfold msPerDay; lia]).
    rewrite H. auto.
  - intros H1 H2 H3.
    assert (Hweek : TimeClip (t + 7 * msPerDay) = Some (t + 7 * msPerDay))
      by (apply (TimeClip_near t); [exact Ht | unfold msPerDay; lia]).
    assert (Hstep : setDate t (getDate t + 7) = Some (t + 7 * msPerDay))
      by (rewrite setDate_shift; exact Hweek).
    assert (Hadd : addWeeks t (Some 1) = Some (t + 7 * msPerDay)).
    { unfold addWeeks, option_map, addDays. change (1 * 7) with 7.
      cbn [Z.eqb]. exact Hstep. }
    destruct p as [p |];
      unfold Mem.getNextRecurrenceDate, Db.getNextRecurrenceDate;
      [| auto].
    destruct (String.eqb_spec p "daily") as [-> | _]; [congruence |].
    destruct (String.eqb_spec p "weekly") as [_ | _]; [auto |].
    destruct (String.eqb_spec p "monthly") as [-> | _]; [congruence |].
    destruct (String.eqb_spec p "yearly") as [-> | _]; [congruence |].
    auto.
  - rewrite Hmem, Hdb. split.
    + intros H. rewrite (Hsame H). reflexivity.
    + intros [= H]. apply Hdiff. symmetry. exact H.
  - intros Hp y m d Htarget.
    assert (Hd : d = DateFromTime t
                 /\ (y, m) = (if bool_decide (p = Some "monthly")
                              then (YearFromTime t, MonthFromTime t + 1)
                              else (YearFromTime t + 1, MonthFromTime t))).
    { destruct Hp as [-> | ->]; unfold stepTarget in Htarget;
        cbn [String.eqb Ascii.eqb Bool.eqb] in Htarget;
        injection Htarget as <- <- <-;
        (split; [reflexivity |]).
      - rewrite bool_decide_eq_true_2 by reflexivity. reflexivity.
      - rewrite bool_decide_eq_false_2 by discriminate. reflexivity. }
    destruct Hd as [Hd Hym]. split; [exact Hd |]. split; [exact Hym |].
    assert (Hover : overshoots t p = (daysInMonth y m <? d)).
    { unfold overshoots. rewrite Htarget.
      destruct Hp as [-> | ->]; reflexivity. }
    assert (Hclamp : stepTargetClamped t p = clampDay (y, m, d)).
    { unfold stepTargetClamped. rewrite Htarget.
      destruct Hp as [-> | ->]; reflexivity. }
    pose proof (DateFromTime_range t) as Hrange.
    pose proof (daysInMonth_range y m) as Hdim.
    split.
    + intros Hno r Hr. rewrite Hmem, Htarget in Hr. injection Hr as <-.
      rewrite Hover in Hno. apply Z.ltb_ge in Hno.
      rewrite <- Hd. apply atDate_fields. lia.
    + intros Hyes. rewrite Hover in Hyes. apply Z.ltb_lt in Hyes. split.
      * intros r Hr. rewrite Hdb, Hclamp in Hr. injection Hr as <-.
        unfold clampDay. rewrite Z.min_r by lia.
        apply atDate_fields. lia.
      * intros r Hr. rewrite Hmem, Htarget in Hr. injection Hr as <-.
        apply atDate_rollover.
Qed.

Lemma C9_steppers_witness :
  awayFromLimits (dateOf 2024 0 31 9 0)
  /\ Mem.getNextRecurrenceDate (dateOf 2024 0 31 9 0) (Some "monthly")
     = Some (atDate (dateOf 2024 0 31 9 0)
               (stepTarget (dateOf 2024 0 31 9 0) (Some "monthly"))).
Proof.
  assert (H : awayFromLimits (dateOf 2024 0 31 9 0))
    by (vm_compute; discriminate).
  split; [exact H |].
  exact (proj1 (C9_steppers (dateOf 2024 0 31 9 0) (Some "monthly") H)).
Defined.

(** From 2024-01-31 at 09:00 a "monthly" step of the memory stepper lands
    on 2024-03-02 and one of the database stepper on 2024-02-29; from
    2024-02-29 a "yearly" step lands on 2025-03-01 and on 2025-02-28. *)
Lemma C9_counterexample :
  Mem.getNextRecurrenceDate (dateOf 2024 0 31 9 0) (Some "monthly")
  = Some (dateOf 2024 2 2 9 0)
  /\ Db.getNextRecurrenceDate (dateOf 2024 0 31 9 0) (Some "monthly")
     = Some (dateOf 2024 1 29 9 0)
  /\ Mem.getNextRecurrenceDate (dateOf 2024 1 29 9 0) (Some "yearly")
     = Some (dateOf 2025 2 1 9 0)
  /\ Db.getNextRecurrenceDate (dateOf 2024 1 29 9 0) (Some "yearly")
     = Some (dateOf 2025 1 28 9 0)
  /\ Mem.getNextRecurrenceDate (dateOf 2024 0 31 9 0) (Some "monthly")
     <> Db.getNextRecurrenceDate (dateOf 2024 0 31 9 0) (Some "monthly").
Proof.
  repeat split; try (vm_compute; reflexivity).
  vm_compute. discriminate.
Qed.

End StepperSemantics.

(** * Further properties of the two backends *)

(** ** Order of the results *)

Section ResultOrder.
Import JSDate DateFns Schema Scenario.

Lemma insertByStart_sorted e l :
  StronglySorted startsNoLater l ->
  StronglySorted startsNoLater (insertByStart e l).
Proof.
  induction 1 as [| x l Hl IH Hx]; cbn [insertByStart].
  - repeat constructor.
  - destruct (Z.leb_spec x.(startDate) e.(startDate)) as [Hle | Hgt].
    + constructor; [exact IH |].
      apply List.Forall_forall. intros y Hy.
      apply (Permutation_in _ (insertByStart_perm e l)) in Hy.
      destruct Hy as [<- | Hy]; [exact Hle |].
      rewrite List.Forall_forall in Hx. apply Hx. exact Hy.
    + constructor; [constructor; assumption |].
      constructor; [unfold startsNoLater; lia |].
      apply (List.Forall_impl _ (P := startsNoLater x)); [| exact Hx].
      unfold startsNoLater. intros; lia.
Qed.

Lemma sortByStart_sorted l : StronglySorted startsNoLater (sortByStart l).
Proof.
  unfold sortByStart.
  assert (H : forall acc,
             StronglySorted startsNoLater acc ->
             StronglySorted startsNoLater
               (fold_left (fun acc e => insertByStart e acc) l acc)).
  { induction l as [| x l IH]; intros acc Hacc; cbn [fold_left].
    - exact Hacc.
    - apply IH, insertByStart_sorted, Hacc. }
  apply H. constructor.
Qed.

(** X1. Every read path of either backend returns its events in ascending
    order of start instant. *)
Theorem X1_reads_are_sorted :
  (forall s now, StronglySorted startsNoLater (Mem.getEvents s now))
  /\ (forall s S E, StronglySorted startsNoLater (Mem.getEventsByDateRange s S E))
  /\ (forall s now, StronglySorted startsNoLater (Db.getEvents s now))
  /\ (forall s now S E,
        StronglySorted startsNoLater (Db.getEventsByDateRange s now S E)).
Proof.
  repeat split; intros; apply sortByStart_sorted.
Qed.

Lemma Mem_loop_spaced rem base se del modi cur :
  StronglySorted aDayApart
    (Mem.instancesLoop rem base se del modi (Some cur))
  /\ Forall (fun e => cur <= e.(startDate))
       (Mem.instancesLoop rem base se del modi (Some cur)).
Proof.
  revert cur. induction rem as [| rem IH]; intros cur.
  - split; constructor.
  - destruct se as [stop |]; [| split; constructor].
    rewrite Mem_loop_turn by discriminate. cbn [Nat.pred].
    destruct (cur <? stop); [| split; constructor].
    assert (Hrest :
      StronglySorted aDayApart
        (Mem.instancesLoop rem base (Some stop) del modi
           (Mem.getNextRecurrenceDate cur base.(recurringPattern)))
      /\ Forall (fun e => cur + msPerDay <= e.(startDate))
           (Mem.instancesLoop rem base (Some stop) del modi
              (Mem.getNextRecurrenceDate cur base.(recurringPattern)))).
    { destruct (Mem.getNextRecurrenceDate cur base.(recurringPattern))
        as [c1 |] eqn:Hn.
      - destruct (IH c1) as [Hs Hf]. split; [exact Hs |].
        apply Mem_next_advance in Hn.
        apply (List.Forall_impl _ (P := fun e => c1 <= e.(startDate))); [| exact Hf].
        intros e He. cbv beta in *. lia.
      - rewrite Mem_loop_invalid. split; constructor. }
    destruct Hrest as [Hs Hf].
    assert (Hlow : Forall (fun e => cur <= e.(startDate))
                     (Mem.instancesLoop rem base (Some stop) del modi
                        (Mem.getNextRecurrenceDate cur base.(recurringPattern)))).
    { apply (List.Forall_impl _ (P := fun e => cur + msPerDay <= e.(startDate)));
        [| exact Hf].
      intros e He. cbv beta in *. unfold msPerDay in He. lia. }
    destruct (has del (toDateString cur) || has modi (toDateString cur)).
    + split; assumption.
    + split.
      * constructor; [exact Hs |].
        apply (List.Forall_impl _ (P := fun e => cur + msPerDay <= e.(startDate)));
          [| exact Hf].
        intros e He. unfold aDayApart.
        rewrite (proj1 (Mem_instance_fields base cur)). exact He.
      * constructor; [| exact Hlow].
        rewrite (proj1 (Mem_instance_fields base cur)). lia.
Qed.

Lemma Db_loop_spaced fuel base se del modi cur l :
  Db.instancesLoop fuel base se del modi (Some cur) = Some l ->
  StronglySorted aDayApart l /\ Forall (fun e => cur <= e.(startDate)) l.
Proof.
  revert cur l. induction fuel as [| fuel IH]; intros cur l.
  - cbn [Db.instancesLoop]. destruct (isBefore (Some cur) se); [discriminate |].
    intros [= <-]. split; constructor.
  - cbn [Db.instancesLoop].
    destruct (isBefore (Some cur) se); [| intros [= <-]; split; constructor].
    assert (Hrest : forall l',
      Db.instancesLoop fuel base se del modi
        (Db.getNextRecurrenceDate cur base.(recurringPattern)) = Some l' ->
      StronglySorted aDayApart l'
      /\ Forall (fun e => cur + msPerDay <= e.(startDate)) l').
    { intros l'.
      destruct (Db.getNextRecurrenceDate cur base.(recurringPattern))
        as [c1 |] eqn:Hn.
      - intros Hl. destruct (IH c1 l' Hl) as [Hs Hf]. split; [exact Hs |].
        apply Db_next_advance in Hn.
        apply (List.Forall_impl _ (P := fun e => c1 <= e.(startDate))); [| exact Hf].
        intros e He. cbv beta in *. lia.
      - rewrite Db_loop_invalid. intros [= <-]. split; constructor. }
    assert (Hweaken : forall l',
      Forall (fun e => cur + msPerDay <= e.(startDate)) l' ->
      Forall (fun e => cur <= e.(startDate)) l').
    { intros l'. apply List.Forall_impl. intros e He. cbv beta in *.
      unfold msPerDay in He. lia. }
    destruct (has del (format_yyyy_MM_dd cur)).
    { intros Hl. destruct (Hrest l Hl). split; auto. }
    destruct (has modi (format_yyyy_MM_dd cur)).
    { intros Hl. destruct (Hrest l Hl). split; auto. }
    destruct (Db.instancesLoop fuel base se del modi
                (Db.getNextRecurrenceDate cur base.(recurringPattern)))
      as [l' |]; cbn [option_map]; [| discriminate].
    intros [= <-]. destruct (Hrest l' eq_refl) as [Hs Hf]. split.
    + constructor; [exact Hs |].
      apply (List.Forall_impl _ (P := fun e => cur + msPerDay <= e.(startDate)));
        [| exact Hf].
      intros e He. unfold aDayApart.
      rewrite (proj1 (Db_instance_fields base cur)). exact He.
    + constructor; [| auto].
      rewrite (proj1 (Db_instance_fields base cur)). lia.
Qed.

(** X2. The occurrences a generator emits for one master are in ascending
    order and any two of them start at least one day apart, in either
    backend; none starts before the cursor, the later of the master's start
    and the window start. *)
Theorem X2_occurrences_a_day_apart :
  (forall base S E del modi,
      StronglySorted aDayApart
        (Mem.generateRecurringInstances base S E del modi)
      /\ Forall (fun e => Z.max base.(startDate) S <= e.(startDate))
           (Mem.generateRecurringInstances base S E del modi))
  /\ (forall base S E excs,
        StronglySorted aDayApart (Db.generateRecurringInstances base S E excs)
        /\ Forall (fun e => Z.max base.(startDate) S <= e.(startDate))
             (Db.generateRecurringInstances base S E excs)).
Proof.
  split.
  - intros base S E del modi. apply Mem_loop_spaced.
  - intros base S E excs. unfold Db.generateRecurringInstances.
    destruct (Db.instancesLoop _ base _ _ _ _) as [l |] eqn:Hl.
    + exact (Db_loop_spaced _ _ _ _ _ _ _ Hl).
    + split; constructor.
Qed.

End ResultOrder.

(** ** What exactly a generator emits *)

Section GeneratorOutput.
Import JSDate DateFns Schema Scenario Samples.

Lemma Mem_loop_complete k : forall rem base stop del modi c0 c,
  (k < rem)%nat ->
  stepN (memNext base) k c0 = Some c -> c < stop ->
  has del (toDateString c) = false -> has modi (toDateString c) = false ->
  In (Mem.instance base c)
    (Mem.instancesLoop rem base (Some stop) del modi (Some c0)).
Proof.
  induction k as [| k IH]; intros rem base stop del modi c0 c Hk Hs Hlt Hd Hm.
  - cbn [stepN] in Hs. injection Hs as ->.
    rewrite Mem_loop_turn by lia.
    destruct (Z.ltb_spec c stop); [| lia].
    rewrite Hd, Hm. cbn [orb]. left. reflexivity.
  - cbn [stepN] in Hs. unfold memNext at 1 in Hs.
    destruct (Mem.getNextRecurrenceDate c0 base.(recurringPattern))
      as [c1 |] eqn:Hn; [| discriminate].
    pose proof (Mem_next_advance _ _ _ Hn) as Hadv.
    pose proof (stepN_advance _ _ _ _ (memNext_advance base) Hs) as Hadv'.
    rewrite Mem_loop_turn by lia.
    destruct (Z.ltb_spec c0 stop); [| unfold msPerDay in *; lia].
    rewrite Hn.
    assert (Hin : In (Mem.instance base c)
                    (Mem.instancesLoop (Nat.pred rem) base (Some stop) del modi
                       (Some c1)))
      by (apply (IH (Nat.pred rem)); auto; lia).
    destruct (has del (toDateString c0) || has modi (toDateString c0));
      [exact Hin | right; exact Hin].
Qed.

Lemma Db_loop_complete k : forall fuel base stop del modi c0 c l,
  Db.instancesLoop fuel base (Some stop) del modi (Some c0) = Some l ->
  stepN (dbNext base) k c0 = Some c -> c < stop ->
  has del (format_yyyy_MM_dd c) = false ->
  has modi (format_yyyy_MM_dd c) = false ->
  In (Db.instance base c) l.
Proof.
  induction k as [| k IH]; intros fuel base stop del modi c0 c l Hl Hs Hlt Hd Hm.
  - cbn [stepN] in Hs. injection Hs as ->.
    destruct fuel as [| fuel].
    + cbn [Db.instancesLoop isBefore] in Hl.
      destruct (Z.ltb_spec c stop); [discriminate | lia].
    + rewrite Db_loop_turn in Hl by (auto; lia).
      destruct (Db.instancesLoop _ base _ _ _ _) as [l' |];
        cbn [option_map] in Hl; [| discriminate].
      injection Hl as <-. left. reflexivity.
  - cbn [stepN] in Hs. unfold dbNext at 1 in Hs.
    destruct (Db.getNextRecurrenceDate c0 base.(recurringPattern))
      as [c1 |] eqn:Hn; [| discriminate].
    pose proof (Db_next_advance _ _ _ Hn) as Hadv.
    pose proof (stepN_advance _ _ _ _ (dbNext_advance base) Hs) as Hadv'.
    assert (Hc0 : c0 < stop) by (unfold msPerDay in *; lia).
    destruct fuel as [| fuel]; cbn [Db.instancesLoop isBefore] in Hl;
      destruct (Z.ltb_spec c0 stop); try lia; try discriminate.
    rewrite Hn in Hl.
    assert (Hrest : forall l',
              Db.instancesLoop fuel base (Some stop) del modi (Some c1) = Some l' ->
              In (Db.instance base c) l')
      by (intros l' Hl'; exact (IH _ _ _ _ _ _ _ _ Hl' Hs Hlt Hd Hm)).
    destruct (has del (format_yyyy_MM_dd c0)); [exact (Hrest l Hl) |].
    destruct (has modi (format_yyyy_MM_dd c0)); [exact (Hrest l Hl) |].
    destruct (Db.instancesLoop fuel base (Some stop) del modi (Some c1))
      as [l' |]; cbn [option_map] in Hl; [| discriminate].
    injection Hl as <-. right. exact (Hrest l' eq_refl).
Qed.

(** X3. The generator of the database backend emits exactly the instances
    at the iterates of its stepper from the cursor that lie before the
    series end on a day without a "deleted" or "modified" exception; the
    generator of the memory backend emits exactly those among the first 500
    iterates. *)
Theorem X3_generator_output :
  (forall base S E excs e,
      In e (Db.generateRecurringInstances base S E excs) <->
      exists k c stop,
        stepN (dbNext base) k (Z.max base.(startDate) S) = Some c
        /\ Db.seriesEnd base E = Some stop /\ c < stop
        /\ has (Db.datesOfType "deleted" excs) (format_yyyy_MM_dd c) = false
        /\ has (Db.datesOfType "modified" excs) (format_yyyy_MM_dd c) = false
        /\ e = Db.instance base c)
  /\ (forall base S E del modi e,
        In e (Mem.generateRecurringInstances base S E del modi) <->
        exists k c stop,
          (k < 500)%nat
          /\ stepN (memNext base) k (Z.max base.(startDate) S) = Some c
          /\ Mem.seriesEnd base E = Some stop /\ c < stop
          /\ has del (toDateString c) = false
          /\ has modi (toDateString c) = false
          /\ e = Mem.instance base c).
Proof.
  split.
  - intros base S E excs e. split; [apply Db_generate_elem |].
    intros (k & c & stop & Hs & Hse & Hlt & Hd & Hm & ->).
    unfold Db.generateRecurringInstances. rewrite Hse.
    destruct (Db_loop_completes
                (Db.loopFuel (Z.max base.(startDate) S) (Some stop)) base
                (Some stop) (Db.datesOfType "deleted" excs)
                (Db.datesOfType "modified" excs) (Z.max base.(startDate) S))
      as (l & Hl & _).
    { intros e He. apply loopFuel_covers. exact He. }
    rewrite Hl. cbn [default from_option Datatypes.id].
    exact (Db_loop_complete _ _ _ _ _ _ _ _ _ Hl Hs Hlt Hd Hm).
  - intros base S E del modi e. split; [apply Mem_generate_elem |].
    intros (k & c & stop & Hk & Hs & Hse & Hlt & Hd & Hm & ->).
    unfold Mem.generateRecurringInstances. rewrite Hse.
    exact (Mem_loop_complete k Mem.maxIterations _ _ _ _ _ _ Hk Hs Hlt Hd Hm).
Qed.

Lemma X3_generator_output_witness :
  In (Db.instance fourWeeks (dateOf 2024 0 1 0 0))
    (Db.generateRecurringInstances fourWeeks (dateOf 2023 11 1 0 0)
       (Some (dateOf 2024 5 1 0 0)) []).
Proof.
  apply (proj2 (proj1 X3_generator_output fourWeeks (dateOf 2023 11 1 0 0)
                  (Some (dateOf 2024 5 1 0 0)) []
                  (Db.instance fourWeeks (dateOf 2024 0 1 0 0)))).
  exists 0%nat, (dateOf 2024 0 1 0 0), (dateOf 2024 0 29 0 0).
  split; [vm_compute; reflexivity |]. split; [vm_compute; reflexivity |].
  split; [vm_compute; reflexivity |]. split; [vm_compute; reflexivity |].
  split; reflexivity.
Defined.

Lemma nil_when_no_element {A} (l : list A) : (forall x, ~ In x l) -> l = [].
Proof.
  destruct l as [| x l]; [reflexivity |].
  intros H. exfalso. apply (H x). left. reflexivity.
Qed.

Lemma Db_addWeeks_value t n r :
  addWeeks t (Some n) = Some r -> r = t + n * 7 * msPerDay.
Proof.
  unfold addWeeks, option_map, addDays.
  destruct (Z.eqb_spec (n * 7) 0) as [H0 | _].
  - intros [= <-]. lia.
  - rewrite setDate_shift. intros H. apply TimeClip_Some in H. exact H.
Qed.

(** The series end of a master whose week count reads as the number [n]. *)
Lemma seriesEnd_of_weeks base w n :
  base.(recurringWeeks) = Some w -> w <> "" -> w <> "indefinite" ->
  parseInt w = Some n ->
  (forall E stop, Mem.seriesEnd base E = Some stop ->
     stop <= base.(startDate) + n * 7 * msPerDay)
  /\ (forall E stop, Db.seriesEnd base E = Some stop ->
        stop <= base.(startDate) + n * 7 * msPerDay).
Proof.
  intros Hw Hne Hind Hn.
  assert (Hguard : truthyStr base.(recurringWeeks)
                   && negb (bool_decide (base.(recurringWeeks) = Some "indefinite"))
                   = true).
  { rewrite Hw. unfold truthyStr.
    destruct (String.eqb_spec w ""); [contradiction |].
    rewrite bool_decide_eq_false_2 by congruence. reflexivity. }
  split; intros E stop.
  - unfold Mem.seriesEnd. rewrite Hguard, Hw.
    cbn [default from_option Datatypes.id]. rewrite Hn.
    destruct (TimeClip _) as [calc |] eqn:Hc; [| discriminate].
    apply TimeClip_Some in Hc. intros [= <-]. unfold msPerDay. lia.
  - unfold Db.seriesEnd. rewrite Hguard, Hw.
    cbn [default from_option Datatypes.id]. rewrite Hn.
    destruct (addWeeks _ _) as [calc |] eqn:Hc; [| discriminate].
    apply Db_addWeeks_value in Hc. unfold Db.minTime.
    destruct E as [E |]; [| discriminate]. intros [= <-]. lia.
Qed.

(** X4. When the week count of a master reads as the number [n], every
    occurrence either generator emits starts strictly before the master's
    start plus [n] weeks. *)
Theorem X4_week_count_bounds_series base w n :
  base.(recurringWeeks) = Some w -> w <> "" -> w <> "indefinite" ->
  parseInt w = Some n ->
  (forall S E del modi e,
      In e (Mem.generateRecurringInstances base S E del modi) ->
      e.(startDate) < base.(startDate) + n * 7 * msPerDay)
  /\ (forall S E excs e,
        In e (Db.generateRecurringInstances base S E excs) ->
        e.(startDate) < base.(startDate) + n * 7 * msPerDay).
Proof.
  intros Hw Hne Hind Hn.
  destruct (seriesEnd_of_weeks base w n Hw Hne Hind Hn) as [Hmem Hdb].
  split.
  - intros S E del modi e Hin.
    apply Mem_generate_elem in Hin
      as (k & c & stop & _ & _ & Hse & Hlt & _ & _ & ->).
    apply Hmem in Hse. rewrite (proj1 (Mem_instance_fields base c)). lia.
  - intros S E excs e Hin.
    apply Db_generate_elem in Hin as (k & c & stop & _ & Hse & Hlt & _ & _ & ->).
    apply Hdb in Hse. rewrite (proj1 (Db_instance_fields base c)). lia.
Qed.

Lemma X4_week_count_bounds_series_witness :
  starts (Db.generateRecurringInstances fourWeeks (dateOf 2024 0 1 0 0)
            (Some (dateOf 2024 5 1 0 0)) [])
  = [ ("m4-recur-2024-01-01", dateOf 2024 0 1 0 0);
      ("m4-recur-2024-01-08", dateOf 2024 0 8 0 0);
      ("m4-recur-2024-01-15", dateOf 2024 0 15 0 0);
      ("m4-recur-2024-01-22", dateOf 2024 0 22 0 0) ]
  /\ forall e,
       In e (Db.generateRecurringInstances fourWeeks (dateOf 2024 0 1 0 0)
               (Some (dateOf 2024 5 1 0 0)) []) ->
       e.(startDate) < fourWeeks.(startDate) + 4 * 7 * msPerDay.
Proof.
  split; [vm_compute; reflexivity |].
  assert (H1 : fourWeeks.(recurringWeeks) = Some "4") by reflexivity.
  assert (H2 : "4" <> "") by discriminate.
  assert (H3 : "4" <> "indefinite") by discriminate.
  assert (H4 : parseInt "4" = Some 4) by (vm_compute; reflexivity).
  exact (proj2 (X4_week_count_bounds_series fourWeeks "4" 4 H1 H2 H3 H4)
           (dateOf 2024 0 1 0 0) (Some (dateOf 2024 5 1 0 0)) []).
Defined.

End GeneratorOutput.

(** ** Series that yield nothing *)

Section EmptySeries.
Import JSDate DateFns Schema Scenario Samples.

Lemma Mem_cursor_le base S E del modi e :
  In e (Mem.generateRecurringInstances base S E del modi) ->
  exists stop,
    Mem.seriesEnd base E = Some stop
    /\ Z.max base.(startDate) S <= e.(startDate) < stop.
Proof.
  intros Hin.
  apply Mem_generate_elem in Hin
    as (k & c & stop & _ & Hs & Hse & Hlt & _ & _ & ->).
  apply (stepN_advance _ _ _ _ (memNext_advance base)) in Hs.
  exists stop. rewrite (proj1 (Mem_instance_fields base c)).
  unfold msPerDay in Hs. split; [exact Hse | lia].
Qed.

Lemma Db_cursor_le base S E excs e :
  In e (Db.generateRecurringInstances base S E excs) ->
  exists stop,
    Db.seriesEnd base E = Some stop
    /\ Z.max base.(startDate) S <= e.(startDate) < stop.
Proof.
  intros Hin.
  apply Db_generate_elem in Hin as (k & c & stop & Hs & Hse & Hlt & _ & _ & ->).
  apply (stepN_advance _ _ _ _ (dbNext_advance base)) in Hs.
  exists stop. rewrite (proj1 (Db_instance_fields base c)).
  unfold msPerDay in Hs. split; [exact Hse | lia].
Qed.

(** X5. The two cursor generators ([generateRecurringInstances] of either
    backend) emit nothing, for every window and whatever the exceptions, for
    a master whose week count is a text other than "indefinite" that
    [parseInt] reads as NaN, or as zero or a negative number.  (The range
    query inherited by the memory backend does not read the week count.) *)
Theorem X5_unusable_week_count_yields_nothing base w :
  base.(recurringWeeks) = Some w -> w <> "" -> w <> "indefinite" ->
  parseInt w = None \/ (exists n, parseInt w = Some n /\ n <= 0) ->
  (forall S E del modi, Mem.generateRecurringInstances base S E del modi = [])
  /\ (forall S E excs, Db.generateRecurringInstances base S E excs = []).
Proof.
  intros Hw Hne Hind Hparse.
  assert (Hguard : truthyStr base.(recurringWeeks)
                   && negb (bool_decide (base.(recurringWeeks) = Some "indefinite"))
                   = true).
  { rewrite Hw. unfold truthyStr.
    destruct (String.eqb_spec w ""); [contradiction |].
    rewrite bool_decide_eq_false_2 by congruence. reflexivity. }
  split.
  - intros S E del modi. apply nil_when_no_element. intros e Hin.
    apply Mem_cursor_le in Hin as (stop & Hse & Hrange).
    destruct Hparse as [Hnan | (n & Hn & Hneg)].
    + unfold Mem.seriesEnd in Hse. rewrite Hguard, Hw in Hse.
      cbn [default from_option Datatypes.id] in Hse. rewrite Hnan in Hse.
      discriminate.
    + apply (proj1 (seriesEnd_of_weeks base w n Hw Hne Hind Hn)) in Hse.
      unfold msPerDay in Hse. lia.
  - intros S E excs. apply nil_when_no_element. intros e Hin.
    apply Db_cursor_le in Hin as (stop & Hse & Hrange).
    destruct Hparse as [Hnan | (n & Hn & Hneg)].
    + unfold Db.seriesEnd in Hse. rewrite Hguard, Hw in Hse.
      cbn [default from_option Datatypes.id] in Hse. rewrite Hnan in Hse.
      discriminate.
    + apply (proj2 (seriesEnd_of_weeks base w n Hw Hne Hind Hn)) in Hse.
      unfold msPerDay in Hse. lia.
Qed.

Lemma X5_unusable_week_count_yields_nothing_witness :
  parseInt "many" = None
  /\ Mem.generateRecurringInstances badWeeks (dateOf 2024 0 1 0 0)
       (dateOf 2024 5 1 0 0) [] [] = [].
Proof.
  assert (H1 : badWeeks.(recurringWeeks) = Some "many") by reflexivity.
  assert (H2 : "many" <> "") by discriminate.
  assert (H3 : "many" <> "indefinite") by discriminate.
  assert (H4 : parseInt "many" = None) by (vm_compute; reflexivity).
  split; [exact H4 |].
  exact (proj1 (X5_unusable_week_count_yields_nothing badWeeks "many"
                  H1 H2 H3 (or_introl H4))
           (dateOf 2024 0 1 0 0) (dateOf 2024 5 1 0 0) [] []).
Defined.

(** A week count written after a no-break space reads as the number 4:
    the series has its four occurrences in both backends. *)
Example week_count_after_no_break_space :
  parseInt (default "" spacedWeeks.(recurringWeeks)) = Some 4
  /\ map startDate
       (Mem.generateRecurringInstances spacedWeeks (dateOf 2024 0 1 0 0)
          (dateOf 2024 5 1 0 0) [] [])
     = [ dateOf 2024 0 1 0 0; dateOf 2024 0 8 0 0; dateOf 2024 0 15 0 0;
         dateOf 2024 0 22 0 0 ]
  /\ map startDate
       (Db.generateRecurringInstances spacedWeeks (dateOf 2024 0 1 0 0)
          (Some (dateOf 2024 5 1 0 0)) [])
     = [ dateOf 2024 0 1 0 0; dateOf 2024 0 8 0 0; dateOf 2024 0 15 0 0;
         dateOf 2024 0 22 0 0 ].
Proof. vm_compute. repeat split. Qed.

(** X6. A master that starts at or after the end of the window yields no
    occurrence in that window, in either backend. *)
Theorem X6_window_before_master_yields_nothing base S E :
  E <= base.(startDate) ->
  (forall del modi, Mem.generateRecurringInstances base S E del modi = [])
  /\ (forall excs, Db.generateRecurringInstances base S (Some E) excs = []).
Proof.
  intros Hend. split.
  - intros del modi. apply nil_when_no_element. intros e Hin.
    apply Mem_cursor_le in Hin as (stop & Hse & Hrange).
    apply Mem_seriesEnd_le in Hse. lia.
  - intros excs. apply nil_when_no_element. intros e Hin.
    apply Db_cursor_le in Hin as (stop & Hse & Hrange).
    apply Db_seriesEnd_le in Hse. lia.
Qed.

Lemma X6_window_before_master_yields_nothing_witness :
  dateOf 2024 2 4 9 0 <= standupEvent.(startDate)
  /\ Db.generateRecurringInstances standupEvent (dateOf 2024 1 1 0 0)
       (Some (dateOf 2024 2 4 9 0)) [] = [].
Proof.
  assert (H : dateOf 2024 2 4 9 0 <= standupEvent.(startDate))
    by (vm_compute; discriminate).
  split; [exact H |].
  exact (proj2 (X6_window_before_master_yields_nothing standupEvent
                  (dateOf 2024 1 1 0 0) (dateOf 2024 2 4 9 0) H) []).
Defined.

End EmptySeries.

(** ** Exceptions and the series they belong to *)

Section ExceptionIndex.
Import JSDate DateFns Schema Scenario Samples.

Lemma exceptionMap_fold excs : forall (m : gmap string (list EventException)) p,
  default []
    (fold_left
       (fun m ex =>
          <[ex.(exParentEventId) :=
              default [] (m !! ex.(exParentEventId)) ++ [ex]]> m)
       excs m !! p)
  = default [] (m !! p)
    ++ List.filter (fun x => String.eqb x.(exParentEventId) p) excs.
Proof.
  induction excs as [| x excs IH]; intros m p; cbn [fold_left List.filter].
  - rewrite app_nil_r. reflexivity.
  - rewrite IH.
    destruct (String.eqb_spec x.(exParentEventId) p) as [-> | Hne].
    + rewrite lookup_insert_eq. cbn [default from_option Datatypes.id].
      rewrite <- app_assoc. reflexivity.
    + rewrite lookup_insert_ne by exact Hne. reflexivity.
Qed.

(** The exception index maps every parent id to exactly the exception rows
    of that parent, in their stored order, and a parent without rows to
    none. *)
Lemma exceptionMap_lookup excs p :
  default [] (Db.exceptionMap excs !! p)
  = List.filter (fun x => String.eqb x.(exParentEventId) p) excs.
Proof.
  unfold Db.exceptionMap. rewrite exceptionMap_fold.
  rewrite lookup_empty. reflexivity.
Qed.

(** X7. What the read path of the database backend returns, exactly: the
    fetched rows that are not recurring; for each fetched recurring row the
    occurrences generated from it over the window against the exception rows
    of that very parent; and every stored row that is not recurring and has
    a parent, whether it was fetched or not. *)
Theorem X7_database_read_path s now dbEvents range e :
  In e (Db.expandRecurringEvents s now dbEvents range) <->
  (In e dbEvents /\ truthyBool e.(isRecurring) = false)
  \/ (exists base,
        In base dbEvents /\ truthyBool base.(isRecurring) = true
        /\ In e (Db.generateRecurringInstances base
                   (match range with Some (rs, _) => rs | None => now end)
                   (match range with
                    | Some (_, re) => Some re
                    | None => addMonths now (Some 6)
                    end)
                   (List.filter
                      (fun x => String.eqb x.(exParentEventId) base.(id))
                      s.(Db.eventExceptions))))
  \/ (In e s.(Db.events) /\ e.(isRecurring) = Some false
      /\ is_Some e.(parentEventId)).
Proof.
  unfold Db.expandRecurringEvents. rewrite In_sortByStart, in_app_iff.
  rewrite in_flat_map, List.filter_In, andb_true_iff.
  rewrite !bool_decide_eq_true. split.
  - intros [(ev & Hev & Hin) | Hmod]; [| tauto].
    destruct (negb (truthyBool ev.(isRecurring))) eqn:Hrec.
    + apply negb_true_iff in Hrec. destruct Hin as [<- | []]. left. auto.
    + apply negb_false_iff in Hrec. right. left. exists ev.
      rewrite exceptionMap_lookup in Hin. auto.
  - intros [[Hin Hrec] | [(base & Hb & Hrec & Hin) | Hmod]]; [| | tauto].
    + left. exists e. split; [exact Hin |]. rewrite Hrec. left. reflexivity.
    + left. exists base. split; [exact Hb |]. rewrite Hrec.
      cbn [negb]. rewrite exceptionMap_lookup. exact Hin.
Qed.

Lemma X7_database_read_path_witness :
  In dentist (Db.expandRecurringEvents Db.empty clock [dentist] None).
Proof.
  apply (proj2 (X7_database_read_path Db.empty clock [dentist] None dentist)).
  left. split; [left; reflexivity | reflexivity].
Defined.

(** X8. An occurrence generated for a master never falls on the calendar
    day of a "deleted" or "modified" exception of that master, whatever the
    time of day of the exception, in either backend. *)
Theorem X8_generators_shadow_exceptions base S E :
  (forall xs x e,
      In x xs ->
      x.(Mem.type) = "deleted" \/ x.(Mem.type) = "modified" ->
      In e (Mem.generateRecurringInstances base S E
              (Mem.datesOfType "deleted" xs) (Mem.datesOfType "modified" xs)) ->
      Day e.(startDate) <> Day x.(Mem.exceptionDate))
  /\ (forall rows x e,
        In x rows -> x.(exParentEventId) = base.(id) ->
        x.(exType) = "deleted" \/ x.(exType) = "modified" ->
        In e (Db.generateRecurringInstances base S (Some E)
                (default [] (Db.exceptionMap rows !! base.(id)))) ->
        Day e.(startDate) <> Day x.(exceptionDate)).
Proof.
  split.
  - intros xs x e. apply Mem_generator_shadows.
  - intros rows x e Hx Hp Hty Hin.
    rewrite exceptionMap_lookup in Hin.
    apply (Db_generator_shadows _ _ _ _ x e) in Hin; [exact Hin | | exact Hty].
    apply List.filter_In. split; [exact Hx |].
    rewrite Hp. apply String.eqb_refl.
Qed.

Lemma X8_generators_shadow_exceptions_witness :
  In (Mem.mkException (dateOf 2024 2 11 23 30) "deleted" None)
    [Mem.mkException (dateOf 2024 2 11 23 30) "deleted" None]
  /\ forall e,
       In e (Mem.generateRecurringInstances standupEvent clock
               (dateOf 2024 6 1 0 0)
               (Mem.datesOfType "deleted"
                  [Mem.mkException (dateOf 2024 2 11 23 30) "deleted" None])
               (Mem.datesOfType "modified"
                  [Mem.mkException (dateOf 2024 2 11 23 30) "deleted" None])) ->
       Day e.(startDate)
       <> Day (Mem.exceptionDate
                 (Mem.mkException (dateOf 2024 2 11 23 30) "deleted" None)).
Proof.
  assert (H : In (Mem.mkException (dateOf 2024 2 11 23 30) "deleted" None)
                [Mem.mkException (dateOf 2024 2 11 23 30) "deleted" None])
    by (left; reflexivity).
  split; [exact H |]. intros e.
  exact (proj1 (X8_generators_shadow_exceptions standupEvent clock
                  (dateOf 2024 6 1 0 0))
           [Mem.mkException (dateOf 2024 2 11 23 30) "deleted" None]
           (Mem.mkException (dateOf 2024 2 11 23 30) "deleted" None) e
           H (or_introl eq_refl)).
Defined.

End ExceptionIndex.

(** ** Storing, finding and removing events *)

Section EventStore.
Import JSDate DateFns Schema Scenario Samples.

Lemma mapGet_mapSet_other m k k' v :
  k' <> k -> Mem.mapGet (Mem.mapSet m k v) k' = Mem.mapGet m k'.
Proof.
  intros Hne. induction m as [| [k0 v0] m IH]; cbn [Mem.mapSet Mem.mapGet].
  - destruct (String.eqb_spec k k'); [congruence | reflexivity].
  - destruct (String.eqb_spec k0 k) as [-> | Hk]; cbn [Mem.mapGet].
    + destruct (String.eqb_spec k k'); [congruence | reflexivity].
    + rewrite IH. reflexivity.
Qed.

Lemma mapGet_mapDelete m k k' :
  Mem.mapGet (Mem.mapDelete m k) k'
  = if String.eqb k k' then None else Mem.mapGet m k'.
Proof.
  unfold Mem.mapDelete.
  induction m as [| [k0 v0] m IH]; cbn [List.filter Mem.mapGet fst].
  - destruct (String.eqb k k'); reflexivity.
  - destruct (String.eqb_spec k0 k) as [-> | Hk]; cbn [negb Mem.mapGet].
    + rewrite IH. destruct (String.eqb_spec k k'); reflexivity.
    + rewrite IH. destruct (String.eqb_spec k0 k') as [-> | Hk'].
      * destruct (String.eqb_spec k k'); [congruence | reflexivity].
      * reflexivity.
Qed.

(** X10. In the memory backend an event that was created is found under
    its key, with the fields of the request (an empty description, pattern
    or week count stored as null, a missing recurrence flag as false);
    creating or deleting an event does not change what is found under any
    other key; a deleted key is not found any more, and the delete reports
    whether the key was there. *)
Theorem X10_memory_event_store s k :
  (forall now ins,
      let s' := fst (Mem.createEvent s k now ins) in
      Mem.getEvent s' k
      = Some (mkEvent k ins.(insTitle) (orNull ins.(insDescription))
                ins.(insStartDate) ins.(insEndDate)
                (Some (truthyBool ins.(insIsRecurring)))
                (orNull ins.(insRecurringPattern))
                (orNull ins.(insRecurringWeeks)) None None (Some now))
      /\ Some (snd (Mem.createEvent s k now ins)) = Mem.getEvent s' k
      /\ forall k', k' <> k -> Mem.getEvent s' k' = Mem.getEvent s k')
  /\ (let s' := fst (Mem.deleteEvent s k) in
      Mem.getEvent s' k = None
      /\ (snd (Mem.deleteEvent s k) = true <-> Mem.getEvent s k <> None)
      /\ forall k', k' <> k -> Mem.getEvent s' k' = Mem.getEvent s k').
Proof.
  split.
  - intros now ins s'. subst s'. unfold Mem.createEvent, Mem.getEvent.
    cbn [fst snd Mem.events]. rewrite mapGet_mapSet.
    split; [reflexivity |]. split; [reflexivity |].
    intros k' Hne. apply mapGet_mapSet_other. exact Hne.
  - intros s'. subst s'. unfold Mem.deleteEvent, Mem.getEvent.
    cbn [fst snd Mem.events]. split; [| split].
    + rewrite mapGet_mapDelete, String.eqb_refl. reflexivity.
    + rewrite bool_decide_eq_true. destruct (Mem.mapGet s.(Mem.events) k).
      * split; [discriminate | intros _; eexists; reflexivity].
      * split; [intros [x Hx]; discriminate | congruence].
    + intros k' Hne. rewrite mapGet_mapDelete.
      destruct (String.eqb_spec k k'); [congruence | reflexivity].
Qed.

Lemma X10_memory_event_store_witness :
  "m1" <> "d1"
  /\ Mem.getEvent (fst (Mem.deleteEvent memStandup "d1")) "m1"
     = Mem.getEvent memStandup "m1".
Proof.
  assert (H : "m1" <> "d1") by discriminate.
  split; [exact H |].
  exact (proj2 (proj2 (proj2 (X10_memory_event_store memStandup "d1")))
           "m1" H).
Defined.

End EventStore.

(** ** From an instance id back to its master *)

Section InstanceIds.
Import JSDate DateFns Schema Scenario Samples.

Lemma append_cons c s t : String c s +:+ t = String c (s +:+ t).
Proof. reflexivity. Qed.

Lemma append_nil t : "" +:+ t = t.
Proof. reflexivity. Qed.

Lemma prefix_append s t : String.prefix s (s +:+ t) = true.
Proof.
  induction s as [| c s IH].
  - rewrite append_nil. destruct t; reflexivity.
  - rewrite append_cons. cbn [String.prefix].
    destruct (ascii_dec c c); [exact IH | congruence].
Qed.

Lemma includes_prefix sep s :
  String.prefix sep s = true -> Routes.includes sep s = true.
Proof. intros H. destruct s; cbn [Routes.includes]; rewrite H; reflexivity. Qed.

Lemma includes_append sep a b : Routes.includes sep (a +:+ sep +:+ b) = true.
Proof.
  induction a as [| c a IH].
  - rewrite append_nil. apply includes_prefix, prefix_append.
  - rewrite append_cons. cbn [Routes.includes]. rewrite IH. apply orb_true_r.
Qed.

Lemma no_separator_at c a :
  negb (Ascii.eqb (match a with String c2 _ => c2 | EmptyString => "-"%char end)
          "r") = true ->
  String.prefix "-recur-" (String c a) = false.
Proof.
  intros Hnext. cbn [String.prefix].
  destruct (ascii_dec "-" c) as [_ | _]; [| reflexivity].
  destruct a as [| c2 a]; [reflexivity |].
  cbn [String.prefix].
  destruct (ascii_dec "r" c2) as [<- | _]; [| reflexivity].
  exfalso. revert Hnext. vm_compute. discriminate.
Qed.

Lemma no_separator_at_letter c a rest :
  noLetterR (String c a) = true ->
  String.prefix "-recur-" (String c (a +:+ "-recur-" +:+ rest)) = false.
Proof.
  cbn [noLetterR]. intros H. apply andb_true_iff in H as [_ Ha].
  apply no_separator_at. destruct a as [| c2 a].
  - rewrite append_nil, append_cons. reflexivity.
  - rewrite append_cons.
    cbn [noLetterR] in Ha. apply andb_true_iff in Ha as [Hc2 _]. exact Hc2.
Qed.

Lemma splitHead_prefix sep s :
  String.prefix sep s = true -> Routes.splitHead sep s = "".
Proof. intros H. destruct s; cbn [Routes.splitHead]; rewrite H; reflexivity. Qed.

Lemma splitHead_append a rest :
  noLetterR a = true ->
  Routes.splitHead "-recur-" (a +:+ "-recur-" +:+ rest) = a.
Proof.
  induction a as [| c a IH]; intros Ha.
  - rewrite append_nil. apply splitHead_prefix, prefix_append.
  - rewrite append_cons. unfold Routes.splitHead; fold Routes.splitHead.
    rewrite (no_separator_at_letter c a rest Ha).
    cbn [noLetterR] in Ha. apply andb_true_iff in Ha as [_ Ha].
    rewrite (IH Ha). reflexivity.
Qed.

Lemma includes_none a :
  noLetterR a = true -> Routes.includes "-recur-" a = false.
Proof.
  induction a as [| c a IH]; intros Ha.
  - reflexivity.
  - unfold Routes.includes; fold Routes.includes.
    cbn [noLetterR] in Ha. apply andb_true_iff in Ha as [_ Ha].
    rewrite (IH Ha), no_separator_at; [reflexivity |].
    destruct a as [| c2 a]; [reflexivity |].
    cbn [noLetterR] in Ha. apply andb_true_iff in Ha as [Hc2 _]. exact Hc2.
Qed.

Lemma parentEventIdOf_instance a rest :
  noLetterR a = true ->
  Routes.parentEventIdOf (a +:+ "-recur-" +:+ rest) = a.
Proof.
  intros Ha. unfold Routes.parentEventIdOf.
  rewrite includes_append. apply splitHead_append. exact Ha.
Qed.

Lemma parentEventIdOf_Mem_instance base c :
  noLetterR base.(id) = true ->
  Routes.parentEventIdOf (Mem.instance base c).(id) = base.(id).
Proof.
  intros Hid.
  rewrite (proj2 (proj2 (proj2 (proj2 (Mem_instance_fields base c))))).
  apply parentEventIdOf_instance. exact Hid.
Qed.

(** X12. The routes recover the master of an event from its id: for a
    master whose id has no letter "r" (as generated keys have none), the id
    of every occurrence generated for it by either backend, by the cursor
    loop or by the legacy repetition, is mapped back to the master's id,
    and the master's own id is mapped to itself. *)
Theorem X12_instance_id_names_its_master base :
  noLetterR base.(id) = true ->
  Routes.parentEventIdOf base.(id) = base.(id)
  /\ (forall c, Routes.parentEventIdOf (Mem.instance base c).(id) = base.(id))
  /\ (forall c, Routes.parentEventIdOf (Db.instance base c).(id) = base.(id))
  /\ (forall i e, In e (Mem.legacyInstance base i) ->
        Routes.parentEventIdOf e.(id) = base.(id)).
Proof.
  intros Hid. split; [| split; [| split]].
  - unfold Routes.parentEventIdOf. rewrite (includes_none _ Hid). reflexivity.
  - intros c. rewrite (proj2 (proj2 (proj2 (proj2 (Mem_instance_fields base c))))).
    apply parentEventIdOf_instance. exact Hid.
  - intros c. rewrite (proj2 (proj2 (proj2 (proj2 (Db_instance_fields base c))))).
    apply parentEventIdOf_instance. exact Hid.
  - intros i e. unfold Mem.legacyInstance. cbv zeta.
    destruct (Mem.legacyDate _ _ _) as [[newDate |] |]; intros Hin;
      cbn [In] in Hin; [| destruct Hin | destruct Hin].
    destruct Hin as [<- | []]. cbn [id].
    apply parentEventIdOf_instance. exact Hid.
Qed.

Lemma X12_instance_id_names_its_master_witness :
  noLetterR standupEvent.(id) = true
  /\ Routes.parentEventIdOf
       (Mem.instance standupEvent (dateOf 2024 2 11 9 0)).(id)
     = standupEvent.(id).
Proof.
  assert (H : noLetterR standupEvent.(id) = true) by reflexivity.
  split; [exact H |].
  exact (proj1 (proj2 (X12_instance_id_names_its_master standupEvent H))
           (dateOf 2024 2 11 9 0)).
Defined.

Lemma mapDelete_absent m k :
  Mem.mapGet m k = None -> Mem.mapDelete m k = m.
Proof.
  unfold Mem.mapDelete.
  induction m as [| [k0 v0] m IH]; cbn [Mem.mapGet List.filter fst].
  - reflexivity.
  - destruct (String.eqb k0 k); cbn [negb]; [discriminate |].
    intros H. rewrite (IH H). reflexivity.
Qed.

(** X13. The delete route on the storage in use.  Without an instance date
    it answers "not found" exactly when no event is stored under the id, and
    then leaves the store as it is.  With an instance date it always
    answers "no content" and never removes an event; and when the id is the
    instance id of an occurrence of a master whose id has no letter "r", a
    later expansion of that master emits no occurrence on the day of the
    instance date. *)
Theorem X13_delete_route s :
  (forall eid,
      (snd (Routes.deleteEvent s eid None) = Routes.NotFound
       <-> Mem.getEvent s eid = None)
      /\ (Mem.getEvent s eid = None ->
          fst (Routes.deleteEvent s eid None) = s))
  /\ (forall eid d,
        snd (Routes.deleteEvent s eid (Some d)) = Routes.NoContent
        /\ Mem.events (fst (Routes.deleteEvent s eid (Some d))) = s.(Mem.events))
  /\ (forall base c d,
        noLetterR base.(id) = true ->
        let s' := fst (Routes.deleteEvent s (Mem.instance base c).(id) (Some d)) in
        let xs := default [] (s'.(Mem.eventExceptions) !! base.(id)) in
        forall S E e,
          In e (Mem.generateRecurringInstances base S E
                  (Mem.datesOfType "deleted" xs)
                  (Mem.datesOfType "modified" xs)) ->
          Day e.(startDate) <> Day d).
Proof.
  split; [| split].
  - intros eid. unfold Routes.deleteEvent, Mem.deleteEvent, Mem.getEvent.
    cbn [fst snd]. destruct (Mem.mapGet s.(Mem.events) eid) as [ev |] eqn:Hget.
    + rewrite bool_decide_eq_true_2 by (eexists; reflexivity).
      split; [split; discriminate | discriminate].
    + rewrite bool_decide_eq_false_2 by (intros [x Hx]; discriminate).
      split; [split; reflexivity |]. intros _.
      rewrite (mapDelete_absent _ _ Hget). destruct s; reflexivity.
  - intros eid d. unfold Routes.deleteEvent, Mem.deleteRecurringInstance.
    cbn [fst snd Mem.events]. split; reflexivity.
  - intros base c d Hid s' xs S E e Hin.
    apply (Mem_generator_shadows base S E xs
             (Mem.mkException d "deleted" None) e); [| left; reflexivity | exact Hin].
    subst xs s'. unfold Routes.deleteEvent.
    rewrite (parentEventIdOf_Mem_instance base c Hid).
    unfold Mem.deleteRecurringInstance. cbn [fst Mem.eventExceptions].
    rewrite lookup_insert_eq. cbn [default from_option Datatypes.id].
    apply in_or_app. right. left. reflexivity.
Qed.

Lemma X13_delete_route_witness :
  noLetterR standupEvent.(id) = true
  /\ let s' :=
       fst (Routes.deleteEvent memStandup
              (Mem.instance standupEvent (dateOf 2024 2 11 9 0)).(id)
              (Some (dateOf 2024 2 11 9 0))) in
     let xs := default [] (s'.(Mem.eventExceptions) !! standupEvent.(id)) in
     forall S E e,
       In e (Mem.generateRecurringInstances standupEvent S E
               (Mem.datesOfType "deleted" xs)
               (Mem.datesOfType "modified" xs)) ->
       Day e.(startDate) <> Day (dateOf 2024 2 11 9 0).
Proof.
  assert (H : noLetterR standupEvent.(id) = true) by reflexivity.
  split; [exact H |].
  exact (proj2 (proj2 (X13_delete_route memStandup)) standupEvent
           (dateOf 2024 2 11 9 0) (dateOf 2024 2 11 9 0) H).
Defined.

End InstanceIds.

(** ** Editing an occurrence through its route *)

Section EditRoute.
Import JSDate DateFns Schema Scenario Samples.

(** X14. The instance route on the storage in use: for a master stored
    under its id, an id without the letter "r", a request that names any of
    its occurrences by instance id stores a standalone event under the new
    key, which names the master as parent and the instance date as original
    date and is not recurring; a later expansion of the master emits no
    occurrence on the day of the instance date. *)
Theorem X14_instance_route s base newId now c d u :
  noLetterR base.(id) = true ->
  Mem.getEvent s base.(id) = Some base ->
  exists s' ev,
    Routes.patchInstance s newId now (Mem.instance base c).(id) d u
    = (s', Some ev)
    /\ Mem.getEvent s' newId = Some ev
    /\ ev.(id) = newId
    /\ ev.(parentEventId) = Some base.(id)
    /\ ev.(originalDate) = Some d
    /\ truthyBool ev.(isRecurring) = false
    /\ forall S E e,
         In e (Mem.generateRecurringInstances base S E
                 (Mem.datesOfType "deleted"
                    (default [] (s'.(Mem.eventExceptions) !! base.(id))))
                 (Mem.datesOfType "modified"
                    (default [] (s'.(Mem.eventExceptions) !! base.(id))))) ->
         Day e.(startDate) <> Day d.
Proof.
  intros Hid Hget. unfold Routes.patchInstance.
  rewrite (parentEventIdOf_Mem_instance base c Hid).
  unfold Mem.updateRecurringInstance. rewrite Hget.
  eexists _, _. split; [reflexivity |].
  split; [unfold Mem.getEvent; cbn [Mem.events]; apply mapGet_mapSet |].
  split; [reflexivity |]. split; [reflexivity |]. split; [reflexivity |].
  split; [reflexivity |].
  intros S E e Hin. cbn [Mem.eventExceptions] in Hin.
  rewrite lookup_insert_eq in Hin. cbn [default from_option Datatypes.id] in Hin.
  apply (Mem_generator_shadows base S E
           (default [] (Mem.eventExceptions s !! id base)
            ++ [Mem.mkException d "modified" (Some newId)])
           (Mem.mkException d "modified" (Some newId)) e);
    [| right; reflexivity | exact Hin].
  apply in_or_app. right. left. reflexivity.
Qed.

Lemma X14_instance_route_witness :
  noLetterR standupEvent.(id) = true
  /\ Mem.getEvent memStandup standupEvent.(id) = Some standupEvent
  /\ exists s' ev,
       Routes.patchInstance memStandup "x1" clock
         (Mem.instance standupEvent (dateOf 2024 2 11 9 0)).(id)
         (dateOf 2024 2 11 9 0) moved
       = (s', Some ev)
       /\ Mem.getEvent s' "x1" = Some ev
       /\ ev.(id) = "x1"
       /\ ev.(parentEventId) = Some standupEvent.(id)
       /\ ev.(originalDate) = Some (dateOf 2024 2 11 9 0)
       /\ truthyBool ev.(isRecurring) = false
       /\ forall S E e,
            In e (Mem.generateRecurringInstances standupEvent S E
                    (Mem.datesOfType "deleted"
                       (default []
                          (s'.(Mem.eventExceptions) !! standupEvent.(id))))
                    (Mem.datesOfType "modified"
                       (default []
                          (s'.(Mem.eventExceptions) !! standupEvent.(id))))) ->
            Day e.(startDate) <> Day (dateOf 2024 2 11 9 0).
Proof.
  assert (H1 : noLetterR standupEvent.(id) = true) by reflexivity.
  assert (H2 : Mem.getEvent memStandup standupEvent.(id) = Some standupEvent)
    by (vm_compute; reflexivity).
  split; [exact H1 |]. split; [exact H2 |].
  exact (X14_instance_route memStandup standupEvent "x1" clock
           (dateOf 2024 2 11 9 0) (dateOf 2024 2 11 9 0) moved H1 H2).
Defined.

End EditRoute.

(** ** Events that are listed as they are stored *)

Section PassThrough.
Import JSDate DateFns Schema Scenario Samples.

(** X15. Stored events that the read paths list as they are.  The listing
    of the memory backend and of the database backend returns every stored
    event that is not recurring, whatever its date; the range query of the
    memory backend returns every stored event that starts in the window,
    recurring or not; the range query of the database backend returns every
    stored event that is not recurring and starts in the window, and, whatever
    the window, every stored event that is not recurring and has a parent. *)
Theorem X15_events_listed_as_stored ev :
  (forall s now,
      In ev (Mem.mapValues s.(Mem.events)) ->
      truthyBool ev.(isRecurring) = false ->
      In ev (Mem.getEvents s now))
  /\ (forall s S E,
        In ev (Mem.mapValues s.(Mem.events)) ->
        S <= ev.(startDate) <= E ->
        In ev (Mem.getEventsByDateRange s S E))
  /\ (forall s now,
        In ev s.(Db.events) -> truthyBool ev.(isRecurring) = false ->
        In ev (Db.getEvents s now))
  /\ (forall s now S E,
        In ev s.(Db.events) -> truthyBool ev.(isRecurring) = false ->
        S <= ev.(startDate) <= E ->
        In ev (Db.getEventsByDateRange s now S E))
  /\ (forall s now S E,
        In ev s.(Db.events) -> ev.(isRecurring) = Some false ->
        is_Some ev.(parentEventId) ->
        In ev (Db.getEventsByDateRange s now S E)).
Proof.
  split; [| split; [| split; [| split]]].
  - intros s now Hin Hrec. unfold Mem.getEvents, Mem.expandRecurringEvents.
    rewrite In_sortByStart, in_flat_map. exists ev. split; [exact Hin |].
    rewrite Hrec. left. reflexivity.
  - intros s S E Hin Hw. unfold Mem.getEventsByDateRange.
    rewrite In_sortByStart, in_flat_map. exists ev. split; [exact Hin |].
    apply in_or_app. left.
    destruct (Z.leb_spec S ev.(startDate)); [| lia].
    destruct (Z.leb_spec ev.(startDate) E); [| lia].
    left. reflexivity.
  - intros s now Hin Hrec. unfold Db.getEvents, Db.expandRecurringEvents.
    rewrite In_sortByStart, in_app_iff, in_flat_map. left. exists ev.
    rewrite In_sortByStart. split; [exact Hin |].
    rewrite Hrec. left. reflexivity.
  - intros s now S E Hin Hrec Hw.
    unfold Db.getEventsByDateRange, Db.expandRecurringEvents.
    rewrite In_sortByStart, in_app_iff, in_flat_map. left. exists ev.
    rewrite In_sortByStart, List.filter_In. split.
    + split; [exact Hin |].
      destruct (Z.leb_spec S ev.(startDate)); [| lia].
      destruct (Z.leb_spec ev.(startDate) E); [| lia]. reflexivity.
    + rewrite Hrec. left. reflexivity.
  - intros s now S E Hin Hrec Hparent.
    unfold Db.getEventsByDateRange, Db.expandRecurringEvents.
    rewrite In_sortByStart, in_app_iff. right.
    apply List.filter_In. split; [exact Hin |].
    rewrite Hrec. rewrite bool_decide_eq_true_2 by reflexivity.
    rewrite bool_decide_eq_true_2 by exact Hparent. reflexivity.
Qed.

Lemma X15_events_listed_as_stored_witness :
  In dentist
    (Mem.mapValues
       (Mem.events (fst (Mem.createEvent memStandup "d1" clock
                           (mkInsertEvent "Dentist" None (dateOf 2024 2 7 15 0)
                              None None None None None None)))))
  /\ truthyBool dentist.(isRecurring) = false
  /\ In dentist
       (Mem.getEvents
          (fst (Mem.createEvent memStandup "d1" clock
                  (mkInsertEvent "Dentist" None (dateOf 2024 2 7 15 0)
                     None None None None None None)))
          (dateOf 2030 0 1 0 0)).
Proof.
  assert (H1 : In dentist
                 (Mem.mapValues
                    (Mem.events
                       (fst (Mem.createEvent memStandup "d1" clock
                               (mkInsertEvent "Dentist" None
                                  (dateOf 2024 2 7 15 0)
                                  None None None None None None))))))
    by (vm_compute; right; left; reflexivity).
  assert (H2 : truthyBool dentist.(isRecurring) = false) by reflexivity.
  split; [exact H1 |]. split; [exact H2 |].
  exact (proj1 (X15_events_listed_as_stored dentist) _ (dateOf 2030 0 1 0 0)
           H1 H2).
Defined.

End PassThrough.

(** ** The repetitions of the inherited range query *)

Section LegacyRepetitions.
Import JSDate DateFns Schema Scenario Samples.

Lemma flat_map_nil {A B} (f : A -> list B) l :
  (forall x, f x = []) -> flat_map f l = [].
Proof.
  intros Hf. induction l as [| x l IH]; [reflexivity |].
  cbn [flat_map]. rewrite Hf, IH. reflexivity.
Qed.

Lemma flat_map_singletons {A B} (f : A -> list B) (g : A -> B) l :
  (forall x, In x l -> f x = [g x]) -> flat_map f l = map g l.
Proof.
  induction l as [| x l IH]; intros Hf; [reflexivity |].
  cbn [flat_map map]. rewrite (Hf x) by (left; reflexivity).
  rewrite IH by (intros y Hy; apply Hf; right; exact Hy). reflexivity.
Qed.

Lemma legacy_repetition base i newDate :
  Mem.legacyDate base.(startDate) base.(recurringPattern) i
  = Some (Some newDate) ->
  Mem.legacyInstance base i = [repetitionOf base i newDate].
Proof.
  intros H. unfold Mem.legacyInstance. cbv zeta. rewrite H. reflexivity.
Qed.

(** The loop of [generateRecurringEvents] when each of its turns gives the
    date [date i]. *)
Lemma legacy_repetitions base daysAhead n (date : Z -> Z) :
  daysAhead
  / Mem.getRecurrenceInterval
      (match orNull base.(recurringPattern) with
       | Some p => p
       | None => "weekly"
       end) = n ->
  (forall i, 1 <= i <= n ->
     Mem.legacyDate base.(startDate) base.(recurringPattern) i
     = Some (Some (date i))) ->
  Mem.generateRecurringEvents base daysAhead
  = map (fun i => repetitionOf base i (date i)) (countTo n).
Proof.
  intros Hn Hdate. unfold Mem.generateRecurringEvents, countTo. cbv zeta.
  rewrite Hn, map_map. apply flat_map_singletons.
  intros k Hk. apply in_seq in Hk. apply legacy_repetition, Hdate. lia.
Qed.

Lemma setMonth_atDate t m :
  setMonth t m = TimeClip (atDate t (getFullYear t, m, getDate t)).
Proof.
  unfold setMonth, setMonth2, atDate, getFullYear, getDate. reflexivity.
Qed.

Lemma setFullYear_atDate t y :
  setFullYear t y = TimeClip (atDate t (y, getMonth t, getDate t)).
Proof.
  unfold setFullYear, setFullYear3, atDate, getMonth, getDate. reflexivity.
Qed.

Lemma MakeDay_months y m d n :
  28 * Z.of_nat n
  <= MakeDay y (m + Z.of_nat n) d - MakeDay y m d
  <= 31 * Z.of_nat n.
Proof.
  induction n as [| n IH].
  - cbn [Z.of_nat]. rewrite Z.add_0_r. lia.
  - replace (m + Z.of_nat (S n)) with (m + Z.of_nat n + 1) by lia.
    rewrite MakeDay_next_month.
    pose proof (daysInMonth_range y (m + Z.of_nat n)). lia.
Qed.

(** X16. The repetitions that the range query of the memory backend adds to
    a recurring master (the generator inherited from [MemStorage]), for a
    master away from the limits of the time range and a request for at most
    365 days.  The generator returns exactly one repetition for each number
    [i] from 1 to the number of days asked for divided by the interval of
    the pattern (1, 7, 30 or 365), in this order: repetition [i] has the id
    of the master followed by "-recur-" and [i], no parent and no original
    date, ends as long after its start as the master does, and starts [i]
    days after the master for "daily", [i] weeks after it for "weekly", on
    the master's day of the month [i] months later for "monthly" and [i]
    years later for "yearly", the days that the month aimed at does not have
    being carried into the next month.  A master with any other pattern has
    no repetition. *)
Theorem X16_legacy_repetitions base daysAhead :
  awayFromLimits base.(startDate) -> daysAhead <= 365 ->
  (base.(recurringPattern) = Some "daily"%string ->
   Mem.generateRecurringEvents base daysAhead
   = map (fun i => repetitionOf base i (base.(startDate) + i * msPerDay))
       (countTo daysAhead))
  /\ (base.(recurringPattern) = Some "weekly"%string ->
      Mem.generateRecurringEvents base daysAhead
      = map (fun i =>
               repetitionOf base i (base.(startDate) + i * 7 * msPerDay))
          (countTo (daysAhead / 7)))
  /\ (base.(recurringPattern) = Some "monthly"%string ->
      Mem.generateRecurringEvents base daysAhead
      = map (fun i =>
               repetitionOf base i
                 (atDate base.(startDate)
                    (getFullYear base.(startDate),
                     getMonth base.(startDate) + i,
                     getDate base.(startDate))))
          (countTo (daysAhead / 30)))
  /\ (base.(recurringPattern) = Some "yearly"%string ->
      Mem.generateRecurringEvents base daysAhead
      = map (fun i =>
               repetitionOf base i
                 (atDate base.(startDate)
                    (getFullYear base.(startDate) + i,
                     getMonth base.(startDate),
                     getDate base.(startDate))))
          (countTo (daysAhead / 365)))
  /\ (base.(recurringPattern) <> Some "daily"%string ->
      base.(recurringPattern) <> Some "weekly"%string ->
      base.(recurringPattern) <> Some "monthly"%string ->
      base.(recurringPattern) <> Some "yearly"%string ->
      Mem.generateRecurringEvents base daysAhead = []).
Proof.
  intros Hlim Hdays.
  pose proof (MakeDay_of_time base.(startDate)) as Hday.
  split; [| split; [| split; [| split]]].
  - intros Hp. apply legacy_repetitions.
    + rewrite Hp. change (Mem.getRecurrenceInterval _) with 1.
      apply Z.div_1_r.
    + intros i Hi. rewrite Hp. unfold Mem.legacyDate.
      rewrite String.eqb_refl, setDate_shift.
      rewrite (TimeClip_near base.(startDate)); [reflexivity | exact Hlim |].
      unfold msPerDay. lia.
  - intros Hp. apply legacy_repetitions.
    + rewrite Hp. reflexivity.
    + intros i Hi. rewrite Hp. unfold Mem.legacyDate.
      change (String.eqb "weekly" "daily") with false.
      rewrite String.eqb_refl, setDate_shift.
      replace (base.(startDate) + i * 7 * msPerDay)
        with (base.(startDate) + (i * 7) * msPerDay) by lia.
      rewrite (TimeClip_near base.(startDate)); [reflexivity | exact Hlim |].
      unfold msPerDay. Z.div_mod_to_equations. lia.
  - intros Hp. apply legacy_repetitions.
    + rewrite Hp. reflexivity.
    + intros i Hi. rewrite Hp. unfold Mem.legacyDate.
      change (String.eqb "monthly" "daily") with false.
      change (String.eqb "monthly" "weekly") with false.
      rewrite String.eqb_refl. cbv iota.
      rewrite setMonth_atDate. do 2 f_equal.
      apply (TimeClip_atDate base.(startDate) _ _ _ Hlim).
      unfold getFullYear, getMonth, getDate.
      pose proof (MakeDay_months (YearFromTime base.(startDate))
                    (MonthFromTime base.(startDate))
                    (DateFromTime base.(startDate)) (Z.to_nat i)) as Hm.
      rewrite Z2Nat.id in Hm by lia.
      Z.div_mod_to_equations. lia.
  - intros Hp. apply legacy_repetitions.
    + rewrite Hp. reflexivity.
    + intros i Hi. rewrite Hp. unfold Mem.legacyDate.
      change (String.eqb "yearly" "daily") with false.
      change (String.eqb "yearly" "weekly") with false.
      change (String.eqb "yearly" "monthly") with false.
      rewrite String.eqb_refl. cbv iota.
      rewrite setFullYear_atDate. do 2 f_equal.
      apply (TimeClip_atDate base.(startDate) _ _ _ Hlim).
      unfold getFullYear, getMonth, getDate.
      assert (Hone : i = 1) by (Z.div_mod_to_equations; lia). subst i.
      pose proof (MakeDay_next_year (YearFromTime base.(startDate))
                    (MonthFromTime base.(startDate))
                    (DateFromTime base.(startDate))
                    (MonthFromTime_range base.(startDate))) as Hy.
      lia.
  - intros Hd Hw Hm Hy. unfold Mem.generateRecurringEvents. cbv zeta.
    apply flat_map_nil. intros n. unfold Mem.legacyInstance. cbv zeta.
    replace (Mem.legacyDate base.(startDate) base.(recurringPattern)
               (Z.of_nat n)) with (@None (option Z)); [reflexivity |].
    unfold Mem.legacyDate. destruct base.(recurringPattern) as [p |];
      [| reflexivity].
    destruct (String.eqb_spec p "daily") as [-> | _]; [congruence |].
    destruct (String.eqb_spec p "weekly") as [-> | _]; [congruence |].
    destruct (String.eqb_spec p "monthly") as [-> | _]; [congruence |].
    destruct (String.eqb_spec p "yearly") as [-> | _]; [congruence |].
    reflexivity.
Qed.

Lemma X16_legacy_repetitions_witness :
  awayFromLimits standupEvent.(startDate)
  /\ 365 <= 365
  /\ Mem.generateRecurringEvents standupEvent 365
     = map (fun i =>
              repetitionOf standupEvent i
                (standupEvent.(startDate) + i * 7 * msPerDay))
         (countTo (365 / 7)).
Proof.
  assert (H1 : awayFromLimits standupEvent.(startDate))
    by (vm_compute; discriminate).
  assert (H2 : 365 <= 365) by lia.
  split; [exact H1 |]. split; [exact H2 |].
  exact (proj1 (proj2 (X16_legacy_repetitions standupEvent 365 H1 H2))
           eq_refl).
Defined.

(** The first and the last of the 52 weekly repetitions that a range query
    draws from the Standup series. *)
Example legacy_repetitions_of_standup :
  length (Mem.generateRecurringEvents standupEvent 365) = 52%nat
  /\ option_map (fun e => (e.(id), e.(startDate)))
       (head (Mem.generateRecurringEvents standupEvent 365))
     = Some ("m1-recur-1"%string, dateOf 2024 2 11 9 0)
  /\ option_map (fun e => (e.(id), e.(startDate)))
       (last (Mem.generateRecurringEvents standupEvent 365))
     = Some ("m1-recur-52"%string, dateOf 2025 2 3 9 0).
Proof. vm_compute. repeat split. Qed.

(** X17. The range query of the memory backend never reads the exceptions:
    deleting an occurrence on its own changes no range query, and for a
    stored recurring master with the pattern "daily" or "weekly", away from
    the limits of the time range, the repetition number [i] (1 to 365 for
    "daily", 1 to 52 for "weekly") is still listed by every window that
    holds its date after that very date was deleted. *)
Theorem X17_range_query_ignores_exceptions s :
  (forall pid d S E,
      Mem.getEventsByDateRange (fst (Mem.deleteRecurringInstance s pid d)) S E
      = Mem.getEventsByDateRange s S E)
  /\ (forall base k i S E,
        In base (Mem.mapValues s.(Mem.events)) ->
        truthyBool base.(isRecurring) = true ->
        (base.(recurringPattern) = Some "daily" /\ k = 1 /\ 1 <= i <= 365)
        \/ (base.(recurringPattern) = Some "weekly" /\ k = 7 /\ 1 <= i <= 52) ->
        awayFromLimits base.(startDate) ->
        S <= base.(startDate) + i * k * msPerDay <= E ->
        exists e,
          In e (Mem.getEventsByDateRange
                  (fst (Mem.deleteRecurringInstance s base.(id)
                          (base.(startDate) + i * k * msPerDay))) S E)
          /\ e.(startDate) = base.(startDate) + i * k * msPerDay
          /\ e.(id) = base.(id) +:+ "-recur-" +:+ numberToString i).
Proof.
  assert (Hsame : forall pid d S E,
             Mem.getEventsByDateRange
               (fst (Mem.deleteRecurringInstance s pid d)) S E
             = Mem.getEventsByDateRange s S E) by reflexivity.
  split; [exact Hsame |].
  intros base k i S E Hbase Hrec Hpat Hlim Hwin. rewrite Hsame.
  set (newDate := base.(startDate) + i * k * msPerDay) in *.
  exists (mkEvent (base.(id) +:+ "-recur-" +:+ numberToString i)
            base.(title) base.(description) newDate
            (match base.(endDate) with
             | Some stop => TimeClip (newDate + (stop - base.(startDate)))
             | None => None
             end)
            base.(isRecurring) base.(recurringPattern)
            base.(recurringWeeks) None None base.(createdAt)).
  split; [| split; reflexivity].
  unfold Mem.getEventsByDateRange. rewrite In_sortByStart, in_flat_map.
  exists base. split; [exact Hbase |]. apply in_or_app. right.
  rewrite Hrec.
  assert (Hclip : TimeClip newDate = Some newDate).
  { apply (TimeClip_near base.(startDate)); [exact Hlim |].
    subst newDate. unfold msPerDay. lia. }
  assert (Hstr : truthyStr base.(recurringPattern) = true)
    by (destruct Hpat as [(-> & _) | (-> & _)]; reflexivity).
  rewrite Hstr. cbn [andb]. apply List.filter_In. split.
  - unfold Mem.generateRecurringEvents. cbv zeta. rewrite in_flat_map.
    exists (Z.to_nat i). split.
    + apply in_seq.
      destruct Hpat as [(-> & _ & Hi) | (-> & _ & Hi)].
      * change (Mem.getRecurrenceInterval _) with 1.
        change (365 / 1) with 365. lia.
      * change (Mem.getRecurrenceInterval _) with 7.
        change (365 / 7) with 52. lia.
    + rewrite Z2Nat.id by (destruct Hpat as [(_ & _ & Hi) | (_ & _ & Hi)]; lia).
      unfold Mem.legacyInstance. cbv zeta.
      replace (Mem.legacyDate base.(startDate) base.(recurringPattern) i)
        with (Some (Some newDate)); [left; reflexivity |].
      unfold Mem.legacyDate.
      destruct Hpat as [(-> & -> & Hi) | (-> & -> & Hi)].
      * rewrite String.eqb_refl, setDate_shift.
        replace (base.(startDate) + i * msPerDay) with newDate
          by (subst newDate; lia).
        rewrite Hclip. reflexivity.
      * change (String.eqb "weekly" "daily") with false.
        rewrite String.eqb_refl, setDate_shift.
        replace (base.(startDate) + i * 7 * msPerDay) with newDate
          by (subst newDate; lia).
        rewrite Hclip. reflexivity.
  - cbn [startDate].
    destruct (Z.leb_spec S newDate); [| lia].
    destruct (Z.leb_spec newDate E); [| lia]. reflexivity.
Qed.

Lemma X17_range_query_ignores_exceptions_witness :
  In standupEvent (Mem.mapValues memStandup.(Mem.events))
  /\ awayFromLimits standupEvent.(startDate)
  /\ exists e,
       In e (Mem.getEventsByDateRange
               (fst (Mem.deleteRecurringInstance memStandup standupEvent.(id)
                       (standupEvent.(startDate) + 1 * 7 * msPerDay)))
               (dateOf 2024 2 1 0 0) (dateOf 2024 2 22 0 0))
       /\ e.(startDate) = standupEvent.(startDate) + 1 * 7 * msPerDay
       /\ e.(id) = standupEvent.(id) +:+ "-recur-" +:+ numberToString 1.
Proof.
  assert (H1 : In standupEvent (Mem.mapValues memStandup.(Mem.events)))
    by (vm_compute; left; reflexivity).
  assert (H2 : awayFromLimits standupEvent.(startDate))
    by (vm_compute; discriminate).
  split; [exact H1 |]. split; [exact H2 |].
  apply (proj2 (X17_range_query_ignores_exceptions memStandup)
           standupEvent 7 1 (dateOf 2024 2 1 0 0) (dateOf 2024 2 22 0 0) H1).
  - reflexivity.
  - right. split; [reflexivity |]. split; [reflexivity | lia].
  - exact H2.
  - vm_compute. split; discriminate.
Defined.

End LegacyRepetitions.

(** ** Sign-up *)

Section SignUp.
Import Users.

Lemma getUserByUsername_None s name :
  getUserByUsername s name = None <-> ~ In name (userNames s).
Proof.
  unfold getUserByUsername, userNames.
  induction s as [| [k v] s IH]; cbn [map find snd In].
  - split; [intros _ [] | reflexivity].
  - destruct (String.eqb_spec v.(username) name) as [Heq | Hne].
    + split; [discriminate | intros H; exfalso; apply H; left; exact Heq].
    + rewrite IH. split; [intros H [Hx | Hx]; [congruence | exact (H Hx)] |].
      intros H Hx. apply H. right. exact Hx.
Qed.

Lemma mapGet_mapSet_user s k v : mapGet (mapSet s k v) k = Some v.
Proof.
  induction s as [| [k' v'] s IH]; cbn [mapSet mapGet].
  - rewrite String.eqb_refl. reflexivity.
  - destruct (String.eqb k' k) eqn:Hk; cbn [mapGet]; rewrite Hk;
      [reflexivity | exact IH].
Qed.

Lemma mapGet_mapSet_other_user s k v k2 :
  k2 <> k -> mapGet (mapSet s k v) k2 = mapGet s k2.
Proof.
  intros Hne. induction s as [| [k' v'] s IH]; cbn [mapSet mapGet].
  - destruct (String.eqb_spec k k2); [congruence | reflexivity].
  - destruct (String.eqb_spec k' k) as [-> | Hk]; cbn [mapGet].
    + destruct (String.eqb_spec k k2); [congruence | reflexivity].
    + rewrite IH. reflexivity.
Qed.

Lemma userNames_mapSet s k v x :
  In x (userNames (mapSet s k v)) -> x = v.(username) \/ In x (userNames s).
Proof.
  unfold userNames. induction s as [| [k' v'] s IH]; cbn [mapSet map In snd].
  - intros [<- | []]. left. reflexivity.
  - destruct (String.eqb k' k); cbn [map In snd].
    + intros [<- | Hx]; [left; reflexivity | right; right; exact Hx].
    + intros [<- | Hx]; [right; left; reflexivity |].
      destruct (IH Hx) as [-> | Hin]; [left; reflexivity | right; right; exact Hin].
Qed.

Lemma NoDup_userNames_mapSet s k v :
  ~ In v.(username) (userNames s) ->
  List.NoDup (userNames s) -> List.NoDup (userNames (mapSet s k v)).
Proof.
  unfold userNames. induction s as [| [k' v'] s IH]; cbn [mapSet map In snd].
  - intros _ _. apply List.NoDup_cons; [intros [] | apply List.NoDup_nil].
  - intros Hfresh Hnd. apply List.NoDup_cons_iff in Hnd as [Hhead Htail].
    destruct (String.eqb k' k); cbn [map snd].
    + apply List.NoDup_cons; [| exact Htail].
      intros Hin. apply Hfresh. right. exact Hin.
    + apply List.NoDup_cons.
      * intros Hin. apply (userNames_mapSet s k v) in Hin as [Heq | Hin].
        -- apply Hfresh. left. exact Heq.
        -- exact (Hhead Hin).
      * apply IH; [| exact Htail]. intros Hin. apply Hfresh. right. exact Hin.
Qed.

Lemma getUserByUsername_mapSet s k v :
  ~ In v.(username) (userNames s) ->
  getUserByUsername (mapSet s k v) v.(username) = Some v.
Proof.
  unfold getUserByUsername, userNames.
  induction s as [| [k' v'] s IH]; cbn [mapSet map find snd In].
  - intros _. rewrite String.eqb_refl. reflexivity.
  - intros Hfresh. destruct (String.eqb k' k); cbn [map find snd].
    + rewrite String.eqb_refl. reflexivity.
    + destruct (String.eqb_spec v'.(username) v.(username)) as [Heq | _].
      * exfalso. apply Hfresh. left. exact Heq.
      * apply IH. intros Hin. apply Hfresh. right. exact Hin.
Qed.

Lemma mapGet_userNames s k v :
  mapGet s k = Some v -> In v.(username) (userNames s).
Proof.
  unfold userNames. induction s as [| [k' v'] s IH]; cbn [mapGet map In snd];
    [discriminate |].
  destruct (String.eqb k' k).
  - intros [= ->]. left. reflexivity.
  - intros H. right. exact (IH H).
Qed.

(** Two keys that hold users of the same name: the names are not pairwise
    distinct. *)
Lemma same_name_twice s k1 k2 v1 v2 :
  k1 <> k2 -> mapGet s k1 = Some v1 -> mapGet s k2 = Some v2 ->
  v1.(username) = v2.(username) -> ~ List.NoDup (userNames s).
Proof.
  intros Hne H1 H2 Hname Hnd.
  induction s as [| [k v] s IH]; [discriminate |].
  cbn [mapGet] in H1, H2.
  change (userNames ((k, v) :: s)) with (v.(username) :: userNames s) in Hnd.
  apply List.NoDup_cons_iff in Hnd as [Hhead Htail].
  destruct (String.eqb_spec k k1) as [-> | Hk1].
  - injection H1 as ->.
    destruct (String.eqb_spec k1 k2) as [| _]; [contradiction |].
    apply Hhead. rewrite Hname. exact (mapGet_userNames _ _ _ H2).
  - destruct (String.eqb_spec k k2) as [-> | Hk2].
    + injection H2 as ->.
      apply Hhead. rewrite <- Hname. exact (mapGet_userNames _ _ _ H1).
    + exact (IH H1 H2 Htail).
Qed.

(** X18. Sign-up on the memory backend, which declares no constraint of its
    own: the handler checks the name, waits for the hash, then creates the
    user.  A request served alone is refused when the name is taken, and
    nothing is written; with a free name it creates the user under the new
    key with that name and the hashed password, the user is then found by
    key and by name, the users under other keys are as before, and user
    names that were pairwise distinct stay so.  Two requests for the same
    free name, with different keys, whose checks both run before either
    creation are both answered with the created user, both users are
    stored, and the user names are no longer pairwise distinct. *)
Theorem X18_signup s q :
  let alone := run s [(q, Received)] [0%nat; 0%nat] in
  let user := mkUser q.(reqNewId) q.(reqName) q.(reqHashed) in
  (In q.(reqName) (userNames s) ->
   alone = (s, [(q, Responded UsernameExists)]))
  /\ (~ In q.(reqName) (userNames s) ->
      snd alone = [(q, Responded (Created user))]
      /\ getUser (fst alone) q.(reqNewId) = Some user
      /\ getUserByUsername (fst alone) q.(reqName) = Some user
      /\ (forall uid,
             uid <> q.(reqNewId) -> getUser (fst alone) uid = getUser s uid)
      /\ (List.NoDup (userNames s) -> List.NoDup (userNames (fst alone))))
  /\ (forall q2,
        ~ In q.(reqName) (userNames s) ->
        q2.(reqName) = q.(reqName) -> q2.(reqNewId) <> q.(reqNewId) ->
        let raced :=
          run s [(q, Received); (q2, Received)] [0%nat; 1%nat; 0%nat; 1%nat] in
        let user2 := mkUser q2.(reqNewId) q2.(reqName) q2.(reqHashed) in
        snd raced
        = [(q, Responded (Created user)); (q2, Responded (Created user2))]
        /\ getUser (fst raced) q.(reqNewId) = Some user
        /\ getUser (fst raced) q2.(reqNewId) = Some user2
        /\ ~ List.NoDup (userNames (fst raced))).
Proof.
  cbv zeta. split; [| split].
  - intros Htaken. cbn [run lookup list_lookup]. cbn [step].
    destruct (getUserByUsername s q.(reqName)) as [u |] eqn:Hfind.
    + reflexivity.
    + apply getUserByUsername_None in Hfind. contradiction.
  - intros Hfree. pose proof Hfree as Hfind.
    apply getUserByUsername_None in Hfind.
    cbn [run lookup list_lookup]. cbn [step]. rewrite Hfind.
    cbn [run lookup list_lookup insert list_insert step createUser
         insUsername insPassword fst snd].
    split; [reflexivity |].
    split; [apply mapGet_mapSet_user |].
    split; [apply (getUserByUsername_mapSet s q.(reqNewId)
                     (mkUser q.(reqNewId) q.(reqName) q.(reqHashed)));
            exact Hfree |].
    split; [intros uid Hne; apply mapGet_mapSet_other_user; exact Hne |].
    apply NoDup_userNames_mapSet. exact Hfree.
  - intros [name2 hashed2 key2].
    cbn [reqName reqNewId reqHashed]. intros Hfree -> Hkeys.
    pose proof Hfree as Hfind. apply getUserByUsername_None in Hfind.
    set (q2 := mkRequest q.(reqName) hashed2 key2).
    cbn [run lookup list_lookup]. cbn [step]. rewrite Hfind.
    cbn [run lookup list_lookup insert list_insert step].
    change (reqName q2) with (reqName q). rewrite Hfind.
    cbn [run lookup list_lookup insert list_insert step createUser
         insUsername insPassword fst snd].
    change (reqNewId q2) with key2. change (reqHashed q2) with hashed2.
    assert (H1 : getUser
                   (mapSet
                      (mapSet s q.(reqNewId)
                         (mkUser q.(reqNewId) q.(reqName) q.(reqHashed)))
                      key2 (mkUser key2 q.(reqName) hashed2))
                   q.(reqNewId)
                 = Some (mkUser q.(reqNewId) q.(reqName) q.(reqHashed))).
    { unfold getUser. rewrite mapGet_mapSet_other_user by congruence.
      apply mapGet_mapSet_user. }
    assert (H2 : getUser
                   (mapSet
                      (mapSet s q.(reqNewId)
                         (mkUser q.(reqNewId) q.(reqName) q.(reqHashed)))
                      key2 (mkUser key2 q.(reqName) hashed2))
                   key2
                 = Some (mkUser key2 q.(reqName) hashed2))
      by apply mapGet_mapSet_user.
    split; [reflexivity |]. split; [exact H1 |]. split; [exact H2 |].
    apply (same_name_twice _ q.(reqNewId) key2 _ _
             (fun H => Hkeys (eq_sym H)) H1 H2).
    reflexivity.
Qed.

Lemma X18_signup_witness :
  ~ In "ann"%string (userNames [])
  /\ snd (run [] [(mkRequest "ann" "h1" "u1", Received);
                  (mkRequest "ann" "h2" "u2", Received)]
            [0%nat; 1%nat; 0%nat; 1%nat])
     = [(mkRequest "ann" "h1" "u1",
         Responded (Created (mkUser "u1" "ann" "h1")));
        (mkRequest "ann" "h2" "u2",
         Responded (Created (mkUser "u2" "ann" "h2")))]
  /\ ~ List.NoDup
         (userNames
            (fst (run [] [(mkRequest "ann" "h1" "u1", Received);
                          (mkRequest "ann" "h2" "u2", Received)]
                    [0%nat; 1%nat; 0%nat; 1%nat]))).
Proof.
  assert (H1 : ~ In "ann"%string (userNames [])) by (intros []).
  assert (H2 : reqName (mkRequest "ann" "h2" "u2")
               = reqName (mkRequest "ann" "h1" "u1")) by reflexivity.
  assert (H3 : reqNewId (mkRequest "ann" "h2" "u2")
               <> reqNewId (mkRequest "ann" "h1" "u1")) by discriminate.
  pose proof (proj2 (proj2 (X18_signup [] (mkRequest "ann" "h1" "u1")))
                (mkRequest "ann" "h2" "u2") H1 H2 H3) as (Hr & _ & _ & Hdup).
  split; [exact H1 |]. split; [exact Hr | exact Hdup].
Defined.

(** The store after the two racing sign-ups: both users, one name. *)
Example signup_race :
  fst (run [] [(mkRequest "ann" "h1" "u1", Received);
               (mkRequest "ann" "h2" "u2", Received)]
         [0%nat; 1%nat; 0%nat; 1%nat])
  = [("u1"%string, mkUser "u1" "ann" "h1");
     ("u2"%string, mkUser "u2" "ann" "h2")].
Proof. reflexivity. Qed.

(** Served one after the other, the second of the two is refused. *)
Example signup_in_turn :
  run [] [(mkRequest "ann" "h1" "u1", Received);
          (mkRequest "ann" "h2" "u2", Received)]
    [0%nat; 0%nat; 1%nat; 1%nat]
  = ([("u1"%string, mkUser "u1" "ann" "h1")],
     [(mkRequest "ann" "h1" "u1",
       Responded (Created (mkUser "u1" "ann" "h1")));
      (mkRequest "ann" "h2" "u2", Responded UsernameExists)]).
Proof. reflexivity. Qed.

End SignUp.

(** ** The two backends side by side *)

Section BackendAgreement.
Import JSDate DateFns Schema Scenario Samples.

Lemma awayFromLimits_between lo hi t :
  awayFromLimits lo -> awayFromLimits hi -> lo <= t <= hi -> awayFromLimits t.
Proof. unfold awayFromLimits. lia. Qed.

Lemma day_step_never_overshoots t p :
  p <> Some "monthly"%string -> p <> Some "yearly"%string ->
  overshoots t p = false.
Proof.
  intros Hm Hy. unfold overshoots. destruct p as [p |]; [| reflexivity].
  destruct (String.eqb p "daily"); [reflexivity |].
  destruct (String.eqb p "weekly"); [reflexivity |].
  destruct (String.eqb_spec p "monthly") as [-> | _]; [congruence |].
  destruct (String.eqb_spec p "yearly") as [-> | _]; [congruence |].
  reflexivity.
Qed.

Lemma day_step_agree base t :
  base.(recurringPattern) <> Some "monthly"%string ->
  base.(recurringPattern) <> Some "yearly"%string ->
  awayFromLimits t -> memNext base t = dbNext base t.
Proof.
  intros Hm Hy Ht. unfold memNext, dbNext.
  rewrite (Mem_next_defined _ _ Ht), (Db_next_defined _ _ Ht).
  rewrite (proj1 (clamped_when t base.(recurringPattern))
             (day_step_never_overshoots t _ Hm Hy)).
  reflexivity.
Qed.

Lemma stepN_agree base lo hi k : forall c0 c,
  base.(recurringPattern) <> Some "monthly"%string ->
  base.(recurringPattern) <> Some "yearly"%string ->
  awayFromLimits lo -> awayFromLimits hi -> lo <= c0 -> c <= hi ->
  (stepN (memNext base) k c0 = Some c <-> stepN (dbNext base) k c0 = Some c).
Proof.
  induction k as [| k IH]; intros c0 c Hm Hy Hlo Hhi Hc0 Hc; cbn [stepN];
    [split; intros H; exact H |].
  assert (Hearly : forall next c1,
            (forall t r, next t = Some r -> t + msPerDay <= r) ->
            next c0 = Some c1 -> stepN next k c1 = Some c ->
            c0 <= c1 <= c).
  { intros next c1 Hadv H1 Hs. apply Hadv in H1.
    pose proof (stepN_advance _ _ _ _ Hadv Hs). unfold msPerDay in *. lia. }
  split.
  - destruct (memNext base c0) as [c1 |] eqn:H1; [| discriminate].
    intros Hs.
    pose proof (Hearly _ _ (memNext_advance base) H1 Hs) as Hord.
    rewrite <- (day_step_agree base c0 Hm Hy), H1
      by (apply (awayFromLimits_between lo hi); auto; lia).
    apply IH; auto; lia.
  - destruct (dbNext base c0) as [c1 |] eqn:H1; [| discriminate].
    intros Hs.
    pose proof (Hearly _ _ (dbNext_advance base) H1 Hs) as Hord.
    rewrite (day_step_agree base c0 Hm Hy), H1
      by (apply (awayFromLimits_between lo hi); auto; lia).
    apply IH; auto; lia.
Qed.

Lemma seriesEnd_agree base E :
  awayFromLimits base.(startDate) ->
  Mem.seriesEnd base E = Db.seriesEnd base (Some E).
Proof.
  intros Hstart. unfold Mem.seriesEnd, Db.seriesEnd.
  destruct (_ && _); [| reflexivity]. cbv zeta.
  destruct (parseInt _) as [n |]; [| reflexivity].
  unfold addWeeks, option_map, addDays.
  replace (base.(startDate) + n * 7 * 24 * 60 * 60 * 1000)
    with (base.(startDate) + n * 7 * msPerDay) by (unfold msPerDay; lia).
  destruct (Z.eqb_spec (n * 7) 0) as [H0 | _].
  - replace (base.(startDate) + n * 7 * msPerDay) with base.(startDate)
      by lia.
    rewrite (TimeClip_near base.(startDate) base.(startDate) Hstart)
      by (unfold msPerDay; lia).
    reflexivity.
  - rewrite setDate_shift.
    destruct (TimeClip _); reflexivity.
Qed.

Lemma Db_generate_complete base S E excs k c stop :
  stepN (dbNext base) k (Z.max base.(startDate) S) = Some c ->
  Db.seriesEnd base E = Some stop -> c < stop ->
  has (Db.datesOfType "deleted" excs) (format_yyyy_MM_dd c) = false ->
  has (Db.datesOfType "modified" excs) (format_yyyy_MM_dd c) = false ->
  In (Db.instance base c) (Db.generateRecurringInstances base S E excs).
Proof.
  intros Hs Hse Hlt Hd Hm.
  unfold Db.generateRecurringInstances. rewrite Hse.
  destruct (Db_loop_completes
              (Db.loopFuel (Z.max base.(startDate) S) (Some stop)) base
              (Some stop) (Db.datesOfType "deleted" excs)
              (Db.datesOfType "modified" excs) (Z.max base.(startDate) S))
    as (l & Hl & _).
  { intros e He. apply loopFuel_covers. exact He. }
  rewrite Hl. cbn [default from_option Datatypes.id].
  exact (Db_loop_complete _ _ _ _ _ _ _ _ _ Hl Hs Hlt Hd Hm).
Qed.

Lemma spaced_starts l :
  StronglySorted aDayApart l -> StronglySorted Z.lt (map startDate l).
Proof.
  induction 1 as [| e l Hs IH Hall]; cbn [map]; constructor; [exact IH |].
  apply List.Forall_forall. intros x Hx. apply in_map_iff in Hx as (y & <- & Hy).
  rewrite List.Forall_forall in Hall. specialize (Hall y Hy).
  unfold aDayApart, msPerDay in Hall. lia.
Qed.

Lemma ascending_unique (l1 : list Z) : forall l2,
  StronglySorted Z.lt l1 -> StronglySorted Z.lt l2 ->
  (forall x, In x l1 <-> In x l2) -> l1 = l2.
Proof.
  induction l1 as [| a l1 IH]; intros l2 H1 H2 Hsame.
  - destruct l2 as [| b l2]; [reflexivity |].
    exfalso. apply (proj2 (Hsame b)). left. reflexivity.
  - destruct l2 as [| b l2];
      [exfalso; apply (proj1 (Hsame a)); left; reflexivity |].
    apply StronglySorted_inv in H1 as [H1 Ha].
    apply StronglySorted_inv in H2 as [H2 Hb].
    rewrite List.Forall_forall in Ha, Hb.
    assert (Hab : a = b).
    { destruct (proj1 (Hsame a) (or_introl eq_refl)) as [-> | Hin];
        [reflexivity |].
      destruct (proj2 (Hsame b) (or_introl eq_refl)) as [-> | Hin'];
        [reflexivity |].
      specialize (Ha _ Hin'). specialize (Hb _ Hin). lia. }
    subst b. f_equal. apply IH; [exact H1 | exact H2 |].
    intros x. split; intros Hx.
    + destruct (proj1 (Hsame x) (or_intror Hx)) as [<- | Hin]; [| exact Hin].
      specialize (Ha _ Hx). lia.
    + destruct (proj2 (Hsame x) (or_intror Hx)) as [<- | Hin]; [| exact Hin].
      specialize (Hb _ Hx). lia.
Qed.

(** X19. The two backends side by side: for a master whose pattern steps by
    days (any pattern but "monthly" and "yearly"), without exceptions, with
    the master's start and the window away from the limits of the time
    range and a window end at most 500 days after the cursor, the two
    generators emit occurrences at the same instants, in the same order. *)
Theorem X19_backends_agree_on_day_steps base S E :
  base.(recurringPattern) <> Some "monthly"%string ->
  base.(recurringPattern) <> Some "yearly"%string ->
  awayFromLimits base.(startDate) -> awayFromLimits S -> awayFromLimits E ->
  E <= Z.max base.(startDate) S + 500 * msPerDay ->
  map startDate (Mem.generateRecurringInstances base S E [] [])
  = map startDate (Db.generateRecurringInstances base S (Some E) []).
Proof.
  intros Hm Hy Hstart HS HE Hshort.
  assert (Hcur : awayFromLimits (Z.max base.(startDate) S))
    by (unfold awayFromLimits in *; lia).
  apply ascending_unique.
  - apply spaced_starts. apply Mem_loop_spaced.
  - apply spaced_starts. unfold Db.generateRecurringInstances. cbv zeta.
    destruct (Db.instancesLoop _ base _ _ _ _) as [l |] eqn:Hl.
    + exact (proj1 (Db_loop_spaced _ _ _ _ _ _ _ Hl)).
    + constructor.
  - intros x. rewrite !in_map_iff. split.
    + intros (e & <- & Hin).
      apply Mem_generate_elem in Hin
        as (k & c & stop & _ & Hs & Hse & Hlt & _ & _ & ->).
      exists (Db.instance base c). split; [reflexivity |].
      pose proof (Mem_seriesEnd_le _ _ _ Hse) as Hstop.
      rewrite seriesEnd_agree in Hse by exact Hstart.
      apply (Db_generate_complete base S (Some E) [] k c stop);
        [| exact Hse | exact Hlt | reflexivity | reflexivity].
      apply (stepN_agree base (Z.max base.(startDate) S) E); auto; lia.
    + intros (e & <- & Hin).
      apply Db_generate_elem in Hin
        as (k & c & stop & Hs & Hse & Hlt & _ & _ & ->).
      exists (Mem.instance base c). split; [reflexivity |].
      pose proof (Db_seriesEnd_le _ _ _ Hse) as Hstop.
      rewrite <- seriesEnd_agree in Hse by exact Hstart.
      pose proof (stepN_advance _ _ _ _ (dbNext_advance base) Hs) as Hadv.
      unfold Mem.generateRecurringInstances. rewrite Hse.
      apply (Mem_loop_complete k); [| | exact Hlt | reflexivity | reflexivity].
      * unfold Mem.maxIterations, msPerDay in *. lia.
      * apply (stepN_agree base (Z.max base.(startDate) S) E); auto; lia.
Qed.

Lemma X19_backends_agree_on_day_steps_witness :
  map startDate
    (Mem.generateRecurringInstances standupEvent clock (dateOf 2024 6 1 0 0)
       [] [])
  = map startDate
      (Db.generateRecurringInstances standupEvent clock
         (Some (dateOf 2024 6 1 0 0)) []).
Proof.
  apply (X19_backends_agree_on_day_steps standupEvent clock
           (dateOf 2024 6 1 0 0)).
  - vm_compute. discriminate.
  - vm_compute. discriminate.
  - vm_compute. discriminate.
  - vm_compute. discriminate.
  - vm_compute. discriminate.
  - vm_compute. discriminate.
Defined.

End BackendAgreement.
